(** * The Jupiter trader: quote retry, swap execution and the position monitor

    A shallow embedding of [worker/jupiter_trader.py].

    Conventions of the embedding:
    - A Python float (price, percentage, SOL amount) is the rational [Q]
      it denotes; every arithmetic operation on floats rounds its exact
      result to binary64 ([fl]), comparisons are exact. Infinities and
      NaN are left out: results are taken to stay in range.
    - A Python [str] is the [string] of its UTF-8 bytes.
    - JSON values received from the aggregator are the inductive [json].
    - A coroutine is a function of the [world] (a call counter, the RPC
      handle and the chronological trace of the effects performed so far)
      returning a value or a raised exception together with the new world:
      effects performed before an exception stay in the trace.
    - What the outside answers is read from an [env], indexed by the call
      counter, together with what the Solana and datetime libraries
      compute; what the Python runtime computes on strings is read from a
      [pylib]. Theorems quantify over both.
    - Logging through [logger] has no effect that matters here and is left
      out, but for the error the monitor's outer handler logs. *)

From Stdlib Require Import ZArith QArith Qminmax String Ascii List Bool Lia.
From Stdlib Require Import Sorted DecimalString.
Import ListNotations.

Set Warnings "-register-all".
Local Open Scope string_scope.
Local Open Scope Z_scope.

(** ** Numbers *)

Definition Qleb (x y : Q) : bool := Qle_bool x y.
Definition Qltb (x y : Q) : bool := negb (Qle_bool y x).
Definition Qnonzero (x : Q) : bool := negb (Qeq_bool x 0%Q).

(** *** Binary64 *)

(** The integer nearest to [n / d], a tie going to the even one. *)
Definition round_half_even (n d : Z) : Z :=
  let q := n / d in
  let r := n mod d in
  match 2 * r ?= d with
  | Lt => q
  | Gt => q + 1
  | Eq => if Z.even q then q else q + 1
  end.

(** [v / 2 ^ k] in lowest terms. *)
Fixpoint strip (v : positive) (k : nat) : Q :=
  match k, v with
  | S k', xO v' => strip v' k'
  | _, _ => Zpos v # Pos.shiftl_nat 1 k
  end.

(** [m / 2 ^ k] in lowest terms, for [m] not negative. *)
Definition over (m : Z) (k : nat) : Q :=
  match m with
  | Zpos v => strip v k
  | _ => 0%Q
  end.

(** [n / d] rounded to a multiple of [2 ^ (k - 1074)], where [k] leaves
    53 significant bits, or is 0 where [n / d] is subnormal: the least
    positive binary64 number is [2 ^ -1074]. *)
Definition fl_pos (n d : Z) : Q :=
  let k := Z.max (Z.log2 (Z.shiftl n 1074 / d) - 52) 0 in
  if k <=? 1074
  then over (round_half_even (Z.shiftl n (1074 - k)) d) (Z.to_nat (1074 - k))
  else inject_Z (Z.shiftl (round_half_even n (Z.shiftl d (k - 1074)))
                          (k - 1074)).

(** The binary64 number nearest to [q]. *)
Definition fl (q : Q) : Q :=
  match Qnum q with
  | 0 => 0%Q
  | Zpos n => fl_pos (Zpos n) (Zpos (Qden q))
  | Zneg n => Qopp (fl_pos (Zpos n) (Zpos (Qden q)))
  end.

(** [x + y], [x - y], [x * y] and [x / y] on floats. *)
Definition fadd (x y : Q) : Q := fl (x + y).
Definition fsub (x y : Q) : Q := fl (x - y).
Definition fmul (x y : Q) : Q := fl (x * y).
Definition fdiv (x y : Q) : Q := fl (x / y).

(** ** Strings *)

Fixpoint contains (needle hay : string) : bool :=
  prefix needle hay ||
  match hay with
  | EmptyString => false
  | String _ rest => contains needle rest
  end.

Definition lower_ascii (c : ascii) : ascii :=
  let n := nat_of_ascii c in
  if (Nat.leb 65 n && Nat.leb n 90)%bool then ascii_of_nat (n + 32) else c.

(** What [str.lower] does to ASCII text. *)
Fixpoint lower (s : string) : string :=
  match s with
  | EmptyString => EmptyString
  | String c rest => String (lower_ascii c) (lower rest)
  end.

(** [s.replace(old, new)] for a one-character [old]. *)
Fixpoint replace_char (old : ascii) (new : string) (s : string) : string :=
  match s with
  | EmptyString => EmptyString
  | String c rest =>
      if Ascii.eqb c old then new ++ replace_char old new rest
      else String c (replace_char old new rest)
  end.

(** A byte that continues the UTF-8 sequence of a character. *)
Definition is_continuation (c : ascii) : bool :=
  let n := nat_of_ascii c in (Nat.leb 128 n && Nat.ltb n 192)%bool.

(** [s[:n]]: the first [n] characters. *)
Fixpoint slice_to (n : nat) (s : string) : string :=
  match s with
  | EmptyString => EmptyString
  | String c rest =>
      if is_continuation c then String c (slice_to n rest)
      else match n with
           | O => EmptyString
           | S n' => String c (slice_to n' rest)
           end
  end.

(** ** JSON values and Python's view of them *)

Inductive json : Type :=
| JNull
| JBool (b : bool)
| JNum (q : Q)
| JStr (s : string)
| JArr (l : list json)
| JObj (l : list (string * json)).

Fixpoint assoc (k : string) (l : list (string * json)) : option json :=
  match l with
  | [] => None
  | (k', v) :: rest => if String.eqb k k' then Some v else assoc k rest
  end.

(** Python truthiness. *)
Definition truthy (j : json) : bool :=
  match j with
  | JNull => false
  | JBool b => b
  | JNum q => Qnonzero q
  | JStr s => negb (String.eqb s "")
  | JArr l => match l with [] => false | _ => true end
  | JObj l => match l with [] => false | _ => true end
  end.

(** ** Exceptions and results *)

Inductive exn_kind : Type :=
| TimeoutError
| TypeError
| ValueError
| AttributeError
| ConnectionError
| HTTPError.

Record exn : Type := Exn { exn_class : exn_kind; exn_text : string }.

Inductive result (A : Type) : Type :=
| Ok (a : A)
| Raise (e : exn).
Arguments Ok {A} a.
Arguments Raise {A} e.

Definition and_then {A B} (r : result A) (k : A -> result B) : result B :=
  match r with
  | Ok a => k a
  | Raise e => Raise e
  end.

Definition is_timeout (e : exn) : bool :=
  match exn_class e with TimeoutError => true | _ => false end.

(** [type(x).__name__]; a number is taken to be a float. *)
Definition type_name (j : json) : string :=
  match j with
  | JNull => "NoneType"
  | JBool _ => "bool"
  | JNum _ => "float"
  | JStr _ => "str"
  | JArr _ => "list"
  | JObj _ => "dict"
  end.

(** [d.get(k, default)]: only a dict has [get]; the default is used only
    when the key is missing (a key bound to null yields null). *)
Definition py_get (d : json) (k : string) (default : json) : result json :=
  match d with
  | JObj l => Ok (match assoc k l with Some v => v | None => default end)
  | _ => Raise (Exn AttributeError
                  ("'" ++ type_name d ++ "' object has no attribute 'get'"))
  end.

(** What the Python runtime computes on text; not part of the repository. *)
Record pylib : Type := PyLib {
  repr_of : json -> string;            (* [str(x)] for a non-string x *)
  repr_of_string : string -> string;   (* [repr(s)] *)
  str_lower : string -> string;        (* [s.lower()] *)
  int_of_string : string -> option Z;  (* [int(s)] *)
  float_of_string : string -> option Q; (* [float(s)] *)
  format_fixed : nat -> Q -> string    (* [f"{x:.nf}"] *)
}.

Definition py_str (lib : pylib) (j : json) : string :=
  match j with
  | JStr s => s
  | _ => repr_of lib j
  end.

Definition Qtrunc (q : Q) : Z := Z.quot (Qnum q) (Zpos (Qden q)).

Definition py_int (lib : pylib) (j : json) : result Z :=
  match j with
  | JNum q => Ok (Qtrunc q)
  | JBool b => Ok (if b then 1 else 0)
  | JStr s =>
      match int_of_string lib s with
      | Some z => Ok z
      | None => Raise (Exn ValueError
                         ("invalid literal for int() with base 10: "
                          ++ repr_of_string lib s))
      end
  | _ => Raise (Exn TypeError
                  ("int() argument must be a string, a bytes-like object "
                   ++ "or a real number, not '" ++ type_name j ++ "'"))
  end.

Definition py_float (lib : pylib) (j : json) : result Q :=
  match j with
  | JNum q => Ok q
  | JBool b => Ok (if b then 1%Q else 0%Q)
  | JStr s =>
      match float_of_string lib s with
      | Some q => Ok q
      | None => Raise (Exn ValueError
                         ("could not convert string to float: "
                          ++ repr_of_string lib s))
      end
  | _ => Raise (Exn TypeError
                  ("float() argument must be a string or a real number, not '"
                   ++ type_name j ++ "'"))
  end.

(** ** HTTP responses *)

Record response : Type := Response {
  status_code : Z;
  body : option json;   (* [None]: the body is not JSON, [.json()] raises *)
  text : string
}.

Definition response_json (r : response) : result json :=
  match body r with
  | Some j => Ok j
  | None => Raise (Exn ValueError "Expecting value")
  end.

(** httpx [raise_for_status]: anything but a 2xx status raises. *)
Definition raise_for_status (r : response) : result unit :=
  if ((200 <=? status_code r) && (status_code r <? 300))%bool then Ok tt
  else Raise (Exn HTTPError "HTTP status error").

(** ** Effects *)

Inductive action : Type :=
| stop_loss
| trailing_stop
| take_profit_1
| take_profit_2
| time_based.

Inductive event : Type :=
| EvConnectRpc (endpoint : string)
| EvGetBalance
| EvGetTokenBalance (mint : string)
| EvQuoteRequest (input_mint output_mint : string) (amount slippage_bps : Z)
| EvPriceRequest (mint : string)
| EvSleep (seconds : Z)
| EvSwapRequest (quote : json)
| EvSendTransaction (signed_txn : string)
| EvConfirmTransaction (signature : string)
| EvGetOpenPositions
| EvUpdatePositionPrice (trade_id : string) (current_price : Q)
                        (highest_price : option Q)
| EvTriggerAutoSell (trade_id : string) (percentage : Z)
                    (reason : option string)
| EvLogError (e : exn).

Record world : Type := World {
  clock : nat;          (* number of outside calls answered so far *)
  rpc : bool;           (* [self.rpc] is set *)
  trace : list event    (* effects so far, oldest first *)
}.

Definition M (A : Type) : Type := world -> result A * world.

Definition ret {A} (a : A) : M A := fun w => (Ok a, w).
Definition throw {A} (e : exn) : M A := fun w => (Raise e, w).
Definition bind {A B} (m : M A) (k : A -> M B) : M B :=
  fun w => match m w with
           | (Ok a, w') => k a w'
           | (Raise e, w') => (Raise e, w')
           end.
(** [try: m  except Exception as e: h e] *)
Definition try_except {A} (m : M A) (h : exn -> M A) : M A :=
  fun w => match m w with
           | (Ok a, w') => (Ok a, w')
           | (Raise e, w') => h e w'
           end.
Definition lift {A} (r : result A) : M A := fun w => (r, w).

Declare Scope py_scope.
Delimit Scope py_scope with py.
Notation "x <- m ;; k" := (bind m (fun x => k))
  (at level 61, m at next level, right associativity) : py_scope.
Notation "m ;;; k" := (bind m (fun _ => k))
  (at level 61, right associativity) : py_scope.
Local Open Scope py_scope.

(** Record an effect that needs no answer. *)
Definition emit (e : event) : M unit :=
  fun w => (Ok tt, World (clock w) (rpc w) (trace w ++ [e])).

(** Record an effect and read the outside's answer to it. *)
Definition call {A} (e : event) (answer : nat -> A) : M A :=
  fun w => (Ok (answer (clock w)),
            World (S (clock w)) (rpc w) (trace w ++ [e])).

Definition sleep (seconds : Z) : M unit := emit (EvSleep seconds).

(** Record an outside call whose answer the code does not look at. *)
Definition tell (e : event) : M unit :=
  fun w => (Ok tt, World (S (clock w)) (rpc w) (trace w ++ [e])).

Definition get_rpc : M bool := fun w => (Ok (rpc w), w).
Definition set_rpc : M unit :=
  fun w => (Ok tt, World (clock w) true (trace w)).

(** ** Constants *)

Definition SOL_MINT : string := "So11111111111111111111111111111111111111112".
Definition USDC_MINT : string := "EPjFWdd5AufqSSqeM2qN1xzybapC8G4wEGGkZwyTDt1v".

Definition RPC_ENDPOINTS : list string :=
  [ "https://api.mainnet-beta.solana.com";
    "https://solana-mainnet.g.alchemy.com/v2/demo";
    "https://rpc.ankr.com/solana" ].

Definition POSITION_CHECK_INTERVAL : Z := 5.

(** ** The outside world *)

(** Parsed [datetime.fromisoformat] result: an error, a naive datetime
    (comparing it with an aware one raises) or an aware instant. *)
Inductive iso_result : Type :=
| IsoError
| IsoNaive
| IsoAware (instant : Z).

Record env : Type := Env {
  rpc_latest_blockhash : nat -> result unit;
  rpc_get_balance : nat -> result Z;             (* lamports *)
  (* token accounts of the owner: none, or the amount in the first one *)
  rpc_token_accounts : nat -> result (option Z);
  rpc_send_raw_transaction : nat -> result string;
  rpc_confirm_transaction : nat -> result unit;
  http_get_quote : nat -> result response;
  http_get_price : nat -> result response;
  http_post_swap : nat -> result response;
  (* base64 decoding, deserialising and signing of [swapTransaction] *)
  sign_swap_transaction : json -> result string;
  (* [Pubkey.from_string]: raises unless the text is a public key *)
  pubkey_from_string : string -> result unit;
  fromisoformat : string -> iso_result;
  now_utc : nat -> Z
}.

Record TradeResult : Type := mkTradeResult {
  success : bool;
  signature : option string;
  error : option string;
  expected_output : option Z;
  tokens_received : option Z
}.

Definition failed (msg : string) : TradeResult :=
  mkTradeResult false None (Some msg) None None.

Section Trader.

Variable lib : pylib.
Variable E : env.

(** *** [connect_rpc] *)

Fixpoint connect_endpoints (endpoints : list string) : M unit :=
  match endpoints with
  | [] => throw (Exn ConnectionError
                     "Failed to connect to any Solana RPC endpoint")
  | endpoint :: rest =>
      set_rpc ;;;
      r <- call (EvConnectRpc endpoint) (rpc_latest_blockhash E) ;;
      match r with
      | Ok _ => ret tt
      | Raise _ => connect_endpoints rest
      end
  end.

Definition connect_rpc : M unit := connect_endpoints RPC_ENDPOINTS.

(** [if not self.rpc: await self.connect_rpc()] *)
Definition ensure_rpc : M unit :=
  connected <- get_rpc ;;
  if connected then ret tt else connect_rpc.

(** *** [get_balance] *)

Definition get_balance : M Q :=
  ensure_rpc ;;;
  r <- call EvGetBalance (rpc_get_balance E) ;;
  lamports <- lift r ;;
  ret (fdiv (inject_Z lamports) 1000000000).

(** *** [get_token_balance] *)

Definition get_token_balance (mint_address : string) : M (option Z) :=
  ensure_rpc ;;;
  try_except
    (lift (pubkey_from_string E mint_address) ;;;
     r <- call (EvGetTokenBalance mint_address) (rpc_token_accounts E) ;;
     accounts <- lift r ;;
     match accounts with
     | None => ret (Some 0)
     | Some token_amount => ret (Some token_amount)
     end)
    (fun _ => ret None).

(** *** [get_quote] *)

Definition is_no_route (error_msg : json) : bool :=
  contains "No route found" (py_str lib error_msg)
  || contains "could not find" (str_lower lib (py_str lib error_msg)).

(** What the [try] of one attempt makes of the reply to its request:
    [Some r] is [return r], [None] is falling out of the [try] into the
    next iteration. *)
Definition read_quote_reply (reply : result response)
  : result (option (option json)) :=
  and_then reply (fun response =>
  and_then
    (if status_code response =? 400 then
       and_then (response_json response) (fun error_data =>
       and_then (py_get error_data "error" (JStr "Unknown error"))
                (fun error_msg => Ok (is_no_route error_msg)))
     else Ok false) (fun stop : bool =>
  if stop then Ok (Some None)
  else
    and_then (raise_for_status response) (fun _ =>
    and_then (response_json response) (fun quote =>
    and_then (if truthy quote then py_get quote "outAmount" JNull
              else Ok quote) (fun out =>
    if truthy out then Ok (Some (Some quote)) else Ok None))))).

Definition quote_attempt (input_mint output_mint : string)
    (amount slippage_bps : Z) : M (option (option json)) :=
  r <- call (EvQuoteRequest input_mint output_mint amount slippage_bps)
            (http_get_quote E) ;;
  lift (read_quote_reply r).

(** [todo] iterations of [for attempt in range(retries)] remain. *)
Fixpoint quote_attempts (input_mint output_mint : string)
    (amount slippage_bps retries : Z) (todo : nat) (attempt : Z)
  : M (option json) :=
  match todo with
  | O => ret None
  | S todo' =>
      r <- try_except
             (quote_attempt input_mint output_mint amount slippage_bps)
             (fun _ =>
                (if attempt <? retries - 1 then sleep 1 else ret tt) ;;;
                ret None) ;;
      match r with
      | Some returned => ret returned
      | None =>
          quote_attempts input_mint output_mint amount slippage_bps retries
                         todo' (attempt + 1)
      end
  end.

Definition get_quote (input_mint output_mint : string)
    (amount slippage_bps retries : Z) : M (option json) :=
  quote_attempts input_mint output_mint amount slippage_bps retries
                 (Z.to_nat retries) 0.

(** *** [get_token_price_sol] *)

Definition get_token_price_sol (mint_address : string) : M (option Q) :=
  try_except
    (r <- call (EvPriceRequest mint_address) (http_get_price E) ;;
     response <- lift r ;;
     lift (raise_for_status response) ;;;
     data <- lift (response_json response) ;;
     inner <- lift (py_get data "data" (JObj [])) ;;
     price_data <- lift (py_get inner mint_address JNull) ;;
     if truthy price_data then
       price <- lift (py_get price_data "price" (JNum 0%Q)) ;;
       p <- lift (py_float lib price) ;;
       ret (Some p)
     else ret None)
    (fun _ => ret None).

(** *** [execute_swap] *)

(** [int(quote.get("outAmount", 0))] *)
Definition out_amount (quote : json) : result Z :=
  and_then (py_get quote "outAmount" (JNum 0%Q)) (py_int lib).

(** From the submitted transaction to the result: the confirmation wait,
    whose own [try] catches only the timeout, and the success result. *)
Definition confirm_and_report (quote : json) (tx_signature : string)
  : M TradeResult :=
  try_except
    (c <- call (EvConfirmTransaction tx_signature)
               (rpc_confirm_transaction E) ;;
     lift c)
    (fun e => if is_timeout e then ret tt else throw e) ;;;
  expected <- lift (out_amount quote) ;;
  received <- lift (out_amount quote) ;;
  ret (mkTradeResult true (Some tx_signature) None
                     (Some expected) (Some received)).

(** The body of the outer [try]. *)
Definition execute_swap_body (quote : json) : M TradeResult :=
  ensure_rpc ;;;
  r <- call (EvSwapRequest quote) (http_post_swap E) ;;
  response <- lift r ;;
  if negb (status_code response =? 200) then
    ret (failed ("Jupiter swap API error: "
                 ++ slice_to 100 (text response)))
  else
    swap_result <- lift (response_json response) ;;
    swap_tx <- lift (py_get swap_result "swapTransaction" JNull) ;;
    if negb (truthy swap_tx) then
      ret (failed "No swap transaction returned from Jupiter")
    else
      signed_txn <- lift (sign_swap_transaction E swap_tx) ;;
      sent <- call (EvSendTransaction signed_txn)
                   (rpc_send_raw_transaction E) ;;
      tx_signature <- lift sent ;;
      confirm_and_report quote tx_signature.

Definition execute_swap (quote : json) : M TradeResult :=
  try_except (execute_swap_body quote)
             (fun e => ret (failed (exn_text e))).

(** *** [buy_token] and [sell_token] *)

Definition buy_token (contract_address : string) (amount_sol : Q)
    (slippage_bps : Z) : M TradeResult :=
  let lamports := Qtrunc (fmul amount_sol 1000000000) in
  balance <- get_balance ;;
  if Qltb balance (fadd amount_sol (fl (1 # 100))) then
    ret (failed ("Insufficient SOL balance: " ++ format_fixed lib 4 balance))
  else
    quote <- get_quote SOL_MINT contract_address lamports slippage_bps 3 ;;
    match quote with
    | Some q =>
        if truthy q then
          expected_tokens <- lift (out_amount q) ;;
          execute_swap q
        else ret (failed "Failed to get Jupiter quote")
    | None => ret (failed "Failed to get Jupiter quote")
    end.

Definition sell_token (contract_address : string) (percentage : Z)
    (slippage_bps : Z) : M TradeResult :=
  ensure_rpc ;;;
  token_amount <- get_token_balance contract_address ;;
  match token_amount with
  | None => ret (failed "No token balance found")
  | Some token_amount =>
      if token_amount <=? 0 then ret (failed "No token balance found")
      else
        let sell_amount := (token_amount * percentage) / 100 in
        if sell_amount <=? 0 then ret (failed "No tokens to sell")
        else
          quote <- get_quote contract_address SOL_MINT sell_amount
                             slippage_bps 3 ;;
          match quote with
          | Some q =>
              if truthy q then
                expected_sol <- lift (out_amount q) ;;
                execute_swap q
              else ret (failed "Failed to get Jupiter quote for sell")
          | None => ret (failed "Failed to get Jupiter quote for sell")
          end
  end.

End Trader.

(** ** Channel policies *)

Record ChannelConfig : Type := mkChannelConfig {
  priority : string;
  allocation_sol : Q;
  stop_loss_pct : Q;
  take_profit_1_pct : Q;
  take_profit_2_pct : Q;
  trailing_stop_enabled : bool;
  trailing_stop_pct : Q;
  time_based_sell_enabled : bool;
  time_based_sell_minutes : option Z;
  auto_sell_enabled : bool
}.

Definition CHANNEL_CONFIGS : list (string * ChannelConfig) :=
  [ ("memecoin-alpha",
     mkChannelConfig "high" (1 # 2) (-25) 100 200 true 15 false None true);
    ("memecoin-chat",
     mkChannelConfig "low" (fl (1 # 10)) (-15) 50 100 true 10 true
                     (Some 30%Z) true);
    ("under-100k",
     mkChannelConfig "low" (fl (1 # 10)) (-20) 75 150 true 12 true
                     (Some 45%Z) true)
  ]%Q.

Definition default_config : ChannelConfig :=
  mkChannelConfig "medium" (1 # 4) (-30) 100 200 false 15 false None true%Q.

Fixpoint first_match (table : list (string * ChannelConfig))
    (channel_lower : string) : ChannelConfig :=
  match table with
  | [] => default_config
  | (pattern, config) :: rest =>
      if contains pattern channel_lower then config
      else first_match rest channel_lower
  end.

(** The argument is what [pos.get('channel_name', '')] produced: [None]
    when the key is bound to null, on which [.lower()] raises. *)
Definition get_channel_config (lib : pylib) (channel_name : option string)
  : result ChannelConfig :=
  match channel_name with
  | None => Raise (Exn AttributeError
                       "'NoneType' object has no attribute 'lower'")
  | Some name => Ok (first_match CHANNEL_CONFIGS (str_lower lib name))
  end.

(** ** Positions *)

(** A key of the position dict read with a default: missing, bound to
    null, or bound to a value. *)
Inductive field (A : Type) : Type :=
| Missing
| Null
| Present (a : A).
Arguments Missing {A}.
Arguments Null {A}.
Arguments Present {A} a.

(** [pos.get(key, default)] *)
Definition get_default {A} (f : field A) (default : A) : option A :=
  match f with
  | Missing => Some default
  | Null => None
  | Present a => Some a
  end.

Record position : Type := mkPosition {
  pos_id : string;
  pos_contract_address : option string;
  pos_entry_price : option Q;
  pos_status : option string;
  pos_channel_name : field string;
  pos_highest_price : option Q;
  pos_auto_sell_enabled : field bool;
  pos_trailing_stop_enabled : field bool;
  pos_trailing_stop_pct : field Q;
  pos_time_based_sell_at : option string;
  pos_stop_loss_pct : field Q;
  pos_take_profit_1_pct : field Q;
  pos_take_profit_2_pct : field Q
}.

Definition is_true (b : option bool) : bool :=
  match b with Some true => true | _ => false end.

Definition nonempty (s : option string) : bool :=
  match s with
  | Some s => negb (String.eqb s "")
  | None => false
  end.

Definition status_is (s : option string) (name : string) : bool :=
  match s with
  | Some s => String.eqb s name
  | None => false
  end.

(** [pnl_pct <= x] and [pnl_pct >= x] where [x] may be [None]. *)
Definition le_or_raise (x : Q) (y : option Q) : result bool :=
  match y with
  | Some y => Ok (Qleb x y)
  | None => Raise (Exn TypeError
               "'<=' not supported between instances of 'float' and 'NoneType'")
  end.
Definition ge_or_raise (x : Q) (y : option Q) : result bool :=
  match y with
  | Some y => Ok (Qleb y x)
  | None => Raise (Exn TypeError
               "'>=' not supported between instances of 'float' and 'NoneType'")
  end.

(** *** The arithmetic of one evaluation *)

Definition pnl_pct (current_price entry_price : Q) : Q :=
  if Qltb 0 entry_price
  then fmul (fdiv (fsub current_price entry_price) entry_price) 100
  else 0%Q.

Definition new_highest (highest_price : option Q) (current_price : Q) : Q :=
  match highest_price with
  | None => current_price
  | Some h => if Qltb h current_price then current_price else h
  end.

Definition drop_from_high (new_highest current_price : Q) : Q :=
  if Qltb 0 new_highest
  then fmul (fdiv (fsub new_highest current_price) new_highest) 100
  else 0%Q.

(** [trailing_stop_pct or config.trailing_stop_pct] *)
Definition trailing_pct (pos : position) (config : ChannelConfig) : Q :=
  match get_default (pos_trailing_stop_pct pos) 15%Q with
  | Some t => if Qnonzero t then t else trailing_stop_pct config
  | None => trailing_stop_pct config
  end.

(** The locals [action_needed], [sell_percentage] and [reason]. *)
Record decision : Type := mkDecision {
  action_needed : option action;
  sell_percentage : Z;
  reason : option string
}.

Definition no_action : decision := mkDecision None 100 None.

Definition fired (a : action) (percentage : Z) (why : string) : decision :=
  mkDecision (Some a) percentage (Some why).

Definition acted (d : decision) : bool :=
  match action_needed d with Some _ => true | None => false end.

Section Monitor.

Variable lib : pylib.
Variable E : env.

(** *** Checks 1 to 4: the [if]/[elif] chain *)

Definition price_triggers (pos : position) (config : ChannelConfig)
    (pnl current_price highest : Q) : result decision :=
  match le_or_raise pnl (get_default (pos_stop_loss_pct pos)
                                     (stop_loss_pct config)) with
  | Raise e => Raise e
  | Ok true =>
      Ok (fired stop_loss 100
                ("Stop loss hit at " ++ format_fixed lib 1 pnl ++ "%"))
  | Ok false =>
      if (is_true (get_default (pos_trailing_stop_enabled pos) false)
          && Qnonzero highest && Qltb 0 pnl)%bool then
        let drop := drop_from_high highest current_price in
        if Qleb (trailing_pct pos config) drop then
          Ok (fired trailing_stop 100
                    ("Trailing stop: dropped " ++ format_fixed lib 1 drop
                     ++ "% from high"))
        else Ok no_action
      else if status_is (pos_status pos) "bought" then
        match ge_or_raise pnl (get_default (pos_take_profit_1_pct pos)
                                           (take_profit_1_pct config)) with
        | Raise e => Raise e
        | Ok true =>
            Ok (fired take_profit_1 50
                      ("TP1 hit at " ++ format_fixed lib 1 pnl ++ "%"))
        | Ok false => Ok no_action
        end
      else if status_is (pos_status pos) "partial_tp1" then
        match ge_or_raise pnl (get_default (pos_take_profit_2_pct pos)
                                           (take_profit_2_pct config)) with
        | Raise e => Raise e
        | Ok true =>
            Ok (fired take_profit_2 100
                      ("TP2 hit at " ++ format_fixed lib 1 pnl ++ "%"))
        | Ok false => Ok no_action
        end
      else Ok no_action
  end.

(** *** Check 5: the time-based sell; its own [try] swallows a parse
    error and the [TypeError] of comparing with a naive datetime. *)
Definition time_trigger (pos : position) (now : Z) (d : decision)
  : decision :=
  if (negb (acted d) && nonempty (pos_time_based_sell_at pos))%bool then
    match pos_time_based_sell_at pos with
    | Some stamp =>
        match fromisoformat E (replace_char "Z" "+00:00" stamp) with
        | IsoAware sell_time =>
            if sell_time <=? now then
              fired time_based 100 "Time-based auto-sell triggered"
            else d
        | IsoNaive => d
        | IsoError => d
        end
    | None => d
    end
  else d.

(** *** The price of a position, with the quote fallback *)

Definition fallback_price (contract_address : string) : M (option Q) :=
  token_balance <- get_token_balance E contract_address ;;
  match token_balance with
  | Some token_balance =>
      if 0 <? token_balance then
        quote <- get_quote lib E contract_address SOL_MINT token_balance
                           100 3 ;;
        match quote with
        | Some q =>
            if truthy q then
              amount <- lift (out_amount lib q) ;;
              let current_value := fdiv (inject_Z amount) 1000000000 in
              ret (Some (fdiv current_value
                              (fdiv (inject_Z token_balance) 1000000)))
            else ret None
        | None => ret None
        end
      else ret None
  | None => ret None
  end.

Definition read_now : M Z := fun w => (Ok (now_utc E (clock w)), w).

(** *** The body of [for pos in positions] *)

Definition evaluate (pos : position) (contract_address : string)
    (entry_price current_price : Q) (config : ChannelConfig) : M unit :=
  let pnl := pnl_pct current_price entry_price in
  let highest := new_highest (pos_highest_price pos) current_price in
  d <- lift (price_triggers pos config pnl current_price highest) ;;
  now <- read_now ;;
  let d := time_trigger pos now d in
  tell (EvUpdatePositionPrice (pos_id pos) current_price (Some highest)) ;;;
  if acted d then
    tell (EvTriggerAutoSell (pos_id pos) (sell_percentage d) (reason d))
  else ret tt.

Definition monitor_position (pos : position) : M unit :=
  match pos_contract_address pos, pos_entry_price pos with
  | Some contract_address, Some entry_price =>
      if (String.eqb contract_address "" || negb (Qnonzero entry_price))%bool
      then ret tt
      else if negb (is_true (get_default (pos_auto_sell_enabled pos) true))
      then ret tt
      else
        config <- lift (get_channel_config lib
                          (get_default (pos_channel_name pos) "")) ;;
        current_price <- get_token_price_sol lib E contract_address ;;
        current_price <-
          match current_price with
          | Some p => ret (Some p)
          | None => fallback_price contract_address
          end ;;
        match current_price with
        | None => ret tt
        | Some current_price =>
            evaluate pos contract_address entry_price current_price config
        end
  | _, _ => ret tt
  end.

Fixpoint for_each (positions : list position) : M unit :=
  match positions with
  | [] => ret tt
  | pos :: rest => monitor_position pos ;;; for_each rest
  end.

(** *** One iteration of [while self.running] *)

Definition monitor_cycle (api_open_positions : nat -> list position)
  : M unit :=
  try_except
    (positions <- call EvGetOpenPositions api_open_positions ;;
     for_each positions ;;;
     sleep POSITION_CHECK_INTERVAL)
    (fun e => emit (EvLogError e) ;;; sleep 30).

End Monitor.

(** ** The trade processor *)

(** What the processor tells the backend or asks of it. The methods of
    the API client catch every exception themselves; the text of a log
    message is left out, its level and [details] are kept. *)
Inductive report : Type :=
| RPendingTrades
| RPendingSells
| RTradeBought (trade_id : string) (signature : option string)
               (expected_tokens : option Z)
| RTradeFailed (trade_id : string) (error_message : option string)
| RSellExecuted (sell_id : string) (tx_hash : option string)
                (realized_sol : Q)
| RSellFailed (sell_id : string) (error_message : option string)
| RPartialTp1 (trade_id : string)
| RLog (level : string) (details : string).

(** The world of the processor: the world of the trader and what has
    gone to the backend, oldest first. *)
Record pworld : Type := PWorld {
  base : world;
  reports : list report
}.

Definition P (A : Type) : Type := pworld -> result A * pworld.

Definition pret {A} (a : A) : P A := fun pw => (Ok a, pw).
Definition pthrow {A} (e : exn) : P A := fun pw => (Raise e, pw).
Definition pbind {A B} (m : P A) (k : A -> P B) : P B :=
  fun pw => match m pw with
            | (Ok a, pw') => k a pw'
            | (Raise e, pw') => (Raise e, pw')
            end.
Definition ptry {A} (m : P A) (h : exn -> P A) : P A :=
  fun pw => match m pw with
            | (Ok a, pw') => (Ok a, pw')
            | (Raise e, pw') => h e pw'
            end.

(** Run a coroutine of the trader. *)
Definition in_base {A} (m : M A) : P A :=
  fun pw => match m (base pw) with
            | (r, w') => (r, PWorld w' (reports pw))
            end.

(** A call of the API client: it is answered, and recorded. *)
Definition backend {A} (r : report) (answer : nat -> A) : P A :=
  fun pw =>
    (Ok (answer (clock (base pw))),
     PWorld (World (S (clock (base pw))) (rpc (base pw)) (trace (base pw)))
            (reports pw ++ [r])).

Definition send (r : report) : P unit := backend r (fun _ => tt).

(** A pending trade, as [trade.get] reads it: no key is required. *)
Record trade : Type := mkTrade {
  trade_id : string;
  trade_contract_address : option string;
  trade_allocation_sol : option Q    (* missing: the default 0.1 *)
}.

(** A pending sell. [sell_trades] is the [contract_address] of the
    nested [trades] object: the key [trades] may be missing (then [{}] is
    used), bound to null, or bound to an object. [sell_percent] and
    [sell_slippage_bps] are integers when present. *)
Record sell : Type := mkSell {
  sell_id : string;
  sell_trades : field (option string);
  sell_percent : option Z;           (* missing: 100 *)
  sell_slippage_bps : option Z;      (* missing: 100 *)
  sell_trade_id : option string
}.

Definition or_default {A} (x : option A) (default : A) : A :=
  match x with Some a => a | None => default end.

(** [f"{x}"] of an optional string. *)
Definition shown (x : option string) : string := or_default x "None".

Section Processor.

Variable lib : pylib.
Variable E : env.

(** The body of [for trade in trades]. The log line before the [try]
    slices [contract_address], which raises on [None]. *)
Definition process_buy (t : trade) : P unit :=
  let amount_sol := or_default (trade_allocation_sol t) (fl (1 # 10)) in
  match trade_contract_address t with
  | None => pthrow (Exn TypeError "'NoneType' object is not subscriptable")
  | Some contract_address =>
      ptry
        (pbind (in_base (buy_token lib E contract_address amount_sol 100))
           (fun result =>
              if success result then
                pbind (send (RTradeBought (trade_id t) (signature result)
                                          (expected_output result)))
                  (fun _ => send (RLog "success"
                                       ("TX: " ++ shown (signature result))))
              else
                pbind (send (RTradeFailed (trade_id t) (error result)))
                  (fun _ => send (RLog "error"
                                       ("Trade ID: " ++ trade_id t)))))
        (fun e => send (RTradeFailed (trade_id t) (Some (exn_text e))))
  end.

(** The body of [for sell in sells]. *)
Definition process_sell (s : sell) : P unit :=
  match get_default (sell_trades s) None with
  | None => pthrow (Exn AttributeError
                        "'NoneType' object has no attribute 'get'")
  | Some contract_address =>
      let percentage := or_default (sell_percent s) 100 in
      let slippage := or_default (sell_slippage_bps s) 100 in
      if negb (nonempty contract_address) then
        send (RSellFailed (sell_id s) (Some "Missing contract address"))
      else
        ptry
          (pbind (in_base (sell_token lib E (or_default contract_address "")
                                      percentage slippage))
             (fun result =>
                if success result then
                  let realized_sol :=
                    fdiv (inject_Z (or_default (expected_output result) 0%Z))
                         1000000000 in
                  pbind (send (RSellExecuted (sell_id s) (signature result)
                                             realized_sol))
                    (fun _ =>
                  pbind (send (RLog "success"
                                    ("TX: " ++ shown (signature result))))
                    (fun _ =>
                  if (nonempty (sell_trade_id s) && (percentage =? 50))%bool
                  then send (RPartialTp1 (or_default (sell_trade_id s) ""))
                  else pret tt))
                else
                  pbind (send (RSellFailed (sell_id s) (error result)))
                    (fun _ => send (RLog "error"
                                         ("Sell ID: " ++ sell_id s)))))
          (fun e => send (RSellFailed (sell_id s) (Some (exn_text e))))
  end.

Fixpoint each {A} (body : A -> P unit) (items : list A) : P unit :=
  match items with
  | [] => pret tt
  | item :: rest => pbind (body item) (fun _ => each body rest)
  end.

(** One iteration of [while self.running] in [process_pending_trades]. *)
Definition process_cycle (pending_trades : nat -> list trade)
    (pending_sells : nat -> list sell) : P unit :=
  ptry
    (pbind (backend RPendingTrades pending_trades) (fun trades =>
     pbind (each process_buy trades) (fun _ =>
     pbind (backend RPendingSells pending_sells) (fun sells =>
     pbind (each process_sell sells) (fun _ =>
     in_base (sleep 3))))))
    (fun _ => in_base (sleep 10)).

End Processor.

(** * Vocabulary of the properties *)

(** ** What a run adds to the trace *)

Definition count (p : event -> bool) (t : list event) : nat :=
  List.length (filter p t).

(** [adds p n m]: a run of [m] only appends to the trace, and appends at
    most [n] events that satisfy [p]. *)
Definition adds {A} (p : event -> bool) (n : nat) (m : M A) : Prop :=
  forall w, exists d,
    trace (snd (m w)) = (trace w ++ d)%list /\ (count p d <= n)%nat.

Definition added (w w1 : world) : list event :=
  skipn (List.length (trace w)) (trace w1).

Definition is_sell (e : event) : bool :=
  match e with EvTriggerAutoSell _ _ _ => true | _ => false end.

Definition is_quote_or_swap (e : event) : bool :=
  match e with
  | EvQuoteRequest _ _ _ _ => true
  | EvSwapRequest _ => true
  | EvSendTransaction _ => true
  | _ => false
  end.

Definition is_quote_request (e : event) : bool :=
  match e with EvQuoteRequest _ _ _ _ => true | _ => false end.

(** [p] counts only reports to the backend. *)
Definition backend_only (p : event -> bool) : Prop :=
  forall e, p e = true ->
    match e with
    | EvUpdatePositionPrice _ _ _ | EvTriggerAutoSell _ _ _ => True
    | _ => False
    end.

Definition Qsame (x y : Q) : bool :=
  ((Qnum x =? Qnum y) && Pos.eqb (Qden x) (Qden y))%bool.

(** A price update that does not carry the new highest price. *)
Definition misreports (pos : position) (e : event) : bool :=
  match e with
  | EvUpdatePositionPrice _ current (Some h) =>
      negb (Qsame h (new_highest (pos_highest_price pos) current))
  | EvUpdatePositionPrice _ _ None => true
  | _ => false
  end.

(** The auto-sell requests a decision leads to. *)
Definition requests (pos : position) (d : decision) : list event :=
  if acted d then
    [EvTriggerAutoSell (pos_id pos) (sell_percentage d) (reason d)]
  else [].

(** ** The exit triggers *)

(** The condition of each of the four price triggers, as the monitor
    tests it. A threshold bound to null makes the test raise; such a
    condition does not hold. *)
Definition threshold_met (cmp : Q -> Q -> bool) (t : option Q) (pnl : Q)
  : bool :=
  match t with
  | Some t => cmp pnl t
  | None => false
  end.

Definition holds (pos : position) (config : ChannelConfig)
    (pnl current_price highest : Q) (a : action) : bool :=
  match a with
  | stop_loss =>
      threshold_met Qleb
        (get_default (pos_stop_loss_pct pos) (stop_loss_pct config)) pnl
  | trailing_stop =>
      is_true (get_default (pos_trailing_stop_enabled pos) false)
      && Qnonzero highest && Qltb 0 pnl
      && Qleb (trailing_pct pos config) (drop_from_high highest current_price)
  | take_profit_1 =>
      status_is (pos_status pos) "bought"
      && threshold_met (fun p t => Qleb t p)
           (get_default (pos_take_profit_1_pct pos) (take_profit_1_pct config))
           pnl
  | take_profit_2 =>
      status_is (pos_status pos) "partial_tp1"
      && threshold_met (fun p t => Qleb t p)
           (get_default (pos_take_profit_2_pct pos) (take_profit_2_pct config))
           pnl
  | time_based => false
  end%bool.

(** Stop-loss > trailing-stop > TP1 > TP2. *)
Definition priority_order : list action :=
  [stop_loss; trailing_stop; take_profit_1; take_profit_2].

Definition several_hold (pos : position) (config : ChannelConfig)
    (pnl current_price highest : Q) : Prop :=
  (2 <= List.length
          (filter (holds pos config pnl current_price highest)
                  priority_order))%nat.

Definition highest_priority (pos : position) (config : ChannelConfig)
    (pnl current_price highest : Q) : option action :=
  find (holds pos config pnl current_price highest) priority_order.

(** ** The run of the monitor for one position *)

(** How the monitor prices a position: the price index first, the quote
    fallback when the index has no price. *)
Definition current_price_of (lib : pylib) (E : env) (contract : string)
  : M (option Q) :=
  current_price <- get_token_price_sol lib E contract ;;
  match current_price with
  | Some p => ret (Some p)
  | None => fallback_price lib E contract
  end.

(** From the world [w] the monitor gets as far as the checks for the
    position: the guards let it through, its channel has a policy and the
    price is known, in the world [w1]. *)
Definition reaches_checks (lib : pylib) (E : env) (pos : position)
    (w : world) (contract : string) (entry : Q) (config : ChannelConfig)
    (current : Q) (w1 : world) : Prop :=
  pos_contract_address pos = Some contract /\ contract <> "" /\
  pos_entry_price pos = Some entry /\ ~ entry == 0 /\
  is_true (get_default (pos_auto_sell_enabled pos) true) = true /\
  get_channel_config lib (get_default (pos_channel_name pos) "") = Ok config
  /\ current_price_of lib E contract w = (Ok (Some current), w1).

(** The request of the time-based exit. *)
Definition time_based_request (pos : position) : event :=
  EvTriggerAutoSell (pos_id pos) 100 (Some "Time-based auto-sell triggered").

(** [time_based_sell_at] is set, parses to an instant, and that instant
    is not after [now]. *)
Definition time_is_up (E : env) (pos : position) (now : Z) : Prop :=
  exists stamp sell_time,
    pos_time_based_sell_at pos = Some stamp /\ stamp <> "" /\
    fromisoformat E (replace_char "Z" "+00:00" stamp) = IsoAware sell_time /\
    sell_time <= now.

(** ** The highest price over consecutive cycles *)

(** Python's [max(a, b)]: [b] when [b > a], otherwise [a]. *)
Definition py_max (a b : Q) : Q := if Qltb a b then b else a.

(** Modelled from the spec: the backend, which is not part of the worker,
    stores the highest price reported for a trade and hands it back as
    [highest_price] in the next cycle. [reported_highs stored prices] are
    the values the monitor then reports over consecutive cycles in which
    it observes [prices]. *)
Fixpoint reported_highs (stored : option Q) (prices : list Q) : list Q :=
  match prices with
  | [] => []
  | current :: later =>
      let h := new_highest stored current in
      h :: reported_highs (Some h) later
  end.

(** ** Replies to a quote request *)

(** The structured "no route" reply: status 400 with a JSON object whose
    [error] text names the missing route. *)
Definition no_route_reply (lib : pylib) (reply : result response) : Prop :=
  exists r error_data error_msg,
    reply = Ok r /\ status_code r = 400 /\ body r = Some error_data /\
    py_get error_data "error" (JStr "Unknown error") = Ok error_msg /\
    (contains "No route found" (py_str lib error_msg) = true \/
     contains "could not find" (str_lower lib (py_str lib error_msg)) = true).

(** Any other failure: the request itself raised (network, timeout), or
    the status is not a 2xx one. *)
Definition http_or_network_error (lib : pylib) (reply : result response)
  : Prop :=
  (exists e, reply = Raise e) \/
  (exists r, reply = Ok r /\ (status_code r < 200 \/ 300 <= status_code r))
  /\ ~ no_route_reply lib reply.

(** The trace of [n] attempts that all fail: a request, a second of
    sleep, a request, ..., a request. *)
Fixpoint retry_trace (request : event) (n : nat) : list event :=
  match n with
  | O => []
  | S n' =>
      match n' with
      | O => [request]
      | S _ => request :: EvSleep 1 :: retry_trace request n'
      end
  end.

Definition after_request (request : event) (w : world) (more : list event)
  : world :=
  World (S (clock w)) (rpc w) (trace w ++ request :: more).

(** A reply after which the loop goes on. *)
Definition goes_on (lib : pylib) (E : env) (n : nat) : Prop :=
  forall r, read_quote_reply lib (http_get_quote E n) <> Ok (Some r).

(** ** More of the quote service *)

Definition is_sleep (e : event) : bool :=
  match e with EvSleep _ => true | _ => false end.

(** A 2xx reply that carries no usable quote: a falsy JSON value, or an
    object whose [outAmount] is missing or falsy. *)
Definition unusable_reply (reply : result response) : Prop :=
  exists r q,
    reply = Ok r /\ 200 <= status_code r < 300 /\ body r = Some q /\
    (truthy q = false \/
     exists l, q = JObj l /\
               truthy (or_default (assoc "outAmount" l) JNull) = false).

(** A 2xx reply that carries a quote. *)
Definition quote_reply (reply : result response) (q : json) : Prop :=
  exists r l out,
    reply = Ok r /\ 200 <= status_code r < 300 /\ body r = Some q /\
    q = JObj l /\ assoc "outAmount" l = Some out /\ truthy out = true.

(** ** Channel policies *)

(** A policy with a loss threshold below zero, two rising profit
    thresholds above it, a positive trailing distance and allocation, and
    auto-sell on. *)
Definition sane_config (c : ChannelConfig) : Prop :=
  (stop_loss_pct c < 0)%Q /\ (0 < take_profit_1_pct c)%Q /\
  (take_profit_1_pct c < take_profit_2_pct c)%Q /\
  (0 < trailing_stop_pct c)%Q /\ (0 < allocation_sol c)%Q /\
  auto_sell_enabled c = true.

Definition under_config : ChannelConfig :=
  first_match CHANNEL_CONFIGS (lower "under-100k").

(** Text of ASCII characters only. *)
Fixpoint ascii_text (s : string) : bool :=
  match s with
  | EmptyString => true
  | String c rest => (Nat.ltb (nat_of_ascii c) 128 && ascii_text rest)%bool
  end.

(** On ASCII text [str.lower] lowers the letters A to Z and leaves the
    rest. *)
Definition lowers_ascii (lib : pylib) : Prop :=
  forall s, ascii_text s = true -> str_lower lib s = lower s.

(** ** Binary64 *)

Definition grid : Z := 2 ^ 1074.

(** The exponent of [n / d] above the least one. *)
Definition exponent_of (n d : Z) : Z :=
  Z.max (Z.log2 (n * grid / d) - 52) 0.

(** [n / d] in units of [2 ^ -1074], rounded. *)
Definition fl_units (n d : Z) : Z :=
  round_half_even (n * grid) (d * 2 ^ exponent_of n d) * 2 ^ exponent_of n d.

(** A rational that is a binary64 number. *)
Definition is_float (q : Q) : Prop := fl q == q.

(** ** Text *)

(** The number of characters of UTF-8 text. *)
Fixpoint characters (s : string) : nat :=
  match s with
  | EmptyString => O
  | String c rest =>
      ((if is_continuation c then 0 else 1) + characters rest)%nat
  end.

(** ** More predicates on events *)

Definition is_send (e : event) : bool :=
  match e with EvSendTransaction _ => true | _ => false end.

Definition is_confirm (e : event) : bool :=
  match e with EvConfirmTransaction _ => true | _ => false end.

Definition is_connect (e : event) : bool :=
  match e with EvConnectRpc _ => true | _ => false end.

(** What only the swap executor and [buy_token] do: building, sending or
    confirming a transaction, reading the SOL balance. *)
Definition is_execution (e : event) : bool :=
  match e with
  | EvSwapRequest _ | EvSendTransaction _ | EvConfirmTransaction _
  | EvGetBalance => true
  | _ => false
  end.

Definition no_endpoint : exn :=
  Exn ConnectionError "Failed to connect to any Solana RPC endpoint".

(** ** More of the position monitor *)

(** A report to the backend: a price update or an auto-sell request. *)
Definition is_backend (e : event) : bool :=
  match e with
  | EvUpdatePositionPrice _ _ _ | EvTriggerAutoSell _ _ _ => true
  | _ => false
  end.

(** What the evaluation of a position does: connecting, reading the
    token balance, asking for a price or a quote, the one-second pause
    between two quote attempts, and the two reports to the backend. *)
Definition is_position_step (e : event) : bool :=
  match e with
  | EvConnectRpc _ | EvGetTokenBalance _ | EvQuoteRequest _ _ _ _
  | EvPriceRequest _ | EvUpdatePositionPrice _ _ _
  | EvTriggerAutoSell _ _ _ => true
  | EvSleep seconds => seconds =? 1
  | _ => false
  end.

(** [p] counts nothing of what the evaluation of a position can do. *)
Definition blind_to_monitor (p : event -> bool) : Prop :=
  forall e, p e = true ->
    match e with
    | EvConnectRpc _ | EvGetTokenBalance _ | EvQuoteRequest _ _ _ _
    | EvPriceRequest _ | EvSleep _ | EvUpdatePositionPrice _ _ _
    | EvTriggerAutoSell _ _ _ | EvGetOpenPositions | EvLogError _ => False
    | _ => True
    end.

(** The reports that close the evaluation of a position: none, the
    price update, or the price update followed by one auto-sell request
    for the same trade. *)
Definition closing_reports (pos : position) (tail : list event) : Prop :=
  tail = [] \/
  exists current,
    let update :=
      EvUpdatePositionPrice (pos_id pos) current
        (Some (new_highest (pos_highest_price pos) current)) in
    tail = [update] \/
    exists percentage why,
      tail = [update;
              EvTriggerAutoSell (pos_id pos) percentage (Some why)] /\
      (percentage = 50 \/ percentage = 100).

(** ** The trade processor *)

(** The trade whose outcome a report gives, if it gives one. *)
Definition trade_outcome (r : report) : option string :=
  match r with
  | RTradeBought id _ _ | RTradeFailed id _ => Some id
  | _ => None
  end.

Definition sell_outcome (r : report) : option string :=
  match r with
  | RSellExecuted id _ _ | RSellFailed id _ => Some id
  | _ => None
  end.

Fixpoint pick {A B} (f : A -> option B) (l : list A) : list B :=
  match l with
  | [] => []
  | x :: rest =>
      match f x with
      | Some y => y :: pick f rest
      | None => pick f rest
      end
  end.

Definition is_pull (r : report) : bool :=
  match r with RPendingTrades | RPendingSells => true | _ => false end.

(** The reports sent between two worlds of the processor. *)
Definition sent (pw pw' : pworld) : list report :=
  skipn (List.length (reports pw)) (reports pw').

Definition has_contract (t : trade) : Prop :=
  trade_contract_address t <> None.

(** The [trades] object of the sell is not null. *)
Definition has_trade_info (s : sell) : Prop := sell_trades s <> Null.

(** What a sell names as contract address; nothing when it is missing,
    null or empty. *)
Definition sell_contract (s : sell) : option string :=
  match get_default (sell_trades s) None with
  | Some (Some c) => if String.eqb c "" then None else Some c
  | _ => None
  end.

(** The processor's world after a call of the API client. *)
Definition told (pw : pworld) (r : report) : pworld :=
  PWorld (World (S (clock (base pw))) (rpc (base pw)) (trace (base pw)))
         (reports pw ++ [r]).

(** * Fixtures for concrete runs *)

(** ** A runtime *)

(** A runtime for ASCII text that reads plain decimal digits and prints
    fixed-point decimals. *)
Fixpoint digits (s : string) (acc : Z) : option Z :=
  match s with
  | EmptyString => Some acc
  | String c rest =>
      let n := Z.of_nat (nat_of_ascii c) in
      if ((48 <=? n) && (n <=? 57))%bool then digits rest (10 * acc + (n - 48))
      else None
  end.

Definition show_natural (z : Z) : string :=
  NilZero.string_of_uint (N.to_uint (Z.to_N z)).

Fixpoint zeros (n : nat) : string :=
  match n with
  | O => ""
  | S n' => "0" ++ zeros n'
  end.

Definition show_fixed (places : nat) (q : Q) : string :=
  let scale := 10 ^ Z.of_nat places in
  let scaled := round_half_even (Z.abs (Qnum q) * scale) (Zpos (Qden q)) in
  let fraction := show_natural (scaled mod scale) in
  (if Qnum q <? 0 then "-" else "")
  ++ show_natural (scaled / scale)
  ++ match places with
     | O => ""
     | _ => "." ++ zeros (places - String.length fraction) ++ fraction
     end.

Definition plain_lib : pylib :=
  PyLib (fun _ => "")
        (fun s => "'" ++ s ++ "'")
        lower
        (fun s => match s with EmptyString => None | _ => digits s 0 end)
        (fun s => match s with
                  | EmptyString => None
                  | _ => option_map inject_Z (digits s 0)
                  end)
        show_fixed.

(** ** Public keys *)

Definition base58_alphabet : string :=
  "123456789ABCDEFGHJKLMNPQRSTUVWXYZabcdefghijkmnopqrstuvwxyz".

Fixpoint index_of (c : ascii) (s : string) (i : Z) : option Z :=
  match s with
  | EmptyString => None
  | String c' rest => if Ascii.eqb c c' then Some i else index_of c rest (i + 1)
  end.

Fixpoint base58_value (s : string) (acc : Z) : option Z :=
  match s with
  | EmptyString => Some acc
  | String c rest =>
      match index_of c base58_alphabet 0 with
      | Some digit => base58_value rest (58 * acc + digit)
      | None => None
      end
  end.

Fixpoint leading_ones (s : string) : nat :=
  match s with
  | String "1" rest => S (leading_ones rest)
  | _ => O
  end.

Definition byte_length (z : Z) : nat :=
  if z =? 0 then O else Z.to_nat (Z.log2 z / 8 + 1).

(** A public key is the base58 text of 32 bytes. *)
Definition base58_pubkey (s : string) : result unit :=
  match base58_value s 0 with
  | Some value =>
      if Nat.eqb (leading_ones s + byte_length value) 32 then Ok tt
      else Raise (Exn ValueError "String is the wrong size")
  | None => Raise (Exn ValueError "Invalid Base58 string")
  end.

(** ** Outsides and worlds *)

(** Nothing answers. *)
Definition unreachable_reply {A} : result A :=
  Raise (Exn ConnectionError "All connection attempts failed").

Definition unreachable {A} : nat -> result A := fun _ => unreachable_reply.

Definition silent_env : env :=
  Env unreachable unreachable unreachable unreachable unreachable
      unreachable unreachable unreachable
      (fun _ => Raise (Exn ValueError "Invalid base64-encoded string"))
      base58_pubkey
      (fun _ => IsoError)
      (fun _ => 0).

Definition ok_response (payload : json) : response :=
  Response 200 (Some payload) "".

Definition no_route_response : response :=
  Response 400
    (Some (JObj [("error", JStr "No route found");
                 ("errorCode", JStr "COULD_NOT_FIND_ANY_ROUTE")]))
    "".

(** An outside whose quote endpoint always sends [reply]. *)
Definition quoting_env (reply : result response) : env :=
  Env unreachable unreachable unreachable unreachable unreachable
      (fun _ => reply) unreachable unreachable
      (fun _ => Raise (Exn ValueError "Invalid base64-encoded string"))
      base58_pubkey
      (fun _ => IsoError)
      (fun _ => 0).

(** An outside whose price index answers [price] for [mint]. *)
Definition priced_env (mint : string) (price : Q) : env :=
  Env unreachable unreachable unreachable unreachable unreachable
      unreachable
      (fun _ => Ok (Response 200
                      (Some (JObj [("data",
                               JObj [(mint, JObj [("price", JNum price)])])]))
                      ""))
      unreachable
      (fun _ => Raise (Exn ValueError "Invalid base64-encoded string"))
      base58_pubkey
      (fun _ => IsoError)
      (fun _ => 0).

Definition late_env : env :=
  Env unreachable unreachable unreachable unreachable unreachable
      unreachable unreachable unreachable
      (fun _ => Raise (Exn ValueError "Invalid base64-encoded string"))
      base58_pubkey
      (fun s => if String.eqb s "2024-01-01T00:00:00+00:00"
                then IsoAware 1704067200 else IsoError)
      (fun _ => 1704067260).

(** An outside whose price index answers [price] for [mint] and whose
    clock has passed the first minute of 2024. *)
Definition late_priced_env (mint : string) (price : Q) : env :=
  Env unreachable unreachable unreachable unreachable unreachable
      unreachable
      (fun _ => Ok (Response 200
                      (Some (JObj [("data",
                               JObj [(mint, JObj [("price", JNum price)])])]))
                      ""))
      unreachable
      (fun _ => Raise (Exn ValueError "Invalid base64-encoded string"))
      base58_pubkey
      (fun s => if String.eqb s "2024-01-01T00:00:00+00:00"
                then IsoAware 1704067200 else IsoError)
      (fun _ => 1704067260).

(** An outside in which the swap is built, signed and sent, and the
    confirmation does not arrive in time. *)
Definition unconfirmed_env : env :=
  Env (fun _ => Ok tt) unreachable unreachable
      (fun _ => Ok "5SigAAAA")
      (fun _ => Raise (Exn TimeoutError ""))
      unreachable unreachable
      (fun _ => Ok (ok_response (JObj [("swapTransaction", JStr "AQID")])))
      (fun _ => Ok "signed")
      base58_pubkey
      (fun _ => IsoError)
      (fun _ => 0).

(** An outside whose wallet holds 0.005 SOL and 7 base units of the
    token. *)
Definition poor_env : env :=
  Env (fun _ => Ok tt) (fun _ => Ok 5000000) (fun _ => Ok (Some 7))
      unreachable unreachable unreachable unreachable unreachable
      (fun _ => Raise (Exn ValueError "Invalid base64-encoded string"))
      base58_pubkey
      (fun _ => IsoError)
      (fun _ => 0).

Definition start : world := World 0 false [].

Definition connected : world := World 0 true [].

(** ** Positions and policies *)

(** The mint of another token. *)
Definition BONK_MINT : string :=
  "DezXAZ8z7PnrnRJjz3wXBoRgixCa6xjnB7YaB1pPB263".

Definition alpha_config : ChannelConfig :=
  first_match CHANNEL_CONFIGS (lower "memecoin-alpha").

Definition chat_config : ChannelConfig :=
  first_match CHANNEL_CONFIGS (lower "memecoin-chat").

(** A position bought at 1.0 that peaked at 4.0. *)
Definition peaked_position : position :=
  mkPosition "trade-1" (Some "MintAAAAAAAA") (Some 1%Q) (Some "bought")
             (Present "memecoin-alpha") (Some 4%Q) Missing (Present true)
             Missing None Missing Missing Missing.

(** A position of the same kind, and the same with the [stop_loss_pct]
    key bound to null. *)
Definition guarded_position : position :=
  mkPosition "trade-7" (Some USDC_MINT) (Some 1%Q) (Some "bought")
             (Present "memecoin-alpha") (Some 4%Q) Missing (Present true)
             Missing None Missing Missing Missing.

Definition unguarded_position : position :=
  mkPosition "trade-7" (Some USDC_MINT) (Some 1%Q) (Some "bought")
             (Present "memecoin-alpha") (Some 4%Q) Missing (Present true)
             Missing None Null Missing Missing.

(** A position of channel memecoin-chat with a sell time, and an outside
    whose clock has passed it. *)
Definition timed_position : position :=
  mkPosition "trade-2" (Some BONK_MINT) (Some 1%Q) (Some "bought")
             (Present "memecoin-chat") (Some (fl (6 # 5))) Missing Missing
             Missing (Some "2024-01-01T00:00:00Z") Missing Missing Missing.

(** Two open positions of channel memecoin-alpha; the backend row of the
    first has no stop-loss override ([stop_loss_pct] is null). *)
Definition null_stop_loss_position : position :=
  mkPosition "trade-1" (Some "MintAAAAAAAA") (Some 1%Q) (Some "bought")
             (Present "memecoin-alpha") (Some 2%Q) (Present true)
             (Present true) (Present 15%Q) None Null (Present 100%Q)
             (Present 200%Q).

Definition sound_position : position :=
  mkPosition "trade-2" (Some "MintAAAAAAAA") (Some 4%Q) (Some "bought")
             (Present "memecoin-alpha") (Some 4%Q) (Present true)
             (Present false) (Present 15%Q) None (Present (-25)%Q)
             (Present 100%Q) (Present 200%Q).

(** An outside whose quote endpoint sends the replies of a list, one per
    request, and nothing after them. *)
Definition scripted_env (replies : list (result response)) : env :=
  Env unreachable unreachable unreachable unreachable unreachable
      (fun n => nth n replies unreachable_reply) unreachable unreachable
      (fun _ => Raise (Exn ValueError "Invalid base64-encoded string"))
      base58_pubkey
      (fun _ => IsoError)
      (fun _ => 0).

(** A reply that quotes [amount] for 0.5 SOL. *)
Definition quoted (amount : string) : result response :=
  Ok (ok_response (JObj [("inAmount", JStr "500000000");
                         ("outAmount", JStr amount)])).

(** An outside in which the swap is built, signed and sent, and the
    confirmation call fails for a reason other than a timeout. *)
Definition dropped_env : env :=
  Env (fun _ => Ok tt) unreachable unreachable
      (fun _ => Ok "5SigAAAA")
      unreachable
      unreachable unreachable
      (fun _ => Ok (ok_response (JObj [("swapTransaction", JStr "AQID")])))
      (fun _ => Ok "signed")
      base58_pubkey
      (fun _ => IsoError)
      (fun _ => 0).

(** An outside whose swap endpoint answers with status 500. *)
Definition refusing_env : env :=
  Env (fun _ => Ok tt) unreachable unreachable unreachable unreachable
      unreachable unreachable
      (fun _ => Ok (Response 500 None "Internal Server Error"))
      (fun _ => Ok "signed")
      base58_pubkey
      (fun _ => IsoError)
      (fun _ => 0).

Definition pstart : pworld := PWorld start [].

(** Three pending trades; the second leaves the amount to the default. *)
Definition three_trades : list trade :=
  [ mkTrade "buy-1" (Some "MintAAAAAAAA") (Some (1 # 2));
    mkTrade "buy-2" (Some "MintBBBBBBBB") None;
    mkTrade "buy-3" (Some "MintCCCCCCCC") (Some (fl (1 # 10))) ].

Definition orphan_sell : sell :=
  mkSell "sell-1" Missing (Some 50) None (Some "buy-1").

Definition half_sell : sell :=
  mkSell "sell-2" (Present (Some USDC_MINT)) (Some 50) None
         (Some "buy-1").

(** An outside in which a sell goes through: 1000 units held, a quote of
    0.002 SOL, the swap built, sent and confirmed. *)
Definition selling_env : env :=
  Env (fun _ => Ok tt) (fun _ => Ok 5000000000) (fun _ => Ok (Some 1000))
      (fun _ => Ok "5SigAAAA")
      (fun _ => Ok tt)
      (fun _ => Ok (ok_response (JObj [("outAmount", JStr "2000000")])))
      unreachable
      (fun _ => Ok (ok_response (JObj [("swapTransaction", JStr "AQID")])))
      (fun _ => Ok "signed")
      base58_pubkey
      (fun _ => IsoError)
      (fun _ => 0).

(** * Reasoning about runs *)

(** ** Counting the effects a coroutine adds to the trace *)

Lemma count_app p (t u : list event) :
  count p (t ++ u) = (count p t + count p u)%nat.
Proof. unfold count. rewrite filter_app, length_app. reflexivity. Qed.

Lemma count_none p d e : count p d = 0%nat -> In e d -> p e = false.
Proof.
  unfold count. intros Hc Hin.
  destruct (p e) eqn:Hpe; [| reflexivity].
  assert (Hf : In e (filter p d)) by (apply filter_In; auto).
  destruct (filter p d); [contradiction | discriminate].
Qed.

Section Adds.

Context (p : event -> bool).

Lemma adds_weaken {A} (m : M A) n n' :
  (n <= n')%nat -> adds p n m -> adds p n' m.
Proof.
  intros Hle H w. destruct (H w) as (d & Hd & Hc).
  exists d. split; [exact Hd | lia].
Qed.

Lemma adds_ret {A} (a : A) : adds p 0 (ret a).
Proof. intro w. exists []. simpl. rewrite app_nil_r. auto. Qed.

Lemma adds_throw {A} (e : exn) : adds p 0 (@throw A e).
Proof. intro w. exists []. simpl. rewrite app_nil_r. auto. Qed.

Lemma adds_lift {A} (r : result A) : adds p 0 (lift r).
Proof. intro w. exists []. simpl. rewrite app_nil_r. auto. Qed.

Lemma adds_get_rpc : adds p 0 get_rpc.
Proof. intro w. exists []. simpl. rewrite app_nil_r. auto. Qed.

Lemma adds_set_rpc : adds p 0 set_rpc.
Proof. intro w. exists []. simpl. rewrite app_nil_r. auto. Qed.

Lemma adds_read_now E : adds p 0 (read_now E).
Proof. intro w. exists []. simpl. rewrite app_nil_r. auto. Qed.

Lemma adds_emit e : p e = false -> adds p 0 (emit e).
Proof.
  intros He w. exists [e]. split; [reflexivity |].
  unfold count. simpl. rewrite He. simpl. lia.
Qed.

Lemma adds_call {A} e (answer : nat -> A) :
  p e = false -> adds p 0 (call e answer).
Proof.
  intros He w. exists [e]. split; [reflexivity |].
  unfold count. simpl. rewrite He. simpl. lia.
Qed.

Lemma adds_tell e : p e = false -> adds p 0 (tell e).
Proof.
  intros He w. exists [e]. split; [reflexivity |].
  unfold count. simpl. rewrite He. simpl. lia.
Qed.

Lemma adds_tell_one e : adds p 1 (tell e).
Proof.
  intro w. exists [e]. split; [reflexivity |].
  unfold count. simpl. destruct (p e); simpl; lia.
Qed.

Lemma adds_bind {A B} (m : M A) (k : A -> M B) n1 n2 :
  adds p n1 m -> (forall a, adds p n2 (k a)) -> adds p (n1 + n2) (bind m k).
Proof.
  intros Hm Hk w. unfold bind.
  destruct (Hm w) as (d1 & Hd1 & Hc1).
  destruct (m w) as [[a | e] w1]; simpl in *.
  - destruct (Hk a w1) as (d2 & Hd2 & Hc2).
    exists (d1 ++ d2)%list. rewrite Hd2, Hd1, app_assoc, count_app.
    split; [reflexivity | lia].
  - exists d1. split; [exact Hd1 | lia].
Qed.

Lemma adds_try {A} (m : M A) (h : exn -> M A) n1 n2 :
  adds p n1 m -> (forall e, adds p n2 (h e)) ->
  adds p (n1 + n2) (try_except m h).
Proof.
  intros Hm Hh w. unfold try_except.
  destruct (Hm w) as (d1 & Hd1 & Hc1).
  destruct (m w) as [[a | e] w1]; simpl in *.
  - exists d1. split; [exact Hd1 | lia].
  - destruct (Hh e w1) as (d2 & Hd2 & Hc2).
    exists (d1 ++ d2)%list. rewrite Hd2, Hd1, app_assoc, count_app.
    split; [reflexivity | lia].
Qed.

Lemma adds_bind0 {A B} (m : M A) (k : A -> M B) :
  adds p 0 m -> (forall a, adds p 0 (k a)) -> adds p 0 (bind m k).
Proof. intros. apply (adds_bind m k 0 0); assumption. Qed.

Lemma adds_try0 {A} (m : M A) (h : exn -> M A) :
  adds p 0 m -> (forall e, adds p 0 (h e)) -> adds p 0 (try_except m h).
Proof. intros. apply (adds_try m h 0 0); assumption. Qed.

End Adds.

(** Decompose a goal [adds p 0 m] along the structure of [m]. *)
Ltac quiet_step :=
  match goal with
  | |- adds _ 0 (bind _ _) => apply adds_bind0; [| intro]
  | |- adds _ 0 (try_except _ _) => apply adds_try0; [| intro]
  | |- adds _ 0 (ret _) => apply adds_ret
  | |- adds _ 0 (throw _) => apply adds_throw
  | |- adds _ 0 (lift _) => apply adds_lift
  | |- adds _ 0 get_rpc => apply adds_get_rpc
  | |- adds _ 0 set_rpc => apply adds_set_rpc
  | |- adds _ 0 (read_now _) => apply adds_read_now
  | |- adds _ 0 (sleep _) => apply adds_emit; reflexivity
  | |- adds _ 0 (emit _) => apply adds_emit; reflexivity
  | |- adds _ 0 (call _ _) => apply adds_call; reflexivity
  | |- adds _ 0 (tell _) => apply adds_tell; reflexivity
  | |- adds _ 0 (if ?b then _ else _) => destruct b
  | |- adds _ 0 (match ?x with _ => _ end) => destruct x
  | H : adds ?p 0 ?m |- adds ?p 0 ?m => exact H
  end.
Ltac quiet := repeat quiet_step.

Section Quiet.

Variable lib : pylib.
Variable E : env.

Lemma connect_endpoints_quiet p l :
  (forall ep, p (EvConnectRpc ep) = false) ->
  adds p 0 (connect_endpoints E l).
Proof.
  intro Hp. induction l as [| ep l IH]; simpl.
  - quiet.
  - apply adds_bind0; [quiet | intro].
    apply adds_bind0; [apply adds_call, Hp | intro r].
    destruct r; [quiet | exact IH].
Qed.

Lemma ensure_rpc_quiet p :
  (forall ep, p (EvConnectRpc ep) = false) -> adds p 0 (ensure_rpc E).
Proof.
  intro Hp. unfold ensure_rpc, connect_rpc.
  apply adds_bind0; [quiet | intros []]; [quiet |].
  apply connect_endpoints_quiet, Hp.
Qed.

Lemma get_balance_quiet p :
  (forall ep, p (EvConnectRpc ep) = false) -> p EvGetBalance = false ->
  adds p 0 (get_balance E).
Proof.
  intros Hc Hb. unfold get_balance.
  apply adds_bind0; [apply ensure_rpc_quiet, Hc | intro].
  apply adds_bind0; [apply adds_call, Hb | intro]. quiet.
Qed.

Lemma get_token_balance_quiet p mint :
  (forall ep, p (EvConnectRpc ep) = false) ->
  (forall m, p (EvGetTokenBalance m) = false) ->
  adds p 0 (get_token_balance E mint).
Proof.
  intros Hc Hb. unfold get_token_balance.
  apply adds_bind0; [apply ensure_rpc_quiet, Hc | intro].
  apply adds_try0; [| intro; quiet].
  apply adds_bind0; [quiet | intro].
  apply adds_bind0; [apply adds_call, Hb | intro]. quiet.
Qed.

Lemma quote_attempt_quiet p i o a s :
  p (EvQuoteRequest i o a s) = false ->
  adds p 0 (quote_attempt lib E i o a s).
Proof.
  intro Hq. unfold quote_attempt.
  apply adds_bind0; [apply adds_call, Hq | intro]. quiet.
Qed.

Lemma quote_attempts_quiet p i o a s retries todo attempt :
  p (EvQuoteRequest i o a s) = false -> p (EvSleep 1) = false ->
  adds p 0 (quote_attempts lib E i o a s retries todo attempt).
Proof.
  intros Hq Hs. revert attempt.
  induction todo as [| todo IH]; intro attempt; simpl; [quiet |].
  apply adds_bind0.
  - apply adds_try0; [apply quote_attempt_quiet, Hq | intro].
    apply adds_bind0; [| intro; quiet].
    destruct (attempt <? retries - 1); [apply adds_emit, Hs | quiet].
  - intros [returned |]; [quiet | apply IH].
Qed.

Lemma get_quote_quiet p i o a s retries :
  p (EvQuoteRequest i o a s) = false -> p (EvSleep 1) = false ->
  adds p 0 (get_quote lib E i o a s retries).
Proof. intros. unfold get_quote. apply quote_attempts_quiet; assumption. Qed.

Lemma get_token_price_sol_quiet p mint :
  p (EvPriceRequest mint) = false ->
  adds p 0 (get_token_price_sol lib E mint).
Proof.
  intro Hp. unfold get_token_price_sol.
  apply adds_try0; [| intro; quiet].
  apply adds_bind0; [apply adds_call, Hp | intro]. quiet.
Qed.

Lemma backend_only_false p e :
  backend_only p ->
  match e with
  | EvUpdatePositionPrice _ _ _ | EvTriggerAutoSell _ _ _ => False
  | _ => True
  end ->
  p e = false.
Proof.
  intros Hp He. destruct (p e) eqn:Hpe; [| reflexivity].
  apply Hp in Hpe. destruct e; contradiction.
Qed.

Lemma fallback_price_quiet p contract :
  backend_only p -> adds p 0 (fallback_price lib E contract).
Proof.
  intro Hp. unfold fallback_price.
  apply adds_bind0;
    [apply get_token_balance_quiet; intros;
     apply backend_only_false; simpl; auto |].
  intros [token_balance |]; [| quiet].
  destruct (0 <? token_balance); [| quiet].
  apply adds_bind0;
    [apply get_quote_quiet; apply backend_only_false; simpl; auto | intro].
  quiet.
Qed.

(** Everything the monitor does for a position before it evaluates the
    triggers is invisible to the backend. *)
Lemma monitor_position_adds p n pos :
  backend_only p ->
  (forall contract entry current config,
     adds p n (evaluate lib E pos contract entry current config)) ->
  adds p n (monitor_position lib E pos).
Proof.
  intros Hp Hev. unfold monitor_position.
  assert (Q0 : forall A (m : M A), adds p 0 m -> adds p n m)
    by (intros A m; apply adds_weaken; lia).
  destruct (pos_contract_address pos) as [contract |];
    [| apply Q0; quiet].
  destruct (pos_entry_price pos) as [entry |]; [| apply Q0; quiet].
  destruct (_ || _)%bool; [apply Q0; quiet |].
  destruct (negb _); [apply Q0; quiet |].
  apply (adds_bind p _ _ 0 n); [quiet | intro config].
  apply (adds_bind p _ _ 0 n);
    [apply get_token_price_sol_quiet, backend_only_false; simpl; auto
    | intro price].
  apply (adds_bind p _ _ 0 n).
  - destruct price; [quiet | apply fallback_price_quiet, Hp].
  - intros [current |]; [apply Hev | apply Q0; quiet].
Qed.

Lemma evaluate_sells pos contract entry current config :
  adds is_sell 1 (evaluate lib E pos contract entry current config).
Proof.
  unfold evaluate.
  apply (adds_bind is_sell _ _ 0 1); [quiet | intro d].
  apply (adds_bind is_sell _ _ 0 1); [quiet | intro now].
  apply (adds_bind is_sell _ _ 0 1); [quiet | intros _].
  destruct (acted _).
  - apply adds_tell_one.
  - apply adds_weaken with (n := 0%nat); [lia | quiet].
Qed.

Lemma monitor_position_sells pos :
  adds is_sell 1 (monitor_position lib E pos).
Proof.
  apply monitor_position_adds; [| intros; apply evaluate_sells].
  intros e He. destruct e; try discriminate He; exact I.
Qed.

End Quiet.

(** ** Comparisons *)

Lemma Qleb_le x y : Qleb x y = true <-> (x <= y)%Q.
Proof. unfold Qleb. apply Qle_bool_iff. Qed.

Lemma Qltb_lt x y : Qltb x y = true <-> (x < y)%Q.
Proof.
  unfold Qltb. rewrite negb_true_iff. split; intro H.
  - apply Qnot_le_lt. intro Hle. apply Qle_bool_iff in Hle. congruence.
  - destruct (Qle_bool y x) eqn:Hb; [| reflexivity].
    apply Qle_bool_iff in Hb. exfalso. exact (Qlt_not_le _ _ H Hb).
Qed.

Lemma Qltb_ge x y : Qltb x y = false <-> (y <= x)%Q.
Proof.
  unfold Qltb. rewrite negb_false_iff. apply Qle_bool_iff.
Qed.

Lemma Qleb_gt x y : Qleb x y = false <-> (y < x)%Q.
Proof.
  split; intro H.
  - apply Qnot_le_lt. intro Hle. apply Qleb_le in Hle. congruence.
  - destruct (Qleb x y) eqn:Hb; [| reflexivity].
    apply Qleb_le in Hb. exfalso. exact (Qlt_not_le _ _ H Hb).
Qed.

(** ** The exit triggers *)

Section Decision.

Variable lib : pylib.
Variable E : env.

Lemma evaluate_run pos contract entry current config d w :
  price_triggers lib pos config (pnl_pct current entry) current
                 (new_highest (pos_highest_price pos) current) = Ok d ->
  let d' := time_trigger E pos (now_utc E (clock w)) d in
  fst (evaluate lib E pos contract entry current config w) = Ok tt /\
  trace (snd (evaluate lib E pos contract entry current config w)) =
  (trace w
   ++ EvUpdatePositionPrice (pos_id pos) current
        (Some (new_highest (pos_highest_price pos) current))
   :: requests pos d')%list.
Proof.
  intros Hd d'. unfold evaluate, bind, lift, read_now, requests.
  rewrite Hd. simpl. fold d'.
  destruct (acted d'); simpl; [| auto].
  rewrite <- app_assoc. auto.
Qed.

Lemma evaluate_raise pos contract entry current config e w :
  price_triggers lib pos config (pnl_pct current entry) current
                 (new_highest (pos_highest_price pos) current) = Raise e ->
  evaluate lib E pos contract entry current config w = (Raise e, w).
Proof.
  intro Hd. unfold evaluate, bind, lift. rewrite Hd. reflexivity.
Qed.

(** The chain of checks 1 to 4 never yields the time-based action. *)
Lemma price_triggers_actions pos config pnl current highest d :
  price_triggers lib pos config pnl current highest = Ok d ->
  d = no_action \/
  exists a pct why, d = fired a pct why /\ In a priority_order.
Proof.
  unfold price_triggers, le_or_raise, ge_or_raise, priority_order.
  intro H.
  repeat match type of H with
         | context [match ?x with _ => _ end] => destruct x
         | context [if ?b then _ else _] => destruct b
         end;
    inversion H; subst; clear H; auto;
    right; do 3 eexists; (split; [reflexivity | simpl; auto]).
Qed.

Lemma time_trigger_kept pos now d :
  acted d = true -> time_trigger E pos now d = d.
Proof. intro H. unfold time_trigger. rewrite H. reflexivity. Qed.

End Decision.

(** * The position monitor *)

Lemma status_exclusive s :
  (status_is s "bought" && status_is s "partial_tp1")%bool = false.
Proof.
  destruct s as [s |]; simpl; [| reflexivity].
  destruct (String.eqb s "bought") eqn:Hb; [| reflexivity].
  apply String.eqb_eq in Hb. subst s. reflexivity.
Qed.

(** Neither stop-loss nor trailing-stop holds: the two take-profit
    conditions, on different statuses, cannot make two. *)
Ltac take_profits_alone Hx :=
  match goal with
  | pos : position |- _ =>
      destruct (status_is (pos_status pos) "bought");
      destruct (status_is (pos_status pos) "partial_tp1");
      try discriminate Hx; simpl;
      repeat match goal with
             | |- context [get_default ?f ?x] => destruct (get_default f x)
             | |- context [Qleb ?a ?b] => destruct (Qleb a b)
             end; simpl; intros; lia
  end.

(** With two or more trigger conditions true, checks 1 to 4 complete
    with the action of highest priority unless the stop-loss threshold is
    null. *)
Lemma price_triggers_priority lib pos config pnl current highest :
  several_hold pos config pnl current highest ->
  match price_triggers lib pos config pnl current highest with
  | Ok d =>
      acted d = true /\
      action_needed d = highest_priority pos config pnl current highest
  | Raise _ => pos_stop_loss_pct pos = Null
  end.
Proof.
  unfold several_hold, highest_priority, price_triggers, priority_order.
  pose proof (status_exclusive (pos_status pos)) as Hx.
  unfold holds, threshold_met, le_or_raise, ge_or_raise.
  destruct (pos_stop_loss_pct pos) as [| | sl]; simpl; [| reflexivity |].
  - destruct (Qleb pnl (stop_loss_pct config)); simpl; [auto |].
    destruct (is_true _ && Qnonzero highest && Qltb 0 pnl)%bool; simpl.
    + destruct (Qleb (trailing_pct pos config) _); simpl; [auto |].
      take_profits_alone Hx.
    + take_profits_alone Hx.
  - destruct (Qleb pnl sl); simpl; [auto |].
    destruct (is_true _ && Qnonzero highest && Qltb 0 pnl)%bool; simpl.
    + destruct (Qleb (trailing_pct pos config) _); simpl; [auto |].
      take_profits_alone Hx.
    + take_profits_alone Hx.
Qed.

(** In one cycle the monitor requests at most one sell for a position;
    and when the conditions of two or more of stop-loss, trailing-stop,
    TP1 and TP2 are true together and the stop-loss threshold is not
    null, the action chosen is the first of them in the order stop-loss,
    trailing-stop, TP1, TP2, the time-based check leaves it alone, and
    that one sell is what is requested from the backend. *)
Theorem monitor_priority lib E pos :
  adds is_sell 1 (monitor_position lib E pos) /\
  forall config pnl current highest,
    several_hold pos config pnl current highest ->
    (pos_stop_loss_pct pos <> Null ->
     exists d, price_triggers lib pos config pnl current highest = Ok d) /\
    forall d,
      price_triggers lib pos config pnl current highest = Ok d ->
      action_needed d = highest_priority pos config pnl current highest /\
      (exists a, action_needed d = Some a /\ In a priority_order) /\
      (forall now, time_trigger E pos now d = d) /\
      (forall contract entry w,
         pnl = pnl_pct current entry ->
         highest = new_highest (pos_highest_price pos) current ->
         filter is_sell
           (skipn (List.length (trace w))
              (trace (snd (evaluate lib E pos contract entry current
                                    config w)))) =
         [EvTriggerAutoSell (pos_id pos) (sell_percentage d) (reason d)]).
Proof.
  split; [apply monitor_position_sells |].
  intros config pnl current highest Hs.
  pose proof (price_triggers_priority lib pos config pnl current highest Hs)
    as Hp.
  split.
  - intro Hnull.
    destruct (price_triggers lib pos config pnl current highest) as [d | e];
      [eauto | contradiction].
  - intros d Hd. rewrite Hd in Hp. destruct Hp as [Hact Hprio].
    split; [exact Hprio |]. split; [| split].
    + destruct (price_triggers_actions lib pos config pnl current highest d Hd)
        as [-> | (a & pct & why & -> & Hin)]; [discriminate Hact |].
      exists a. auto.
    + intro now. apply time_trigger_kept, Hact.
    + intros contract entry w -> ->.
      destruct (evaluate_run lib E pos contract entry current config d w Hd)
        as [_ Ht].
      rewrite Ht, skipn_app, skipn_all, Nat.sub_diag. simpl.
      rewrite time_trigger_kept by exact Hact.
      unfold requests. rewrite Hact. reflexivity.
Qed.

Lemma monitor_priority_witness :
  several_hold peaked_position alpha_config 200 3 4 /\
  exists d,
    price_triggers plain_lib peaked_position alpha_config 200 3 4 = Ok d /\
    action_needed d = Some trailing_stop.
Proof.
  assert (Hs : several_hold peaked_position alpha_config 200 3 4)
    by (vm_compute; apply le_n).
  split; [exact Hs |].
  destruct (monitor_priority plain_lib silent_env peaked_position) as [_ H].
  destruct (H alpha_config 200%Q 3%Q 4%Q Hs) as [Hex Hall].
  destruct Hex as [d Hd]; [discriminate |].
  exists d. split; [exact Hd |].
  destruct (Hall d Hd) as [Hp _]. rewrite Hp. reflexivity.
Defined.

(** C1, at the failing input. A "bought" position of channel
    memecoin-alpha, entered at 1.0, with a highest price of 4.0 and the
    trailing stop enabled, whose [stop_loss_pct] is null; the price index
    answers 3.0. PnL is 200% and the drop from the high 25%: the
    conditions of the trailing stop and of take-profit 1 are true
    together, and the trailing stop is the one of highest priority. The
    monitor requests no sell at all, the comparison of the PnL with the
    null threshold raises; with the key missing instead of null the same
    position gets the trailing-stop sell. *)
Example null_threshold_blocks_priority :
  let E := priced_env USDC_MINT 3 in
  let pnl := pnl_pct 3 1 in
  let highest := new_highest (Some 4%Q) 3 in
  pnl == 200 /\ drop_from_high highest 3 == 25 /\
  holds unguarded_position alpha_config pnl 3 highest stop_loss = false /\
  holds unguarded_position alpha_config pnl 3 highest trailing_stop = true /\
  holds unguarded_position alpha_config pnl 3 highest take_profit_1 = true /\
  highest_priority unguarded_position alpha_config pnl 3 highest
  = Some trailing_stop /\
  monitor_position plain_lib E unguarded_position start =
  (Raise (Exn TypeError
            "'<=' not supported between instances of 'float' and 'NoneType'"),
   World 1 false [EvPriceRequest USDC_MINT]) /\
  monitor_position plain_lib E guarded_position start =
  (Ok tt,
   World 3 false
     [EvPriceRequest USDC_MINT;
      EvUpdatePositionPrice "trade-7" 3 (Some 4%Q);
      EvTriggerAutoSell "trade-7" 100
        (Some "Trailing stop: dropped 25.0% from high")]).
Proof. vm_compute. repeat split. Qed.

(** Once the trailing-stop guard is entered (trailing enabled, a non-zero
    highest price, a positive PnL), the [elif] branches of both
    take-profits are skipped, whatever the drop from the high is. *)
Lemma take_profit_shadowed lib pos config pnl current highest d :
  is_true (get_default (pos_trailing_stop_enabled pos) false) = true ->
  Qnonzero highest = true ->
  (0 < pnl)%Q ->
  price_triggers lib pos config pnl current highest = Ok d ->
  action_needed d <> Some take_profit_1 /\
  action_needed d <> Some take_profit_2.
Proof.
  intros He Hh Hp. apply Qltb_lt in Hp.
  unfold price_triggers. rewrite He, Hh, Hp. simpl.
  destruct (le_or_raise _ _) as [[|] | e]; [| | discriminate].
  - intro H; inversion H; subst; simpl; split; discriminate.
  - destruct (Qleb _ _); intro H; inversion H; subst; simpl;
      split; discriminate.
Qed.

(** Take-profit 1 does fire, with a 50% sell, when the stop-loss test is
    false, the trailing-stop guard is not entered, the status is "bought"
    and the PnL has reached the threshold. *)
Lemma take_profit_1_fires lib pos config pnl current highest sl tp1 :
  get_default (pos_stop_loss_pct pos) (stop_loss_pct config) = Some sl ->
  (sl < pnl)%Q ->
  (is_true (get_default (pos_trailing_stop_enabled pos) false)
   && Qnonzero highest && Qltb 0 pnl)%bool = false ->
  status_is (pos_status pos) "bought" = true ->
  get_default (pos_take_profit_1_pct pos) (take_profit_1_pct config)
  = Some tp1 ->
  (tp1 <= pnl)%Q ->
  price_triggers lib pos config pnl current highest =
  Ok (fired take_profit_1 50
            ("TP1 hit at " ++ format_fixed lib 1 pnl ++ "%")).
Proof.
  intros Hsl Hlt Hguard Hstatus Htp Hle.
  apply Qleb_gt in Hlt. apply Qleb_le in Hle.
  unfold price_triggers. rewrite Hsl, Htp. simpl.
  rewrite Hlt, Hguard, Hstatus, Hle. reflexivity.
Qed.

(** C2, at the failing input. A "bought" position of channel
    memecoin-alpha (take-profit 1 at 100%) with the trailing stop enabled,
    entered at 1.0, now at 2.0: PnL is exactly 100%, neither stop-loss
    nor trailing-stop fires, and no sell is requested. *)
Example take_profit_1_skipped :
  let pos :=
    mkPosition "trade-1" (Some "MintAAAAAAAA") (Some 1%Q) (Some "bought")
               (Present "memecoin-alpha") (Some 2%Q) Missing (Present true)
               Missing None Missing Missing Missing in
  pnl_pct 2 1 == 100 /\
  price_triggers plain_lib pos alpha_config (pnl_pct 2 1) 2
                 (new_highest (Some 2%Q) 2) = Ok no_action /\
  monitor_position plain_lib (priced_env "MintAAAAAAAA" 2) pos start =
  (Ok tt,
   World 2 false
     [EvPriceRequest "MintAAAAAAAA";
      EvUpdatePositionPrice "trade-1" 2 (Some 2%Q)]).
Proof.
  split; [reflexivity |]. split; vm_compute; reflexivity.
Qed.

(** ** The run for one position *)

Lemma current_price_of_quiet lib E p contract :
  backend_only p -> adds p 0 (current_price_of lib E contract).
Proof.
  intro Hp. unfold current_price_of.
  apply adds_bind0;
    [apply get_token_price_sol_quiet, backend_only_false; simpl; auto
    | intros [price |]]; [quiet | apply fallback_price_quiet, Hp].
Qed.

Lemma is_backend_only : backend_only is_backend.
Proof. intros e He. destruct e; try discriminate He; exact I. Qed.

(** Past the guards and with a price, the monitor evaluates the
    position. *)
Lemma monitor_position_evaluates lib E pos w contract entry config current
    w1 :
  reaches_checks lib E pos w contract entry config current w1 ->
  monitor_position lib E pos w =
  evaluate lib E pos contract entry current config w1.
Proof.
  intros (Hc & Hne & He & Hnz & Hauto & Hcfg & Hprice).
  unfold monitor_position. rewrite Hc, He.
  apply String.eqb_neq in Hne. rewrite Hne.
  assert (Hq : Qnonzero entry = true).
  { unfold Qnonzero. destruct (Qeq_bool entry 0) eqn:Hz; [| reflexivity].
    apply Qeq_bool_iff in Hz. contradiction. }
  rewrite Hq, Hauto. cbn [negb orb].
  unfold bind at 1. unfold lift at 1. rewrite Hcfg.
  unfold current_price_of in Hprice. unfold bind at 1 in Hprice.
  unfold bind at 1.
  destruct (get_token_price_sol lib E contract w) as [[price | e] w0];
    [| discriminate Hprice].
  unfold bind at 1. rewrite Hprice. reflexivity.
Qed.

(** Otherwise it reports nothing to the backend. *)
Lemma monitor_position_cases lib E pos w :
  (exists contract entry config current w1,
     reaches_checks lib E pos w contract entry config current w1) \/
  (exists d,
     trace (snd (monitor_position lib E pos w)) = (trace w ++ d)%list /\
     count is_backend d = 0%nat).
Proof.
  assert (Hnone : forall r : result unit,
    exists d, trace (snd (r, w)) = (trace w ++ d)%list /\
              count is_backend d = 0%nat).
  { intro r. exists []. rewrite app_nil_r. auto. }
  unfold monitor_position, reaches_checks.
  destruct (pos_contract_address pos) as [contract |];
    [| right; apply Hnone].
  destruct (pos_entry_price pos) as [entry |]; [| right; apply Hnone].
  destruct (String.eqb contract "") eqn:Hne; [right; apply Hnone |].
  destruct (Qnonzero entry) eqn:Hq; [| right; apply Hnone].
  cbn [negb orb].
  destruct (is_true _) eqn:Hauto; [| right; apply Hnone].
  cbn [negb]. unfold bind at 1. unfold lift at 1.
  destruct (get_channel_config _ _) as [config | e0];
    [| right; apply Hnone].
  fold (current_price_of lib E contract).
  pose proof (current_price_of_quiet lib E is_backend contract
                is_backend_only w) as (d & Hd & Hc).
  unfold current_price_of in *. unfold bind at 1 in Hd. unfold bind at 1.
  unfold bind at 1.
  destruct (get_token_price_sol lib E contract w) as [[price | e1] w0]
    eqn:Hindex;
    [| right; exists d; split; [exact Hd | lia]].
  destruct (match price with
            | Some p => ret (Some p)
            | None => fallback_price lib E contract
            end w0) as [[[current |] | e2] w1] eqn:Hprice;
    [| right; exists d; unfold bind; rewrite Hprice;
       split; [exact Hd | lia]
     | right; exists d; unfold bind; rewrite Hprice;
       split; [exact Hd | lia]].
  left. exists contract, entry, config, current, w1.
  apply String.eqb_neq in Hne.
  repeat split; try reflexivity; try assumption.
  - intro H0. unfold Qnonzero in Hq. apply Qeq_bool_iff in H0.
    rewrite H0 in Hq. discriminate Hq.
  - unfold bind. rewrite Hindex. exact Hprice.
Qed.

Lemma reaches_checks_trace lib E pos w contract entry config current w1 :
  reaches_checks lib E pos w contract entry config current w1 ->
  exists d, trace w1 = (trace w ++ d)%list /\ count is_backend d = 0%nat.
Proof.
  intros (_ & _ & _ & _ & _ & _ & Hprice).
  destruct (current_price_of_quiet lib E is_backend contract
              is_backend_only w) as (d & Hd & Hc).
  rewrite Hprice in Hd. exists d. split; [exact Hd | lia].
Qed.

Lemma added_app w w1 d : trace w1 = (trace w ++ d)%list -> added w w1 = d.
Proof.
  intro H. unfold added.
  rewrite H, skipn_app, skipn_all, Nat.sub_diag. reflexivity.
Qed.

Lemma no_backend_no_sell d :
  count is_backend d = 0%nat -> filter is_sell d = [].
Proof.
  intro H. induction d as [| e d IH]; [reflexivity |].
  unfold count in H. simpl in H. simpl.
  destruct e; simpl in *; try discriminate H; apply IH; exact H.
Qed.

(** For a position that gets as far as the checks and whose stop-loss
    threshold is not null: when two or more of the four trigger
    conditions are true of the PnL and the highest price the monitor
    computed, the run ends with the price update and the one sell of the
    first of them in the order stop-loss, trailing-stop, TP1, TP2. *)
Lemma priority_in_the_run lib E pos w contract entry config current w1 :
  reaches_checks lib E pos w contract entry config current w1 ->
  pos_stop_loss_pct pos <> Null ->
  several_hold pos config (pnl_pct current entry) current
               (new_highest (pos_highest_price pos) current) ->
  exists d a,
    price_triggers lib pos config (pnl_pct current entry) current
                   (new_highest (pos_highest_price pos) current) = Ok d /\
    action_needed d = Some a /\
    highest_priority pos config (pnl_pct current entry) current
                     (new_highest (pos_highest_price pos) current) = Some a /\
    monitor_position lib E pos w =
    (Ok tt,
     World (S (S (clock w1))) (rpc w1)
       (trace w1
        ++ [EvUpdatePositionPrice (pos_id pos) current
              (Some (new_highest (pos_highest_price pos) current));
            EvTriggerAutoSell (pos_id pos) (sell_percentage d) (reason d)])).
Proof.
  intros Hreach Hnull Hs.
  pose proof (price_triggers_priority lib pos config _ _ _ Hs) as Hp.
  destruct (price_triggers lib pos config (pnl_pct current entry) current
              (new_highest (pos_highest_price pos) current)) as [d | e]
    eqn:Hd; [| contradiction].
  destruct Hp as [Hact Hprio].
  assert (Ha : exists a, action_needed d = Some a).
  { unfold acted in Hact.
    destruct (action_needed d) as [a |]; [eauto | discriminate Hact]. }
  destruct Ha as [a Ha]. exists d, a.
  split; [reflexivity |]. split; [exact Ha |].
  split; [rewrite <- Hprio; exact Ha |].
  rewrite (monitor_position_evaluates _ _ _ _ _ _ _ _ _ Hreach).
  unfold evaluate, bind, lift, read_now, tell. rewrite Hd.
  rewrite (time_trigger_kept E pos _ d Hact), Hact.
  cbn [clock rpc trace]. rewrite <- app_assoc. reflexivity.
Qed.

(** ** The time-based exit *)

(** The reason of a price trigger is not that of the time-based exit. *)
Lemma price_reason_not_time lib pos config pnl current highest d :
  price_triggers lib pos config pnl current highest = Ok d ->
  reason d <> Some "Time-based auto-sell triggered".
Proof.
  unfold price_triggers, le_or_raise, ge_or_raise. intro H.
  repeat match type of H with
         | context [match ?x with _ => _ end] => destruct x
         | context [if ?b then _ else _] => destruct b
         end;
    inversion H; subst; clear H; simpl; intro Hr; inversion Hr.
Qed.

(** What check 5 does with a decision that has no action yet. *)
Lemma time_trigger_cases E pos now d :
  acted d = false ->
  (time_is_up E pos now /\
   time_trigger E pos now d =
   fired time_based 100 "Time-based auto-sell triggered") \/
  (~ time_is_up E pos now /\ time_trigger E pos now d = d).
Proof.
  intro Ha. unfold time_trigger, time_is_up, nonempty. rewrite Ha.
  cbn [negb andb].
  destruct (pos_time_based_sell_at pos) as [stamp |];
    [| right; split; [intros (s & t & H & _); discriminate H | reflexivity]].
  destruct (String.eqb stamp "") eqn:Hs; cbn [negb].
  - apply String.eqb_eq in Hs. right. split; [| reflexivity].
    intros (s & t & H & Hne & _). inversion H; subst. contradiction.
  - apply String.eqb_neq in Hs.
    destruct (fromisoformat E _) as [| | sell_time] eqn:Hiso;
      try (right; split; [| reflexivity];
           intros (s & t & H & _ & Hi & _); inversion H; subst; congruence).
    destruct (sell_time <=? now) eqn:Hle.
    + apply Z.leb_le in Hle. left. split; [| reflexivity].
      exists stamp, sell_time. auto.
    + apply Z.leb_gt in Hle. right. split; [| reflexivity].
      intros (s & t & H & _ & Hi & Hn). inversion H; subst.
      rewrite Hiso in Hi. inversion Hi; subst. lia.
Qed.

(** C3. In the run of the monitor for a position, the request of the
    time-based exit is sent only if the monitor got as far as the checks,
    none of the four price triggers fired (checks 1 to 4 completed with no
    action), [time_based_sell_at] is set (and not empty) and parses to an
    instant that the current time has reached; the request is then for
    100% of the position and it is the only sell requested in that run.
    And under those conditions the monitor does send it, right after the
    price update. *)
Theorem time_based_exit lib E pos w :
  (forall id percentage,
     In (EvTriggerAutoSell id percentage
                           (Some "Time-based auto-sell triggered"))
        (added w (snd (monitor_position lib E pos w))) ->
     id = pos_id pos /\ percentage = 100 /\
     filter is_sell (added w (snd (monitor_position lib E pos w)))
     = [time_based_request pos] /\
     exists contract entry config current w1 d,
       reaches_checks lib E pos w contract entry config current w1 /\
       price_triggers lib pos config (pnl_pct current entry) current
                      (new_highest (pos_highest_price pos) current) = Ok d /\
       action_needed d = None /\
       time_is_up E pos (now_utc E (clock w1))) /\
  (forall contract entry config current w1 d,
     reaches_checks lib E pos w contract entry config current w1 ->
     price_triggers lib pos config (pnl_pct current entry) current
                    (new_highest (pos_highest_price pos) current) = Ok d ->
     action_needed d = None ->
     time_is_up E pos (now_utc E (clock w1)) ->
     monitor_position lib E pos w =
     (Ok tt,
      World (S (S (clock w1))) (rpc w1)
        (trace w1
         ++ [EvUpdatePositionPrice (pos_id pos) current
               (Some (new_highest (pos_highest_price pos) current));
             time_based_request pos]))).
Proof.
  split.
  - intros id percentage Hin.
    destruct (monitor_position_cases lib E pos w)
      as [(contract & entry & config & current & w1 & Hreach)
         | (d0 & Hd0 & Hc0)].
    2:{ rewrite (added_app _ _ _ Hd0) in Hin.
        pose proof (count_none is_backend d0 _ Hc0 Hin) as Hb.
        discriminate Hb. }
    destruct (reaches_checks_trace _ _ _ _ _ _ _ _ _ Hreach)
      as (d0 & Hd0 & Hc0).
    rewrite (monitor_position_evaluates _ _ _ _ _ _ _ _ _ Hreach) in Hin |- *.
    destruct (price_triggers lib pos config (pnl_pct current entry) current
                (new_highest (pos_highest_price pos) current))
      as [d | e] eqn:Hd.
    2:{ rewrite (evaluate_raise lib E pos contract entry current config e w1
                   Hd) in Hin.
        cbn [snd] in Hin. rewrite (added_app _ _ _ Hd0) in Hin.
        pose proof (count_none is_backend d0 _ Hc0 Hin) as Hb.
        discriminate Hb. }
    destruct (evaluate_run lib E pos contract entry current config d w1 Hd)
      as [_ Hrun].
    assert (Hadded :
      added w (snd (evaluate lib E pos contract entry current config w1)) =
      (d0 ++ EvUpdatePositionPrice (pos_id pos) current
               (Some (new_highest (pos_highest_price pos) current))
             :: requests pos (time_trigger E pos (now_utc E (clock w1)) d))
      %list).
    { apply added_app. rewrite Hrun, Hd0, <- app_assoc. reflexivity. }
    rewrite Hadded in Hin |- *. clear Hadded Hrun.
    apply in_app_or in Hin. destruct Hin as [Hin | [Hin | Hin]].
    { pose proof (count_none is_backend d0 _ Hc0 Hin) as Hb.
      discriminate Hb. }
    { discriminate Hin. }
    unfold requests in Hin |- *.
    destruct (acted d) eqn:Hacted.
    { exfalso. rewrite (time_trigger_kept E pos _ d Hacted) in Hin.
      rewrite Hacted in Hin. destruct Hin as [Hin | []].
      inversion Hin as [[Hid Hpct Hreason]].
      exact (price_reason_not_time lib pos config _ _ _ d Hd Hreason). }
    destruct (time_trigger_cases E pos (now_utc E (clock w1)) d Hacted)
      as [[Hup Ht] | [_ Ht]]; rewrite Ht in Hin |- *.
    2:{ rewrite Hacted in Hin. contradiction. }
    cbn [acted fired action_needed sell_percentage reason] in Hin |- *.
    destruct Hin as [Hin | []]. inversion Hin; subst id percentage.
    split; [reflexivity |]. split; [reflexivity |].
    split.
    + rewrite filter_app, (no_backend_no_sell d0 Hc0). reflexivity.
    + assert (Hnone : action_needed d = None).
      { unfold acted in Hacted.
        destruct (action_needed d); [discriminate Hacted | reflexivity]. }
      exists contract, entry, config, current, w1, d.
      split; [exact Hreach |]. split; [exact Hd |].
      split; [exact Hnone | exact Hup].
  - intros contract entry config current w1 d Hreach Hd Hnone Hup.
    rewrite (monitor_position_evaluates _ _ _ _ _ _ _ _ _ Hreach).
    assert (Hacted : acted d = false) by (unfold acted; rewrite Hnone; reflexivity).
    destruct (time_trigger_cases E pos (now_utc E (clock w1)) d Hacted)
      as [[_ Ht] | [Hnot _]]; [| contradiction].
    unfold evaluate, bind, lift, read_now, tell. rewrite Hd, Ht.
    cbn [acted fired action_needed sell_percentage reason clock rpc trace].
    rewrite <- app_assoc. reflexivity.
Qed.

Lemma time_based_exit_witness :
  monitor_position plain_lib (late_priced_env BONK_MINT (5 # 4))
                   timed_position start =
  (Ok tt,
   World 3 false
     [EvPriceRequest BONK_MINT;
      EvUpdatePositionPrice "trade-2" (5 # 4) (Some (5 # 4));
      EvTriggerAutoSell "trade-2" 100
                        (Some "Time-based auto-sell triggered")]).
Proof.
  destruct (time_based_exit plain_lib (late_priced_env BONK_MINT (5 # 4))
              timed_position start) as [_ Hfires].
  apply (Hfires BONK_MINT 1%Q chat_config (5 # 4)%Q
           (World 1 false [EvPriceRequest BONK_MINT]) no_action).
  - repeat split; try (vm_compute; reflexivity); intro H; discriminate H.
  - vm_compute. reflexivity.
  - reflexivity.
  - exists "2024-01-01T00:00:00Z", 1704067200.
    repeat split; try (vm_compute; reflexivity); intro H; discriminate H.
Defined.

(** ** The highest price *)

Lemma new_highest_seed current : new_highest None current = current.
Proof. reflexivity. Qed.

Lemma new_highest_above h current :
  (h < current)%Q -> new_highest (Some h) current = current.
Proof.
  intro H. apply Qltb_lt in H. unfold new_highest. rewrite H. reflexivity.
Qed.

(** A result that is exactly zero is not changed by rounding. *)
Lemma fl_zero q : q == 0 -> fl q = 0%Q.
Proof.
  intro H. unfold fl.
  assert (Hn : Qnum q = 0) by (unfold Qeq in H; simpl in H; lia).
  rewrite Hn. reflexivity.
Qed.

Lemma drop_from_own_high current : drop_from_high current current == 0.
Proof.
  unfold drop_from_high. destruct (Qltb 0 current); [| reflexivity].
  unfold fmul, fdiv, fsub.
  rewrite (fl_zero (current - current)) by ring.
  rewrite (fl_zero (0 / current)) by (unfold Qdiv; ring).
  rewrite (fl_zero (0 * 100)) by ring. reflexivity.
Qed.

(** C10. When the current price is above the stored highest price, or
    none is stored, the new highest price is the current price, the drop
    from it is zero, and with a positive effective trailing threshold the
    trailing stop is not the action chosen. *)
Theorem trailing_stop_not_on_new_high lib pos config entry current d :
  (pos_highest_price pos = None \/
   exists h, pos_highest_price pos = Some h /\ (h < current)%Q) ->
  (0 < trailing_pct pos config)%Q ->
  price_triggers lib pos config (pnl_pct current entry) current
                 (new_highest (pos_highest_price pos) current) = Ok d ->
  new_highest (pos_highest_price pos) current = current /\
  drop_from_high (new_highest (pos_highest_price pos) current) current == 0 /\
  action_needed d <> Some trailing_stop.
Proof.
  intros Hhigh Hpct.
  assert (Hn : new_highest (pos_highest_price pos) current = current).
  { destruct Hhigh as [-> | (h & -> & Hlt)];
      [apply new_highest_seed | apply new_highest_above, Hlt]. }
  rewrite Hn. intro Hd.
  split; [reflexivity |]. split; [apply drop_from_own_high |].
  assert (Hno : Qleb (trailing_pct pos config)
                     (drop_from_high current current) = false).
  { apply Qleb_gt. rewrite drop_from_own_high. exact Hpct. }
  unfold price_triggers in Hd. rewrite Hno in Hd.
  repeat match type of Hd with
         | context [match ?x with _ => _ end] => destruct x
         | context [if ?b then _ else _] => destruct b
         end;
    inversion Hd; subst; simpl; discriminate.
Qed.

Lemma trailing_stop_not_on_new_high_witness :
  exists d,
    price_triggers plain_lib peaked_position alpha_config (pnl_pct 5 1) 5
                   (new_highest (pos_highest_price peaked_position) 5) = Ok d
    /\ action_needed d <> Some trailing_stop.
Proof.
  exists no_action.
  assert (Hd : price_triggers plain_lib peaked_position alpha_config
                 (pnl_pct 5 1) 5
                 (new_highest (pos_highest_price peaked_position) 5)
               = Ok no_action) by (vm_compute; reflexivity).
  split; [exact Hd |].
  apply (trailing_stop_not_on_new_high plain_lib peaked_position alpha_config
           1%Q 5%Q no_action).
  - right. exists 4%Q. split; reflexivity.
  - reflexivity.
  - exact Hd.
Defined.

Lemma Qsame_eq x y : Qsame x y = true <-> x = y.
Proof.
  unfold Qsame. rewrite andb_true_iff, Z.eqb_eq, Pos.eqb_eq.
  destruct x, y; simpl. split; [intros [-> ->]; reflexivity |].
  intro H; inversion H; auto.
Qed.

Lemma new_highest_max h current :
  new_highest (Some h) current = py_max h current /\
  new_highest (Some h) current == Qmax h current /\
  (h <= new_highest (Some h) current)%Q /\
  (current <= new_highest (Some h) current)%Q.
Proof.
  unfold new_highest, py_max. split; [reflexivity |].
  destruct (Qltb h current) eqn:Hlt.
  - apply Qltb_lt in Hlt. pose proof (Qlt_le_weak _ _ Hlt) as Hle.
    split; [symmetry; apply Q.max_r, Hle |].
    split; [exact Hle | apply Qle_refl].
  - apply Qltb_ge in Hlt.
    split; [symmetry; apply Q.max_l, Hlt |].
    split; [apply Qle_refl | exact Hlt].
Qed.

Lemma reported_highs_above h prices :
  Forall (Qle h) (reported_highs (Some h) prices).
Proof.
  revert h. induction prices as [| current later IH]; intro h; simpl;
    constructor;
    destruct (new_highest_max h current) as (_ & _ & Hh & _);
    [exact Hh |].
  apply Forall_impl with (P := Qle (new_highest (Some h) current));
    [| apply IH].
  intros x Hx. exact (Qle_trans _ _ _ Hh Hx).
Qed.

Lemma reported_highs_sorted stored prices :
  Sorted Qle (reported_highs stored prices).
Proof.
  revert stored. induction prices as [| current later IH]; intro stored;
    simpl; constructor; [apply IH |].
  pose proof (reported_highs_above (new_highest stored current) later) as Ha.
  destruct (reported_highs _ later); constructor.
  inversion Ha; assumption.
Qed.

(** C4. Every price update the monitor sends for a position carries, as
    highest price, the stored highest price or the current price,
    whichever is larger (the current price when none is stored); so the
    highest prices reported over consecutive cycles never decrease, and
    never fall below a stored one. *)
Theorem highest_price_reported lib E pos w :
  (exists d,
     trace (snd (monitor_position lib E pos w)) = (trace w ++ d)%list /\
     forall id current hp,
       In (EvUpdatePositionPrice id current hp) d ->
       hp = Some (new_highest (pos_highest_price pos) current)) /\
  (forall current, new_highest None current = current) /\
  (forall h current,
     new_highest (Some h) current = py_max h current /\
     new_highest (Some h) current == Qmax h current /\
     (h <= new_highest (Some h) current)%Q /\
     (current <= new_highest (Some h) current)%Q) /\
  (forall stored prices, Sorted Qle (reported_highs stored prices)) /\
  (forall h prices, Forall (Qle h) (reported_highs (Some h) prices)).
Proof.
  split; [| split; [reflexivity | split; [apply new_highest_max |
            split; [apply reported_highs_sorted
                   | apply reported_highs_above]]]].
  assert (Ha : adds (misreports pos) 0 (monitor_position lib E pos)).
  { apply monitor_position_adds.
    - intros e He. destruct e; try discriminate He; exact I.
    - intros contract entry current config. unfold evaluate.
      apply adds_bind0; [quiet | intro d].
      apply adds_bind0; [quiet | intro now].
      apply adds_bind0.
      + apply adds_tell. simpl. apply negb_false_iff, Qsame_eq. reflexivity.
      + intros _. quiet. }
  destruct (Ha w) as (d & Hd & Hc). exists d. split; [exact Hd |].
  intros id current hp Hin.
  assert (H0 : count (misreports pos) d = 0%nat) by lia.
  pose proof (count_none _ _ _ H0 Hin) as Hm. simpl in Hm.
  destruct hp as [h |]; [| discriminate Hm].
  apply negb_false_iff, Qsame_eq in Hm. congruence.
Qed.

Lemma highest_price_reported_witness :
  let run := monitor_position plain_lib (priced_env "MintAAAAAAAA" 5)
                              peaked_position start in
  In (EvUpdatePositionPrice "trade-1" 5 (Some 5%Q)) (trace (snd run)) /\
  Some 5%Q = Some (new_highest (pos_highest_price peaked_position) 5).
Proof.
  intro run.
  assert (Hin : In (EvUpdatePositionPrice "trade-1" 5 (Some 5%Q))
                   (trace (snd run)))
    by (vm_compute; right; left; reflexivity).
  split; [exact Hin |].
  destruct (highest_price_reported plain_lib (priced_env "MintAAAAAAAA" 5)
              peaked_position start) as [(d & Hd & Hall) _].
  simpl app in Hd. fold run in Hd. rewrite Hd in Hin.
  exact (Hall "trade-1" 5%Q (Some 5%Q) Hin).
Defined.

(** * The quote service *)

Section Quote.

Variable lib : pylib.
Variable E : env.
Variables input_mint output_mint : string.
Variables amount slippage_bps retries : Z.

Local Abbreviation request :=
  (EvQuoteRequest input_mint output_mint amount slippage_bps).
Local Abbreviation attempts :=
  (quote_attempts lib E input_mint output_mint amount slippage_bps retries).
Local Abbreviation read n := (read_quote_reply lib (http_get_quote E n)).

Lemma no_route_reply_read reply :
  no_route_reply lib reply <-> read_quote_reply lib reply = Ok (Some None).
Proof.
  unfold no_route_reply, read_quote_reply, is_no_route, response_json.
  split.
  - intros (r & data & msg & -> & Hs & Hb & Hg & Hc). simpl.
    rewrite Hs, Hb. simpl. rewrite Hg. simpl.
    apply orb_true_iff in Hc. rewrite Hc. reflexivity.
  - destruct reply as [r | e]; simpl; [| discriminate].
    destruct (status_code r =? 400) eqn:Hs.
    + apply Z.eqb_eq in Hs.
      destruct (body r) as [data |] eqn:Hb; simpl; [| discriminate].
      destruct (py_get data "error" (JStr "Unknown error")) as [msg | e]
        eqn:Hg; simpl; [| discriminate].
      destruct (_ || _)%bool eqn:Hc.
      * intros _. apply orb_true_iff in Hc. exists r, data, msg. auto.
      * unfold raise_for_status. rewrite Hs. simpl. discriminate.
    + simpl. destruct (raise_for_status r); simpl; [| discriminate].
      destruct (body r) as [quote |]; simpl; [| discriminate].
      destruct (truthy quote) eqn:Ht; simpl.
      * destruct (py_get quote "outAmount" JNull) as [out | e]; simpl;
          [destruct (truthy out) |]; discriminate.
      * rewrite Ht. discriminate.
Qed.

Lemma bad_status_read r e x :
  raise_for_status r = Raise e ->
  read_quote_reply lib (Ok r) = Ok x -> x = Some None.
Proof.
  intro He. unfold read_quote_reply. simpl.
  destruct (status_code r =? 400); simpl.
  - destruct (response_json r) as [data | e1]; simpl; [| discriminate].
    destruct (py_get data "error" (JStr "Unknown error")) as [msg | e2];
      simpl; [| discriminate].
    destruct (is_no_route lib msg); simpl.
    + intro H. inversion H. reflexivity.
    + rewrite He. simpl. discriminate.
  - rewrite He. simpl. discriminate.
Qed.

Lemma error_reply_raises reply :
  http_or_network_error lib reply ->
  exists e, read_quote_reply lib reply = Raise e.
Proof.
  intros [[e ->] | [(r & -> & Hs) Hnr]]; [exists e; reflexivity |].
  assert (Hraise : exists e, raise_for_status r = Raise e).
  { unfold raise_for_status.
    destruct ((200 <=? status_code r) && (status_code r <? 300))%bool
      eqn:Hb; [| eauto].
    apply andb_true_iff in Hb. destruct Hb as [H1 H2].
    apply Z.leb_le in H1. apply Z.ltb_lt in H2. lia. }
  destruct Hraise as [e0 He0].
  destruct (read_quote_reply lib (Ok r)) as [x | e] eqn:Hr; [| eauto].
  exfalso. apply Hnr, no_route_reply_read.
  rewrite Hr. f_equal. exact (bad_status_read r e0 x He0 Hr).
Qed.

Lemma attempt_returns todo attempt w r :
  read (clock w) = Ok (Some r) ->
  attempts (S todo) attempt w = (Ok r, after_request request w []).
Proof.
  unfold after_request. simpl.
  unfold bind, try_except, quote_attempt, bind, call, lift. simpl.
  intros ->. reflexivity.
Qed.

Lemma attempt_unusable todo attempt w :
  read (clock w) = Ok None ->
  attempts (S todo) attempt w =
  attempts todo (attempt + 1) (after_request request w []).
Proof.
  unfold after_request. simpl.
  unfold bind at 1. unfold try_except, quote_attempt, bind, call, lift.
  simpl. intros ->. reflexivity.
Qed.

(** An attempt that raises is followed by a sleep of one second, unless
    it was the last one, and then by the next attempt. *)
Lemma attempt_errored todo attempt w e :
  read (clock w) = Raise e ->
  attempts (S todo) attempt w =
  attempts todo (attempt + 1)
    (after_request request w (if attempt <? retries - 1 then [EvSleep 1] else [])).
Proof.
  unfold after_request. simpl.
  unfold bind at 1. unfold try_except, quote_attempt, bind, call, lift.
  simpl. intros ->.
  destruct (attempt <? retries - 1); simpl; [| reflexivity].
  rewrite <- app_assoc. reflexivity.
Qed.

Lemma attempt_goes_on todo attempt w :
  goes_on lib E (clock w) ->
  exists more,
    attempts (S todo) attempt w =
    attempts todo (attempt + 1) (after_request request w more) /\
    count is_quote_request more = 0%nat.
Proof.
  intro Hg. destruct (read (clock w)) as [[r |] | e] eqn:Hr.
  - exfalso. exact (Hg r Hr).
  - exists []. split; [apply attempt_unusable, Hr | reflexivity].
  - exists (if attempt <? retries - 1 then [EvSleep 1] else []).
    split; [apply attempt_errored with (e := e), Hr |].
    destruct (attempt <? retries - 1); reflexivity.
Qed.

(** The loop stops at the first attempt that returns. *)
Lemma attempts_stop_at k : forall todo attempt w r,
  (k < todo)%nat ->
  (forall j, (j < k)%nat -> goes_on lib E (clock w + j)) ->
  read (clock w + k) = Ok (Some r) ->
  exists d,
    attempts todo attempt w =
    (Ok r, World (clock w + k + 1) (rpc w) (trace w ++ d ++ [request])) /\
    count is_quote_request d = k.
Proof.
  induction k as [| k IH]; intros todo attempt w r Hk Hgo Hr.
  - destruct todo as [| todo]; [lia |].
    rewrite Nat.add_0_r in Hr. exists []. split; [| reflexivity].
    rewrite (attempt_returns todo attempt w r Hr). unfold after_request.
    f_equal. f_equal. lia.
  - destruct todo as [| todo]; [lia |].
    destruct (attempt_goes_on todo attempt w) as (more & Hstep & Hmore).
    { specialize (Hgo 0%nat). rewrite Nat.add_0_r in Hgo. apply Hgo. lia. }
    destruct (IH todo (attempt + 1) (after_request request w more) r) as (d & Hd & Hc).
    + lia.
    + intros j Hj. simpl. replace (S (clock w + j)) with (clock w + S j)%nat
        by lia. apply Hgo. lia.
    + simpl. replace (S (clock w + k)) with (clock w + S k)%nat by lia.
      exact Hr.
    + exists (request :: more ++ d)%list. split.
      * rewrite Hstep, Hd. unfold after_request. simpl.
        f_equal. f_equal; [lia |].
        simpl. rewrite <- !app_assoc. reflexivity.
      * change (request :: more ++ d)%list
          with ([request] ++ more ++ d)%list.
        rewrite !count_app, Hmore, Hc. reflexivity.
Qed.

(** When every attempt raises, all [todo] attempts are made, a second
    apart, and the loop ends without a quote. *)
Lemma attempts_all_raise : forall todo attempt w,
  attempt + Z.of_nat todo = retries ->
  (forall j, (j < todo)%nat -> exists e, read (clock w + j) = Raise e) ->
  attempts todo attempt w =
  (Ok None,
   World (clock w + todo) (rpc w) (trace w ++ retry_trace request todo)).
Proof.
  induction todo as [| todo IH]; intros attempt w Hn Herr.
  - unfold attempts. simpl. unfold ret. rewrite app_nil_r, Nat.add_0_r.
    destruct w; reflexivity.
  - destruct (Herr 0%nat) as [e He]; [lia |].
    rewrite Nat.add_0_r in He.
    rewrite (attempt_errored todo attempt w e He).
    rewrite IH.
    + unfold after_request. simpl. f_equal. f_equal; [lia |].
      rewrite <- app_assoc. simpl.
      destruct todo as [| todo].
      * replace (attempt <? retries - 1) with false
          by (symmetry; apply Z.ltb_ge; lia). reflexivity.
      * replace (attempt <? retries - 1) with true
          by (symmetry; apply Z.ltb_lt; lia). reflexivity.
    + lia.
    + intros j Hj. simpl.
      replace (S (clock w + j)) with (clock w + S j)%nat by lia.
      apply Herr. lia.
Qed.

(** Whatever the loop returns as a quote came out of a reply that the
    attempt accepted. *)
Lemma attempts_result : forall todo attempt w q,
  fst (attempts todo attempt w) = Ok (Some q) ->
  exists n, read n = Ok (Some (Some q)).
Proof.
  induction todo as [| todo IH]; intros attempt w q; [discriminate |].
  destruct (read (clock w)) as [[r |] | e] eqn:Hr.
  - rewrite (attempt_returns todo attempt w r Hr). simpl.
    intro H. inversion H; subst. eauto.
  - rewrite (attempt_unusable todo attempt w Hr). apply IH.
  - rewrite (attempt_errored todo attempt w e Hr). apply IH.
Qed.

End Quote.

(** C6. In a call of [get_quote], the attempt that receives the
    structured no-route reply ends the call with [None]: it is the last
    request made, nothing is retried after it, and on the first attempt
    just one request has been made. When instead every attempt fails with
    an HTTP or network error, all [retries] attempts are made, each but
    the last followed by a sleep of one second, and the call ends with
    [None]. *)
Theorem get_quote_retry_policy lib E input_mint output_mint amount
    slippage_bps retries w :
  let reply k := http_get_quote E (clock w + k) in
  let request := EvQuoteRequest input_mint output_mint amount slippage_bps in
  let run := get_quote lib E input_mint output_mint amount slippage_bps
                       retries w in
  (0 < retries -> no_route_reply lib (reply 0%nat) ->
   run = (Ok None, World (S (clock w)) (rpc w) (trace w ++ [request]))) /\
  (forall k,
     (k < Z.to_nat retries)%nat ->
     (forall j r, (j < k)%nat ->
                  read_quote_reply lib (reply j) <> Ok (Some r)) ->
     no_route_reply lib (reply k) ->
     exists d,
       run = (Ok None,
              World (clock w + k + 1) (rpc w) (trace w ++ d ++ [request])) /\
       count is_quote_request d = k) /\
  ((forall j, (j < Z.to_nat retries)%nat ->
              http_or_network_error lib (reply j)) ->
   run = (Ok None,
          World (clock w + Z.to_nat retries) (rpc w)
                (trace w ++ retry_trace request (Z.to_nat retries)))).
Proof.
  intros reply request run. unfold run, get_quote, reply.
  split; [| split].
  - intros Hpos Hnr. apply no_route_reply_read in Hnr.
    rewrite Nat.add_0_r in Hnr.
    destruct (Z.to_nat retries) as [| todo] eqn:Hn; [lia |].
    apply attempt_returns. exact Hnr.
  - intros k Hk Hgo Hnr. apply no_route_reply_read in Hnr.
    apply attempts_stop_at; [exact Hk | | exact Hnr].
    intros j Hj r. apply Hgo. exact Hj.
  - intro Herr. destruct (Z.to_nat retries) as [| todo] eqn:Hn.
    + simpl. unfold ret. rewrite app_nil_r, Nat.add_0_r.
      destruct w; reflexivity.
    + apply attempts_all_raise; [lia |].
      intros j Hj. apply error_reply_raises, Herr, Hj.
Qed.

Lemma get_quote_retry_policy_witness :
  get_quote plain_lib (quoting_env (Ok no_route_response))
            SOL_MINT "MintAAAAAAAA" 500000000 100 3 start =
  (Ok None,
   World 1 false [EvQuoteRequest SOL_MINT "MintAAAAAAAA" 500000000 100]) /\
  get_quote plain_lib (quoting_env unreachable_reply)
            SOL_MINT "MintAAAAAAAA" 500000000 100 3 start =
  (Ok None,
   World 3 false
     [EvQuoteRequest SOL_MINT "MintAAAAAAAA" 500000000 100; EvSleep 1;
      EvQuoteRequest SOL_MINT "MintAAAAAAAA" 500000000 100; EvSleep 1;
      EvQuoteRequest SOL_MINT "MintAAAAAAAA" 500000000 100]).
Proof.
  split.
  - apply (get_quote_retry_policy plain_lib (quoting_env (Ok no_route_response))
             SOL_MINT "MintAAAAAAAA" 500000000 100 3 start).
    + reflexivity.
    + exists no_route_response,
        (JObj [("error", JStr "No route found");
               ("errorCode", JStr "COULD_NOT_FIND_ANY_ROUTE")]),
        (JStr "No route found").
      repeat split; left; reflexivity.
  - apply (get_quote_retry_policy plain_lib (quoting_env unreachable_reply)
             SOL_MINT "MintAAAAAAAA" 500000000 100 3 start).
    intros j _. left. eexists. reflexivity.
Defined.

(** A reply is accepted as a quote only with a 2xx status and a truthy
    JSON object whose [outAmount] is truthy. *)
Lemma accepted_reply lib reply q :
  read_quote_reply lib reply = Ok (Some (Some q)) ->
  exists r l out,
    reply = Ok r /\ raise_for_status r = Ok tt /\ body r = Some q /\
    q = JObj l /\ assoc "outAmount" l = Some out /\ truthy out = true.
Proof.
  unfold read_quote_reply.
  destruct reply as [r | e]; simpl; [| discriminate].
  destruct (if status_code r =? 400 then _ else _) as [[|] | e]; simpl;
    try discriminate.
  destruct (raise_for_status r) as [[] | e] eqn:Hs; simpl; [| discriminate].
  unfold response_json.
  destruct (body r) as [quote |] eqn:Hb; simpl; [| discriminate].
  destruct (truthy quote) eqn:Ht; simpl; [| rewrite Ht; discriminate].
  destruct quote as [| b | n | s | l | l]; simpl; try discriminate.
  destruct (assoc "outAmount" l) as [out |] eqn:Ha; simpl;
    [| discriminate].
  destruct (truthy out) eqn:Ho; [| discriminate].
  intro H. inversion H; subst. exists r, l, out. repeat split; assumption.
Qed.

(** C7, as the code has it. A quote that [get_quote] returns is a JSON
    object whose [outAmount] is present and truthy: not null, not false,
    not the number zero, not an empty string or collection. *)
Theorem get_quote_accepts lib E input_mint output_mint amount slippage_bps
    retries w q :
  fst (get_quote lib E input_mint output_mint amount slippage_bps retries w)
  = Ok (Some q) ->
  exists l out,
    q = JObj l /\ assoc "outAmount" l = Some out /\ truthy out = true /\
    out <> JNull /\ out <> JBool false /\ out <> JStr "" /\
    (forall n, out = JNum n -> ~ n == 0).
Proof.
  intro H. apply attempts_result in H. destruct H as [n Hn].
  apply accepted_reply in Hn.
  destruct Hn as (r & l & out & _ & _ & _ & -> & Ha & Ht).
  exists l, out. repeat split; auto; try (intros ->; discriminate Ht).
  intros n0 -> H0. simpl in Ht. unfold Qnonzero in Ht.
  apply negb_true_iff in Ht.
  apply Qeq_bool_iff in H0. congruence.
Qed.

Lemma get_quote_accepts_witness :
  let quote := JObj [("outAmount", JStr "1250000")] in
  fst (get_quote plain_lib (quoting_env (Ok (ok_response quote)))
                 SOL_MINT "MintAAAAAAAA" 500000000 100 3 start)
  = Ok (Some quote) /\
  exists l out,
    quote = JObj l /\ assoc "outAmount" l = Some out /\ truthy out = true.
Proof.
  intro quote.
  assert (H : fst (get_quote plain_lib (quoting_env (Ok (ok_response quote)))
                             SOL_MINT "MintAAAAAAAA" 500000000 100 3 start)
              = Ok (Some quote)) by reflexivity.
  split; [exact H |].
  destruct (get_quote_accepts _ _ _ _ _ _ _ _ _ H)
    as (l & out & Hq & Ha & Ht & _).
  exists l, out. auto.
Defined.

(** C7, as stated, fails: a reply whose [outAmount] is the string "0",
    the form in which the aggregator sends amounts, is returned as a
    quote, and the amount the callers read from it is zero. *)
Lemma zero_out_amount_returned :
  let quote := JObj [("outAmount", JStr "0")] in
  fst (get_quote plain_lib (quoting_env (Ok (ok_response quote)))
                 SOL_MINT "MintAAAAAAAA" 500000000 100 3 start)
  = Ok (Some quote) /\
  out_amount plain_lib quote = Ok 0.
Proof. split; reflexivity. Qed.

(** * The swap executor *)

(** A quote that [get_quote] returns is truthy. *)
Lemma returned_quote_truthy lib E input_mint output_mint amount slippage_bps
    retries w q :
  fst (get_quote lib E input_mint output_mint amount slippage_bps retries w)
  = Ok (Some q) ->
  truthy q = true.
Proof.
  intro H. apply attempts_result in H. destruct H as [n Hn].
  apply accepted_reply in Hn.
  destruct Hn as (r & l & out & _ & _ & _ & -> & Ha & _).
  destruct l; [discriminate Ha | reflexivity].
Qed.

(** What a call of [execute_swap] comes to. Either no confirmation was
    awaited; or, once connected, the swap was requested, the transaction
    sent and the confirmation of the signature that the send returned
    awaited, as the last call of the run, and a timeout of that wait
    gives the success result when [outAmount] converts. *)
Lemma execute_swap_cases lib E quote w res w' :
  execute_swap lib E quote w = (res, w') ->
  count is_confirm (added w w') = 0%nat \/
  exists w1 d signed_txn tx_signature,
    trace w1 = (trace w ++ d)%list /\ count is_confirm d = 0%nat /\
    w' = World (S (S (S (clock w1)))) (rpc w1)
           (trace w1 ++ [EvSwapRequest quote; EvSendTransaction signed_txn;
                         EvConfirmTransaction tx_signature]) /\
    forall e n,
      rpc_confirm_transaction E (S (S (clock w1))) = Raise e ->
      is_timeout e = true ->
      out_amount lib quote = Ok n ->
      res = Ok (mkTradeResult true (Some tx_signature) None (Some n) (Some n)).
Proof.
  unfold execute_swap, try_except.
  destruct (ensure_rpc_quiet E is_confirm (fun _ => eq_refl) w)
    as (d & Hd & Hc).
  assert (Hc0 : count is_confirm d = 0%nat) by lia.
  unfold execute_swap_body. unfold bind at 1.
  destruct (ensure_rpc E w) as [[[] | e1] w1] eqn:He; cbn [snd] in Hd.
  2:{ unfold ret. intro H. inversion H; subst. left.
      rewrite (added_app _ _ _ Hd). exact Hc0. }
  assert (Hleft : forall (w2 : world) t,
    trace w2 = (trace w1 ++ t)%list -> count is_confirm t = 0%nat ->
    count is_confirm (added w w2) = 0%nat).
  { intros w2 t Ht Hct. rewrite (added_app w w2 (d ++ t)).
    - rewrite count_app. lia.
    - rewrite Ht, Hd, app_assoc. reflexivity. }
  assert (Hrequested : forall r (w2 : world),
    (r, World (S (clock w1)) (rpc w1) (trace w1 ++ [EvSwapRequest quote]))
    = (res, w2) -> count is_confirm (added w w2) = 0%nat).
  { intros r w2 H. inversion H; subst.
    apply (Hleft _ [EvSwapRequest quote]); reflexivity. }
  unfold bind at 1. unfold call at 1. cbn [clock].
  unfold bind at 1. unfold lift at 1.
  destruct (http_post_swap E (clock w1)) as [response | e2];
    [| unfold ret; intro H; left; exact (Hrequested _ _ H)].
  destruct (negb (status_code response =? 200));
    [unfold ret; intro H; left; exact (Hrequested _ _ H) |].
  unfold bind at 1. unfold lift at 1.
  destruct (response_json response) as [swap_result | e3];
    [| unfold ret; intro H; left; exact (Hrequested _ _ H)].
  unfold bind at 1. unfold lift at 1.
  destruct (py_get swap_result "swapTransaction" JNull) as [swap_tx | e4];
    [| unfold ret; intro H; left; exact (Hrequested _ _ H)].
  destruct (negb (truthy swap_tx));
    [unfold ret; intro H; left; exact (Hrequested _ _ H) |].
  unfold bind at 1. unfold lift at 1.
  destruct (sign_swap_transaction E swap_tx) as [signed_txn | e5];
    [| unfold ret; intro H; left; exact (Hrequested _ _ H)].
  unfold bind at 1. unfold call at 1. cbn [clock].
  unfold bind at 1. unfold lift at 1.
  destruct (rpc_send_raw_transaction E (S (clock w1)))
    as [tx_signature | e6].
  2:{ unfold ret. cbn [clock rpc trace]. intro H. inversion H; subst. left.
      apply (Hleft _ [EvSwapRequest quote; EvSendTransaction signed_txn]);
        [cbn [trace]; rewrite <- app_assoc; reflexivity | reflexivity]. }
  unfold confirm_and_report, try_except, bind, call, lift, throw, ret.
  cbn [clock rpc trace]. intro H. right.
  exists w1, d, signed_txn, tx_signature.
  split; [exact Hd |]. split; [exact Hc0 |].
  split.
  - destruct (rpc_confirm_transaction E (S (S (clock w1)))) as [[] | e7];
      [| destruct (is_timeout e7)];
      try destruct (out_amount lib quote);
      inversion H; subst; rewrite <- ?app_assoc; reflexivity.
  - intros e n Hconfirm Htime Hout. rewrite Hconfirm, Htime, Hout in H.
    inversion H; subst. reflexivity.
Qed.

(** C8. [execute_swap] always returns a result: whatever exception its
    body raises, before the submission or after it, becomes a result
    with [success = false] and the exception's text; and a confirmation
    that times out after the transaction was sent gives [success = true]
    with the signature obtained, for a quote whose [outAmount] converts to
    an integer. That is so for every quote with which [execute_swap] is
    called: [buy_token] and [sell_token], its callers, convert the
    [outAmount] of the quote themselves first, and raise without calling
    it when the conversion fails. *)
Theorem execute_swap_result lib E quote w :
  (exists r, fst (execute_swap lib E quote w) = Ok r) /\
  (forall e w',
     execute_swap_body lib E quote w = (Raise e, w') ->
     execute_swap lib E quote w = (Ok (failed (exn_text e)), w')) /\
  (forall w1 response swap_result swap_tx signed_txn tx_signature e n,
     ensure_rpc E w = (Ok tt, w1) ->
     http_post_swap E (clock w1) = Ok response ->
     status_code response = 200 ->
     body response = Some swap_result ->
     py_get swap_result "swapTransaction" JNull = Ok swap_tx ->
     truthy swap_tx = true ->
     sign_swap_transaction E swap_tx = Ok signed_txn ->
     rpc_send_raw_transaction E (S (clock w1)) = Ok tx_signature ->
     rpc_confirm_transaction E (S (S (clock w1))) = Raise e ->
     is_timeout e = true ->
     out_amount lib quote = Ok n ->
     fst (execute_swap lib E quote w) =
     Ok (mkTradeResult true (Some tx_signature) None (Some n) (Some n))) /\
  (forall contract_address amount_sol slippage_bps balance w1 q w2,
     get_balance E w = (Ok balance, w1) ->
     (fadd amount_sol (fl (1 # 100)) <= balance)%Q ->
     get_quote lib E SOL_MINT contract_address
               (Qtrunc (fmul amount_sol 1000000000)) slippage_bps 3 w1
     = (Ok (Some q), w2) ->
     match out_amount lib q with
     | Ok _ =>
         buy_token lib E contract_address amount_sol slippage_bps w =
         execute_swap lib E q w2
     | Raise e =>
         buy_token lib E contract_address amount_sol slippage_bps w =
         (Raise e, w2)
     end) /\
  (forall contract_address percentage slippage_bps t w1 q w2,
     (ensure_rpc E ;;; get_token_balance E contract_address) w
     = (Ok (Some t), w1) ->
     0 < t -> 0 < t * percentage / 100 ->
     get_quote lib E contract_address SOL_MINT (t * percentage / 100)
               slippage_bps 3 w1
     = (Ok (Some q), w2) ->
     match out_amount lib q with
     | Ok _ =>
         sell_token lib E contract_address percentage slippage_bps w =
         execute_swap lib E q w2
     | Raise e =>
         sell_token lib E contract_address percentage slippage_bps w =
         (Raise e, w2)
     end).
Proof.
  split; [| split; [| split; [| split]]].
  - unfold execute_swap, try_except.
    destruct (execute_swap_body lib E quote w) as [[r | e] w']; simpl; eauto.
  - intros e w' H. unfold execute_swap, try_except. rewrite H. reflexivity.
  - intros w1 response swap_result swap_tx signed_txn tx_signature e n
           Hrpc Hpost Hstatus Hbody Hget Htx Hsign Hsend Hconfirm Htime Hout.
    unfold execute_swap, try_except, execute_swap_body.
    unfold bind at 1. rewrite Hrpc.
    unfold bind at 1. unfold call at 1. cbn [clock].
    unfold bind at 1. unfold lift at 1. rewrite Hpost.
    rewrite Hstatus. cbn [Z.eqb Pos.eqb negb].
    unfold response_json. rewrite Hbody.
    unfold bind at 1. unfold lift at 1.
    unfold bind at 1. unfold lift at 1. rewrite Hget, Htx. cbn [negb].
    unfold bind at 1. unfold lift at 1. rewrite Hsign.
    unfold bind at 1. unfold call at 1. cbn [clock].
    unfold bind at 1. unfold lift at 1. rewrite Hsend.
    unfold confirm_and_report, bind, try_except, call, lift. cbn [clock].
    rewrite Hconfirm, Htime, Hout. reflexivity.
  - intros contract_address amount_sol slippage_bps balance w1 q w2
           Hbalance Henough Hquote.
    assert (Ht : truthy q = true).
    { apply (returned_quote_truthy lib E SOL_MINT contract_address
               (Qtrunc (fmul amount_sol 1000000000)) slippage_bps 3 w1).
      rewrite Hquote. reflexivity. }
    apply Qltb_ge in Henough.
    destruct (out_amount lib q) as [n | e] eqn:Hout;
      unfold buy_token; unfold bind at 1; rewrite Hbalance, Henough;
      unfold bind at 1; rewrite Hquote, Ht;
      unfold bind, lift; rewrite Hout; reflexivity.
  - intros contract_address percentage slippage_bps t w1 q w2
           Hbalance Ht Hamount Hquote.
    assert (Htruthy : truthy q = true).
    { apply (returned_quote_truthy lib E contract_address SOL_MINT
               (t * percentage / 100) slippage_bps 3 w1).
      rewrite Hquote. reflexivity. }
    assert (Hpos : (t <=? 0) = false) by (apply Z.leb_gt; lia).
    assert (Hsome : (t * percentage / 100 <=? 0) = false)
      by (apply Z.leb_gt; lia).
    unfold bind at 1 in Hbalance.
    destruct (ensure_rpc E w) as [[[] | e0] w0] eqn:Hrpc;
      [| discriminate Hbalance].
    destruct (out_amount lib q) as [n | e] eqn:Hout;
      unfold sell_token; unfold bind at 1; rewrite Hrpc;
      unfold bind at 1; rewrite Hbalance, Hpos, Hsome;
      unfold bind at 1; rewrite Hquote, Htruthy;
      unfold bind, lift; rewrite Hout; reflexivity.
Qed.

Lemma execute_swap_result_witness :
  fst (execute_swap plain_lib unconfirmed_env
                    (JObj [("outAmount", JStr "1250000")]) connected) =
  Ok (mkTradeResult true (Some "5SigAAAA") None (Some 1250000)
                    (Some 1250000)).
Proof.
  destruct (execute_swap_result plain_lib unconfirmed_env
              (JObj [("outAmount", JStr "1250000")]) connected)
    as (_ & _ & H & _).
  apply (H connected (ok_response (JObj [("swapTransaction", JStr "AQID")]))
           (JObj [("swapTransaction", JStr "AQID")]) (JStr "AQID")
           "signed" "5SigAAAA" (Exn TimeoutError "") 1250000);
    reflexivity.
Defined.

(** * Buying and selling *)

Lemma added_count {A} p (m : M A) w :
  adds p 0 m -> count p (added w (snd (m w))) = 0%nat.
Proof.
  intro H. destruct (H w) as (d & Hd & Hc). unfold added.
  rewrite Hd, skipn_app, skipn_all, Nat.sub_diag. simpl. lia.
Qed.

(** C9. [buy_token] with a SOL balance below [amount_sol + 0.01], the
    sum and the comparison being those of binary64 as in the code, and
    [sell_token] with an unreadable or non-positive token balance or with
    a sell amount [floor(balance * percentage / 100)] that is not
    positive, return a failure after reading the balance and nothing
    else: no quote is requested, no swap built or sent. *)
Theorem fail_fast lib E contract_address slippage_bps w :
  (forall amount_sol balance w1,
     get_balance E w = (Ok balance, w1) ->
     (balance < fadd amount_sol (fl (1 # 100)))%Q ->
     buy_token lib E contract_address amount_sol slippage_bps w =
     (Ok (failed ("Insufficient SOL balance: " ++ format_fixed lib 4 balance)),
      w1) /\
     count is_quote_or_swap (added w w1) = 0%nat) /\
  (forall percentage token_amount w1,
     (ensure_rpc E ;;; get_token_balance E contract_address) w
     = (Ok token_amount, w1) ->
     (token_amount = None \/
      exists t, token_amount = Some t /\
                (t <= 0 \/ t * percentage / 100 <= 0)) ->
     exists r,
       sell_token lib E contract_address percentage slippage_bps w
       = (Ok r, w1) /\
       success r = false /\
       (r = failed "No token balance found" \/ r = failed "No tokens to sell")
       /\ count is_quote_or_swap (added w w1) = 0%nat).
Proof.
  split.
  - intros amount_sol balance w1 Hb Hlt. split.
    + unfold buy_token, bind. rewrite Hb.
      apply Qltb_lt in Hlt. rewrite Hlt. reflexivity.
    + replace w1 with (snd (get_balance E w)) by (rewrite Hb; reflexivity).
      apply added_count, get_balance_quiet; reflexivity.
  - intros percentage token_amount w1 Hb Hcase.
    assert (Hq : count is_quote_or_swap (added w w1) = 0%nat).
    { replace w1
        with (snd ((ensure_rpc E ;;; get_token_balance E contract_address) w))
        by (rewrite Hb; reflexivity).
      apply added_count, adds_bind0;
        [apply ensure_rpc_quiet; reflexivity | intro].
      apply get_token_balance_quiet; reflexivity. }
    unfold sell_token. unfold bind in Hb |- *.
    destruct (ensure_rpc E w) as [[[] | e] w0]; [| discriminate].
    destruct (get_token_balance E contract_address w0) as [[t | e] w2];
      [| discriminate].
    inversion Hb; subst; clear Hb.
    destruct Hcase as [-> | (t & -> & Hcase)].
    + exists (failed "No token balance found"). unfold ret. auto.
    + destruct (t <=? 0) eqn:Ht.
      * exists (failed "No token balance found"). unfold ret. auto.
      * apply Z.leb_gt in Ht. destruct Hcase as [Hc | Hc]; [lia |].
        apply Z.leb_le in Hc. rewrite Hc.
        exists (failed "No tokens to sell"). unfold ret. auto.
Qed.

Lemma fail_fast_witness :
  buy_token plain_lib poor_env USDC_MINT (1 # 2) 100 start =
  (Ok (failed "Insufficient SOL balance: 0.0050"),
   World 2 true
     [EvConnectRpc "https://api.mainnet-beta.solana.com"; EvGetBalance]) /\
  exists r,
    sell_token plain_lib poor_env USDC_MINT 10 100 start
    = (Ok r,
       World 2 true
         [EvConnectRpc "https://api.mainnet-beta.solana.com";
          EvGetTokenBalance USDC_MINT]) /\
    success r = false.
Proof.
  destruct (fail_fast plain_lib poor_env USDC_MINT 100 start)
    as [Hbuy Hsell].
  split.
  - destruct (Hbuy (1 # 2) (fl (1 # 200))
                (World 2 true
                   [EvConnectRpc "https://api.mainnet-beta.solana.com";
                    EvGetBalance])) as [Hr _];
      [vm_compute; reflexivity | vm_compute; reflexivity |].
    rewrite Hr. vm_compute. reflexivity.
  - destruct (Hsell 10 (Some 7)
                (World 2 true
                   [EvConnectRpc "https://api.mainnet-beta.solana.com";
                    EvGetTokenBalance USDC_MINT]))
      as (r & Hr & Hs & _).
    + vm_compute. reflexivity.
    + right. exists 7. split; [reflexivity |]. right. discriminate.
    + exists r. auto.
Defined.

(** At the edge the rounding of the sum decides. With a balance of
    exactly 1 SOL and the float 0.9900000000000001 to spend, the sum with
    0.01 rounds to 1.0 and the purchase goes on to the quote, although
    the exact sum is above 1; with a balance of 0.21 and 0.2 to spend the
    sum rounds to 0.21000000000000002 and the purchase is refused. *)
Example sum_at_the_edge :
  let amount := fl (9900000000000001 # 10000000000000000) in
  fadd amount (fl (1 # 100)) = 1%Q /\
  (1 < amount + fl (1 # 100))%Q /\
  Qltb 1 (fadd amount (fl (1 # 100))) = false /\
  Qltb (fl (21 # 100)) (fadd (fl (1 # 5)) (fl (1 # 100))) = true.
Proof. vm_compute. repeat split. Qed.

(** * A failing position and the rest of the cycle *)

(** An exception raised for one position leaves the [for] loop: the
    positions after it are not visited. *)
Lemma for_each_raises lib E pos rest e w w' :
  monitor_position lib E pos w = (Raise e, w') ->
  for_each lib E (pos :: rest) w = (Raise e, w').
Proof. intro H. simpl. unfold bind. rewrite H. reflexivity. Qed.

(** It is the handler around the whole cycle that catches it. *)
Lemma cycle_stops_at_failure lib E api pos rest e w w' :
  api (clock w) = pos :: rest ->
  monitor_position lib E pos
    (World (S (clock w)) (rpc w) (trace w ++ [EvGetOpenPositions]))
  = (Raise e, w') ->
  monitor_cycle lib E api w =
  (Ok tt, World (clock w') (rpc w') (trace w' ++ [EvLogError e; EvSleep 30])).
Proof.
  intros Hapi Hpos. unfold monitor_cycle, try_except.
  unfold bind at 1. unfold call. rewrite Hapi.
  unfold bind at 1. rewrite (for_each_raises lib E pos rest e _ w' Hpos).
  unfold bind, emit, sleep, emit. simpl.
  rewrite <- app_assoc. reflexivity.
Qed.

(** C5, at the failing input. The price index answers 2.0. Alone, the
    second position, entered at 4.0, gets its price update and a
    stop-loss sell; behind the first one, whose null threshold makes the
    stop-loss comparison raise, it is not visited at all: the exception is
    logged by the handler of the cycle, which then sleeps 30 seconds. *)
Example null_threshold_aborts_cycle :
  let E := priced_env "MintAAAAAAAA" 2 in
  monitor_cycle plain_lib E (fun _ => [sound_position]) start =
  (Ok tt,
   World 4 false
     [EvGetOpenPositions; EvPriceRequest "MintAAAAAAAA";
      EvUpdatePositionPrice "trade-2" 2 (Some 4%Q);
      EvTriggerAutoSell "trade-2" 100 (Some "Stop loss hit at -50.0%");
      EvSleep 5]) /\
  monitor_cycle plain_lib E
    (fun _ => [null_stop_loss_position; sound_position]) start =
  (Ok tt,
   World 2 false
     [EvGetOpenPositions; EvPriceRequest "MintAAAAAAAA";
      EvLogError
        (Exn TypeError
           "'<=' not supported between instances of 'float' and 'NoneType'");
      EvSleep 30]).
Proof. split; vm_compute; reflexivity. Qed.

(** * Further properties of the quote service *)

Lemma count_cons p e (t : list event) :
  count p (e :: t) = ((if p e then 1 else 0) + count p t)%nat.
Proof. unfold count. simpl. destruct (p e); reflexivity. Qed.

Lemma good_status r :
  200 <= status_code r < 300 ->
  (status_code r =? 400) = false /\ raise_for_status r = Ok tt.
Proof.
  intro H. unfold raise_for_status. split.
  - apply Z.eqb_neq. lia.
  - replace (200 <=? status_code r) with true
      by (symmetry; apply Z.leb_le; lia).
    replace (status_code r <? 300) with true
      by (symmetry; apply Z.ltb_lt; lia).
    reflexivity.
Qed.

Lemma quote_reply_read lib reply q :
  quote_reply reply q -> read_quote_reply lib reply = Ok (Some (Some q)).
Proof.
  intros (r & l & out & -> & Hs & Hb & -> & Ha & Ht).
  destruct (good_status r Hs) as [H4 Hr].
  assert (Hl : truthy (JObj l) = true)
    by (destruct l; [discriminate Ha | reflexivity]).
  unfold read_quote_reply, response_json. cbn [and_then].
  rewrite H4, Hr, Hb. cbn [and_then]. rewrite Hl.
  cbn [and_then py_get]. rewrite Ha, Ht. reflexivity.
Qed.

Lemma unusable_reply_read lib reply :
  unusable_reply reply -> read_quote_reply lib reply = Ok None.
Proof.
  intros (r & q & -> & Hs & Hb & Hq).
  destruct (good_status r Hs) as [H4 Hr].
  unfold read_quote_reply, response_json. cbn [and_then].
  rewrite H4, Hr, Hb. cbn [and_then].
  destruct Hq as [Hf | (l & -> & Hf)].
  - rewrite Hf. cbn [and_then]. rewrite Hf. reflexivity.
  - destruct (truthy (JObj l)) eqn:Hl; cbn [and_then py_get].
    + unfold or_default in Hf. rewrite Hf. reflexivity.
    + rewrite Hl. reflexivity.
Qed.

Section QuoteBounds.

Variable lib : pylib.
Variable E : env.
Variables input_mint output_mint : string.
Variables amount slippage_bps retries : Z.

Local Abbreviation request :=
  (EvQuoteRequest input_mint output_mint amount slippage_bps).
Local Abbreviation attempts :=
  (quote_attempts lib E input_mint output_mint amount slippage_bps retries).

(** The loop never raises; it only appends requests and one-second
    sleeps, at most [todo] requests and fewer sleeps than requests made
    possible, and leaves the RPC handle alone. *)
Lemma attempts_bounded : forall todo attempt w,
  retries <= attempt + Z.of_nat todo ->
  exists d q,
    attempts todo attempt w =
    (Ok q, World (clock w + count is_quote_request d) (rpc w) (trace w ++ d))
    /\ (count is_quote_request d <= todo)%nat
    /\ (count is_sleep d <= Nat.pred todo)%nat
    /\ Forall (fun e => e = request \/ e = EvSleep 1) d.
Proof.
  induction todo as [| todo IH]; intros attempt w Hinv.
  - exists [], None. simpl. unfold ret.
    rewrite app_nil_r, Nat.add_0_r. destruct w. auto.
  - destruct (read_quote_reply lib (http_get_quote E (clock w)))
      as [[r |] | e] eqn:Hr.
    + exists [request], r.
      rewrite (attempt_returns lib E _ _ _ _ retries todo attempt w r Hr).
      unfold after_request. change (count is_quote_request [request]) with 1%nat.
      change (count is_sleep [request]) with 0%nat.
      replace (clock w + 1)%nat with (S (clock w)) by lia.
      split; [reflexivity |]. split; [lia |]. split; [lia |].
      constructor; [left; reflexivity | constructor].
    + rewrite (attempt_unusable lib E _ _ _ _ retries todo attempt w Hr).
      destruct (IH (attempt + 1) (after_request request w [])) as
        (d & q & Hrun & Hc & Hs & Hall); [lia |].
      exists (request :: d), q. rewrite Hrun. unfold after_request. simpl.
      rewrite !count_cons. simpl. split; [| split; [| split]].
      * f_equal. f_equal; [lia |]. rewrite <- app_assoc. reflexivity.
      * lia.
      * lia.
      * constructor; auto.
    + rewrite (attempt_errored lib E _ _ _ _ retries todo attempt w e Hr).
      destruct (attempt <? retries - 1) eqn:Hlast.
      * apply Z.ltb_lt in Hlast.
        destruct (IH (attempt + 1) (after_request request w [EvSleep 1])) as
          (d & q & Hrun & Hc & Hs & Hall); [lia |].
        exists (request :: EvSleep 1 :: d), q.
        rewrite Hrun. unfold after_request. simpl.
        rewrite !count_cons. simpl. split; [| split; [| split]].
        -- f_equal. f_equal; [lia |]. rewrite <- app_assoc. reflexivity.
        -- lia.
        -- destruct todo; lia.
        -- constructor; [left; reflexivity |].
           constructor; [right; reflexivity | exact Hall].
      * destruct (IH (attempt + 1) (after_request request w [])) as
          (d & q & Hrun & Hc & Hs & Hall); [lia |].
        exists (request :: d), q. rewrite Hrun. unfold after_request. simpl.
        rewrite !count_cons. simpl. split; [| split; [| split]].
        -- f_equal. f_equal; [lia |]. rewrite <- app_assoc. reflexivity.
        -- lia.
        -- lia.
        -- constructor; auto.
Qed.

(** When no reply is usable, the attempts follow each other without any
    sleep. *)
Lemma attempts_all_unusable : forall todo attempt w,
  (forall j, (j < todo)%nat ->
             read_quote_reply lib (http_get_quote E (clock w + j)) = Ok None) ->
  attempts todo attempt w =
  (Ok None, World (clock w + todo) (rpc w) (trace w ++ repeat request todo)).
Proof.
  induction todo as [| todo IH]; intros attempt w Hall.
  - simpl. unfold ret. rewrite app_nil_r, Nat.add_0_r. destruct w; reflexivity.
  - pose proof (Hall 0%nat ltac:(lia)) as H0. rewrite Nat.add_0_r in H0.
    rewrite (attempt_unusable lib E _ _ _ _ retries todo attempt w H0).
    rewrite IH.
    + unfold after_request. simpl. f_equal. f_equal; [lia |].
      rewrite <- app_assoc. reflexivity.
    + intros j Hj. simpl.
      replace (S (clock w + j)) with (clock w + S j)%nat by lia.
      apply Hall. lia.
Qed.

End QuoteBounds.

(** X1. [get_quote] never raises. Whatever the replies, it makes at most
    [retries] requests (none when [retries] is not positive) and sleeps at
    most [retries - 1] times; it does nothing but request and sleep one
    second, and leaves the RPC handle as it was. *)
Theorem get_quote_bounded lib E input_mint output_mint amount slippage_bps
    retries w :
  exists d q,
    get_quote lib E input_mint output_mint amount slippage_bps retries w =
    (Ok q, World (clock w + count is_quote_request d) (rpc w) (trace w ++ d))
    /\ (count is_quote_request d <= Z.to_nat retries)%nat
    /\ (count is_sleep d <= Nat.pred (Z.to_nat retries))%nat
    /\ Forall (fun e =>
                 e = EvQuoteRequest input_mint output_mint amount slippage_bps
                 \/ e = EvSleep 1) d.
Proof. unfold get_quote. apply attempts_bounded. lia. Qed.

(** X2. [get_quote] returns the first quote that an attempt accepts: if
    the [k]-th reply (counting from 0, [k < retries]) is a 2xx reply whose
    JSON object has a truthy [outAmount], and no earlier attempt returned,
    the call returns that object after exactly [k + 1] requests. *)
Theorem get_quote_first_accepted lib E input_mint output_mint amount
    slippage_bps retries w k q :
  (k < Z.to_nat retries)%nat ->
  (forall j r, (j < k)%nat ->
     read_quote_reply lib (http_get_quote E (clock w + j)) <> Ok (Some r)) ->
  quote_reply (http_get_quote E (clock w + k)) q ->
  exists d,
    get_quote lib E input_mint output_mint amount slippage_bps retries w =
    (Ok (Some q),
     World (clock w + k + 1) (rpc w)
           (trace w ++ d
            ++ [EvQuoteRequest input_mint output_mint amount slippage_bps]))
    /\ count is_quote_request d = k.
Proof.
  intros Hk Hgo Hq. unfold get_quote.
  apply attempts_stop_at; [exact Hk | | apply quote_reply_read, Hq].
  intros j Hj r. apply Hgo. exact Hj.
Qed.

Lemma get_quote_first_accepted_witness :
  fst (get_quote plain_lib
         (scripted_env [unreachable_reply; Ok (ok_response (JObj []));
                        quoted "1250000"])
         SOL_MINT "MintAAAAAAAA" 500000000 100 3 start)
  = Ok (Some (JObj [("inAmount", JStr "500000000");
                    ("outAmount", JStr "1250000")])).
Proof.
  destruct (get_quote_first_accepted plain_lib
              (scripted_env [unreachable_reply; Ok (ok_response (JObj []));
                             quoted "1250000"])
              SOL_MINT "MintAAAAAAAA" 500000000 100 3 start 2%nat
              (JObj [("inAmount", JStr "500000000");
                     ("outAmount", JStr "1250000")])) as (d & Hd & _).
  - apply Nat.lt_succ_diag_r.
  - intros j r Hj.
    destruct j as [| [| j]];
      [intro Hx; cbv in Hx; discriminate Hx
      | intro Hx; cbv in Hx; discriminate Hx |].
    exfalso. apply Nat.succ_lt_mono, Nat.succ_lt_mono in Hj.
    exact (Nat.nlt_0_r _ Hj).
  - exists (ok_response (JObj [("inAmount", JStr "500000000");
                               ("outAmount", JStr "1250000")])),
      [("inAmount", JStr "500000000"); ("outAmount", JStr "1250000")],
      (JStr "1250000").
    repeat split; discriminate.
  - rewrite Hd. reflexivity.
Defined.

(** X3. A 2xx reply without a usable quote is not an exception: the next
    attempt follows at once. When every reply is of that kind the call
    makes [retries] requests with no sleep between them and returns
    [None]. *)
Theorem get_quote_unusable_no_backoff lib E input_mint output_mint amount
    slippage_bps retries w :
  (forall j, (j < Z.to_nat retries)%nat ->
             unusable_reply (http_get_quote E (clock w + j))) ->
  get_quote lib E input_mint output_mint amount slippage_bps retries w =
  (Ok None,
   World (clock w + Z.to_nat retries) (rpc w)
     (trace w
      ++ repeat (EvQuoteRequest input_mint output_mint amount slippage_bps)
                (Z.to_nat retries))).
Proof.
  intro H. unfold get_quote. apply attempts_all_unusable.
  intros j Hj. apply unusable_reply_read, H, Hj.
Qed.

Lemma get_quote_unusable_no_backoff_witness :
  get_quote plain_lib (quoting_env (Ok (ok_response (JObj []))))
            SOL_MINT "MintAAAAAAAA" 500000000 100 2 start =
  (Ok None,
   World 2 false
     [EvQuoteRequest SOL_MINT "MintAAAAAAAA" 500000000 100;
      EvQuoteRequest SOL_MINT "MintAAAAAAAA" 500000000 100]).
Proof.
  apply (get_quote_unusable_no_backoff plain_lib
           (quoting_env (Ok (ok_response (JObj []))))
           SOL_MINT "MintAAAAAAAA" 500000000 100 2 start).
  intros j _. exists (ok_response (JObj [])), (JObj []).
  split; [reflexivity |].
  split; [split; [intro Hx; discriminate Hx | reflexivity] |].
  split; [reflexivity | left; reflexivity].
Defined.

(** * Channel policies *)

Lemma prefix_app p rest : prefix p (p ++ rest) = true.
Proof.
  induction p as [| c p IH]; simpl; [destruct rest; reflexivity |].
  destruct (ascii_dec c c) as [_ | Hc]; [exact IH | contradiction].
Qed.

Lemma contains_inside p before after :
  contains p (before ++ p ++ after) = true.
Proof.
  induction before as [| c before IH]; simpl.
  - pose proof (prefix_app p after) as Hp.
    destruct (p ++ after)%string; cbn [contains]; rewrite Hp; reflexivity.
  - rewrite IH. apply orb_true_r.
Qed.

Lemma lower_app a b : lower (a ++ b) = (lower a ++ lower b)%string.
Proof. induction a as [| c a IH]; simpl; [| rewrite IH]; reflexivity. Qed.

Lemma contains_lowered p before mid after :
  lower mid = p ->
  contains p (lower (before ++ mid ++ after)) = true.
Proof.
  intros <-. rewrite !lower_app. apply contains_inside.
Qed.

Lemma first_match_cases s :
  let c := first_match CHANNEL_CONFIGS s in
  c = alpha_config \/ c = chat_config \/ c = under_config
  \/ c = default_config.
Proof.
  simpl. destruct (contains "memecoin-alpha" s); [auto |].
  destruct (contains "memecoin-chat" s); [auto |].
  destruct (contains "under-100k" s); auto.
Qed.

(** X4. The channel policy is decided by which patterns the lower-cased
    name contains, in the order of the table: "memecoin-alpha" first,
    without it "memecoin-chat", without both "under-100k", and the default
    policy when it contains none of the three. For a name of ASCII
    characters, which [str.lower] lowers letter by letter, a pattern
    occurring in any casing, whatever else occurs in the name, counts. *)
Theorem channel_policy_resolution lib :
  (forall name,
     let lowered := str_lower lib name in
     (contains "memecoin-alpha" lowered = true ->
      get_channel_config lib (Some name) = Ok alpha_config) /\
     (contains "memecoin-alpha" lowered = false ->
      (contains "memecoin-chat" lowered = true ->
       get_channel_config lib (Some name) = Ok chat_config) /\
      (contains "memecoin-chat" lowered = false ->
       (contains "under-100k" lowered = true ->
        get_channel_config lib (Some name) = Ok under_config) /\
       (contains "under-100k" lowered = false ->
        get_channel_config lib (Some name) = Ok default_config)))) /\
  (lowers_ascii lib ->
   forall before mid after,
     let name := (before ++ mid ++ after)%string in
     ascii_text name = true ->
     (lower mid = "memecoin-alpha" ->
      get_channel_config lib (Some name) = Ok alpha_config) /\
     (contains "memecoin-alpha" (lower name) = false ->
      (lower mid = "memecoin-chat" ->
       get_channel_config lib (Some name) = Ok chat_config) /\
      (contains "memecoin-chat" (lower name) = false ->
       lower mid = "under-100k" ->
       get_channel_config lib (Some name) = Ok under_config))).
Proof.
  assert (Hfirst : forall name,
    let lowered := str_lower lib name in
    (contains "memecoin-alpha" lowered = true ->
     get_channel_config lib (Some name) = Ok alpha_config) /\
    (contains "memecoin-alpha" lowered = false ->
     (contains "memecoin-chat" lowered = true ->
      get_channel_config lib (Some name) = Ok chat_config) /\
     (contains "memecoin-chat" lowered = false ->
      (contains "under-100k" lowered = true ->
       get_channel_config lib (Some name) = Ok under_config) /\
      (contains "under-100k" lowered = false ->
       get_channel_config lib (Some name) = Ok default_config)))).
  { intros name lowered. unfold get_channel_config. fold lowered.
    simpl first_match.
    split; [intros ->; reflexivity |]. intros ->.
    split; [intros ->; reflexivity |]. intros ->.
    split; intros ->; reflexivity. }
  split; [exact Hfirst |].
  intros Hlib before mid after name Hascii.
  destruct (Hfirst name) as [Halpha Hrest]. cbv zeta in Halpha, Hrest.
  rewrite (Hlib name Hascii) in Halpha, Hrest.
  split.
  - intro Hm. apply Halpha, contains_lowered, Hm.
  - intro Ha. destruct (Hrest Ha) as [Hchat Hmore]. split.
    + intro Hm. apply Hchat, contains_lowered, Hm.
    + intros Hc Hm. destruct (Hmore Hc) as [Hunder _].
      apply Hunder, contains_lowered, Hm.
Qed.

Lemma channel_policy_resolution_witness :
  get_channel_config plain_lib (Some "VIP Memecoin-ALPHA (ex memecoin-chat)")
  = Ok alpha_config /\
  get_channel_config plain_lib (Some "Memecoin-Chat under-100k")
  = Ok chat_config /\
  get_channel_config plain_lib (Some "general") = Ok default_config.
Proof.
  destruct (channel_policy_resolution plain_lib) as [Hfirst Hcase].
  assert (Hlib : lowers_ascii plain_lib) by (intros s _; reflexivity).
  split; [| split].
  - destruct (Hcase Hlib "VIP " "Memecoin-ALPHA" " (ex memecoin-chat)")
      as [Halpha _]; [reflexivity |].
    apply Halpha. reflexivity.
  - destruct (Hcase Hlib "" "Memecoin-Chat" " under-100k") as [_ Hrest];
      [reflexivity |].
    destruct Hrest as [Hchat _]; [reflexivity |].
    apply Hchat. reflexivity.
  - destruct (Hfirst "general") as [_ Hrest].
    destruct Hrest as [_ Hrest]; [reflexivity |].
    destruct Hrest as [_ Hdefault]; [reflexivity |].
    apply Hdefault. reflexivity.
Defined.

Lemma sane_configs :
  sane_config alpha_config /\ sane_config chat_config /\
  sane_config under_config /\ sane_config default_config.
Proof. unfold sane_config. repeat split. Qed.

(** X5. For every channel name the lookup succeeds, and the policy it
    yields has a negative stop-loss, take-profit 1 above zero and below
    take-profit 2, a positive trailing distance and allocation, and
    auto-sell enabled. Only a channel name that is null makes it raise. *)
Theorem channel_policy_sane lib channel_name :
  (forall name, channel_name = Some name ->
     exists c, get_channel_config lib channel_name = Ok c /\ sane_config c) /\
  (channel_name = None ->
   exists e, get_channel_config lib channel_name = Raise e /\
             exn_class e = AttributeError).
Proof.
  split.
  - intros name ->. unfold get_channel_config. eexists. split; [reflexivity |].
    destruct sane_configs as (Ha & Hc & Hu & Hd).
    destruct (first_match_cases (str_lower lib name))
      as [-> | [-> | [-> | ->]]];
      assumption.
  - intros ->. eexists. split; reflexivity.
Qed.

Lemma channel_policy_sane_witness :
  exists c, get_channel_config plain_lib (Some "under-100K gems") = Ok c /\
            (stop_loss_pct c < 0)%Q.
Proof.
  destruct (channel_policy_sane plain_lib (Some "under-100K gems")) as [H _].
  destruct (H "under-100K gems" eq_refl) as (c & Hc & Hs & _).
  exists c. split; assumption.
Defined.

(** X6. With the policy of any channel, the effective trailing distance
    [trailing_stop_pct or config.trailing_stop_pct] is positive unless the
    position itself carries a negative [trailing_stop_pct]: a missing
    key gives 15, a null or zero value the channel's distance. *)
Theorem trailing_distance_positive lib pos name c :
  get_channel_config lib (Some name) = Ok c ->
  (forall t, pos_trailing_stop_pct pos = Present t -> (0 <= t)%Q) ->
  (0 < trailing_pct pos c)%Q /\
  (pos_trailing_stop_pct pos = Missing -> trailing_pct pos c = 15%Q) /\
  (pos_trailing_stop_pct pos = Null ->
   trailing_pct pos c = trailing_stop_pct c) /\
  (forall t, pos_trailing_stop_pct pos = Present t -> t == 0 ->
             trailing_pct pos c = trailing_stop_pct c).
Proof.
  intros Hc Hpos.
  assert (Ht : (0 < trailing_stop_pct c)%Q).
  { assert (c = first_match CHANNEL_CONFIGS (str_lower lib name)) as ->
      by (unfold get_channel_config in Hc; congruence).
    destruct sane_configs as (Ha & Hch & Hu & Hd).
    destruct (first_match_cases (str_lower lib name))
      as [-> | [-> | [-> | ->]]];
      [apply Ha | apply Hch | apply Hu | apply Hd]. }
  unfold trailing_pct.
  destruct (pos_trailing_stop_pct pos) as [| | t] eqn:Hf; simpl.
  - split; [reflexivity |]. split; [reflexivity |].
    split; [discriminate | intros t Ht0; discriminate Ht0].
  - split; [exact Ht |]. split; [discriminate |].
    split; [reflexivity | intros t Ht0; discriminate Ht0].
  - split; [| split; [discriminate | split; [discriminate |]]].
    + unfold Qnonzero. destruct (Qeq_bool t 0) eqn:Hz; simpl; [exact Ht |].
      apply Qeq_bool_neq in Hz. specialize (Hpos t eq_refl).
      apply Qle_lteq in Hpos. destruct Hpos as [Hlt | Heq];
        [exact Hlt | exfalso; apply Hz; symmetry; exact Heq].
    + intros t0 Ht0 H0. inversion Ht0; subst t0.
      unfold Qnonzero. apply Qeq_bool_iff in H0. rewrite H0. reflexivity.
Qed.

Lemma trailing_distance_positive_witness :
  (0 < trailing_pct peaked_position alpha_config)%Q.
Proof.
  destruct (trailing_distance_positive plain_lib peaked_position
              "memecoin-alpha" alpha_config) as [H _].
  - reflexivity.
  - intros t Ht. discriminate Ht.
  - exact H.
Defined.

(** * The chain client *)

Section Chain.

Variable E : env.

Lemma connect_endpoints_first : forall endpoints k w,
  (k < List.length endpoints)%nat ->
  (forall j, (j < k)%nat ->
             exists e, rpc_latest_blockhash E (clock w + j) = Raise e) ->
  rpc_latest_blockhash E (clock w + k) = Ok tt ->
  connect_endpoints E endpoints w =
  (Ok tt,
   World (clock w + k + 1) true
         (trace w ++ map EvConnectRpc (firstn (S k) endpoints))).
Proof.
  induction endpoints as [| ep rest IH]; intros k w Hk Hfail Hok;
    [simpl in Hk; lia |].
  destruct k as [| k].
  - rewrite Nat.add_0_r in Hok. simpl.
    unfold bind, set_rpc, call. simpl. rewrite Hok. unfold ret.
    f_equal. f_equal. lia.
  - destruct (Hfail 0%nat) as [e He]; [lia |]. rewrite Nat.add_0_r in He.
    cbn [connect_endpoints]. unfold bind at 1. unfold set_rpc.
    unfold bind at 1. unfold call. cbn [clock rpc trace]. rewrite He.
    rewrite (IH k); cbn [clock rpc trace].
    + f_equal. f_equal; [lia |].
      rewrite <- app_assoc. reflexivity.
    + simpl in Hk. lia.
    + intros j Hj. replace (S (clock w) + j)%nat with (clock w + S j)%nat
        by lia. apply Hfail. lia.
    + replace (S (clock w) + k)%nat with (clock w + S k)%nat by lia.
      exact Hok.
Qed.

Lemma connect_endpoints_none : forall endpoints w,
  (forall j, (j < List.length endpoints)%nat ->
             exists e, rpc_latest_blockhash E (clock w + j) = Raise e) ->
  connect_endpoints E endpoints w =
  (Raise no_endpoint,
   World (clock w + List.length endpoints)
         (match endpoints with [] => rpc w | _ => true end)
         (trace w ++ map EvConnectRpc endpoints)).
Proof.
  induction endpoints as [| ep rest IH]; intros w Hfail.
  - simpl. unfold throw. rewrite Nat.add_0_r, app_nil_r.
    destruct w; reflexivity.
  - destruct (Hfail 0%nat) as [e He]; [simpl; lia |].
    rewrite Nat.add_0_r in He.
    cbn [connect_endpoints]. unfold bind at 1. unfold set_rpc.
    unfold bind at 1. unfold call. cbn [clock rpc trace]. rewrite He.
    rewrite IH; cbn [clock rpc trace].
    + f_equal. f_equal; [simpl; lia | destruct rest; reflexivity |].
      rewrite <- app_assoc. reflexivity.
    + intros j Hj. replace (S (clock w) + j)%nat with (clock w + S j)%nat
        by lia. apply Hfail. simpl. lia.
Qed.

Lemma ensure_rpc_connected w :
  rpc w = true -> ensure_rpc E w = (Ok tt, w).
Proof.
  intro H. unfold ensure_rpc, bind, get_rpc. rewrite H. reflexivity.
Qed.

End Chain.

(** X7. [connect_rpc] tries the endpoints in the order of the list and
    stops at the first one that answers; when none of the three answers
    it raises [ConnectionError] after trying each once. Either way
    [self.rpc] is set when it ends, so that a later
    [if not self.rpc: connect_rpc()] does not connect again, not even
    after a failure. *)
Theorem connect_rpc_outcome E w :
  (forall k,
     (k < 3)%nat ->
     (forall j, (j < k)%nat ->
                exists e, rpc_latest_blockhash E (clock w + j) = Raise e) ->
     rpc_latest_blockhash E (clock w + k) = Ok tt ->
     connect_rpc E w =
     (Ok tt,
      World (clock w + k + 1) true
            (trace w ++ map EvConnectRpc (firstn (S k) RPC_ENDPOINTS)))) /\
  ((forall j, (j < 3)%nat ->
              exists e, rpc_latest_blockhash E (clock w + j) = Raise e) ->
   connect_rpc E w =
   (Raise no_endpoint,
    World (clock w + 3) true (trace w ++ map EvConnectRpc RPC_ENDPOINTS))) /\
  (let w' := snd (connect_rpc E w) in
   rpc w' = true /\ ensure_rpc E w' = (Ok tt, w')).
Proof.
  split; [| split].
  - intros k Hk Hfail Hok. unfold connect_rpc.
    apply connect_endpoints_first; assumption.
  - intro Hfail. unfold connect_rpc.
    rewrite connect_endpoints_none by exact Hfail. reflexivity.
  - assert (Hr : rpc (snd (connect_rpc E w)) = true).
    { unfold connect_rpc, RPC_ENDPOINTS. cbn [connect_endpoints].
      unfold bind, set_rpc, call, ret, throw. cbn [clock rpc trace].
      repeat match goal with
             | |- context [match ?x with Ok _ => _ | Raise _ => _ end] =>
                 destruct x
             end; reflexivity. }
    split; [exact Hr | apply ensure_rpc_connected, Hr].
Qed.

Lemma connect_rpc_outcome_witness :
  connect_rpc silent_env start =
  (Raise no_endpoint,
   World 3 true
     [EvConnectRpc "https://api.mainnet-beta.solana.com";
      EvConnectRpc "https://solana-mainnet.g.alchemy.com/v2/demo";
      EvConnectRpc "https://rpc.ankr.com/solana"]) /\
  connect_rpc poor_env start =
  (Ok tt, World 1 true [EvConnectRpc "https://api.mainnet-beta.solana.com"]).
Proof.
  destruct (connect_rpc_outcome silent_env start) as (_ & Hnone & _).
  destruct (connect_rpc_outcome poor_env start) as (Hfirst & _ & _).
  split.
  - apply Hnone. intros j _. eexists. reflexivity.
  - apply (Hfirst 0%nat).
    + apply Nat.lt_0_succ.
    + intros j Hj. exfalso. exact (Nat.nlt_0_r _ Hj).
    + reflexivity.
Defined.

(** X8. Once connected, [get_token_balance] never raises. For a mint
    address that is not a public key it yields [None] without any RPC
    read. Otherwise it makes one read and yields the amount of the first
    token account, 0 when the owner has no account of the mint, and
    [None] exactly when the read failed. Not yet connected and with no
    endpoint answering, it raises the [ConnectionError] of [connect_rpc]
    without reading. *)
Theorem get_token_balance_outcome E mint w :
  (rpc w = true ->
   (forall e, pubkey_from_string E mint = Raise e ->
              get_token_balance E mint w = (Ok None, w)) /\
   (pubkey_from_string E mint = Ok tt ->
    exists balance,
      get_token_balance E mint w =
      (Ok balance,
       World (S (clock w)) true (trace w ++ [EvGetTokenBalance mint])) /\
      (balance = None <->
       exists e, rpc_token_accounts E (clock w) = Raise e) /\
      (rpc_token_accounts E (clock w) = Ok None -> balance = Some 0) /\
      (forall n, rpc_token_accounts E (clock w) = Ok (Some n) ->
                 balance = Some n))) /\
  (rpc w = false ->
   (forall j, (j < 3)%nat ->
              exists e, rpc_latest_blockhash E (clock w + j) = Raise e) ->
   get_token_balance E mint w =
   (Raise no_endpoint,
    World (clock w + 3) true (trace w ++ map EvConnectRpc RPC_ENDPOINTS))).
Proof.
  split.
  - intro Hr. split.
    + intros e He. unfold get_token_balance. unfold bind at 1.
      rewrite (ensure_rpc_connected E w Hr).
      unfold try_except, bind, lift, ret. rewrite He. reflexivity.
    + intro Hkey. unfold get_token_balance. unfold bind at 1.
      rewrite (ensure_rpc_connected E w Hr).
      unfold try_except, bind, call, lift, ret. rewrite Hkey.
      cbv beta iota. cbn [clock rpc trace]. rewrite Hr.
      destruct (rpc_token_accounts E (clock w)) as [[n |] | e]; simpl.
      * eexists. split; [reflexivity |]. split; [| split].
        -- split; [discriminate | intros [e He]; discriminate He].
        -- discriminate.
        -- intros n0 Hn. inversion Hn. reflexivity.
      * eexists. split; [reflexivity |]. split; [| split].
        -- split; [discriminate | intros [e He]; discriminate He].
        -- reflexivity.
        -- discriminate.
      * eexists. split; [reflexivity |]. split; [| split].
        -- split; [eauto | reflexivity].
        -- discriminate.
        -- discriminate.
  - intros Hr Hfail. unfold get_token_balance. unfold bind at 1.
    unfold ensure_rpc. unfold bind at 1. unfold get_rpc. rewrite Hr.
    unfold connect_rpc. rewrite connect_endpoints_none by exact Hfail.
    reflexivity.
Qed.

Lemma get_token_balance_outcome_witness :
  get_token_balance poor_env USDC_MINT connected =
  (Ok (Some 7), World 1 true [EvGetTokenBalance USDC_MINT]) /\
  get_token_balance silent_env USDC_MINT connected =
  (Ok None, World 1 true [EvGetTokenBalance USDC_MINT]) /\
  get_token_balance poor_env "not-a-mint" connected = (Ok None, connected) /\
  fst (get_token_balance silent_env USDC_MINT start) = Raise no_endpoint.
Proof.
  destruct (get_token_balance_outcome poor_env USDC_MINT connected)
    as [Hheld _].
  destruct (get_token_balance_outcome silent_env USDC_MINT connected)
    as [Hfailed _].
  destruct (get_token_balance_outcome poor_env "not-a-mint" connected)
    as [Hbad _].
  destruct (get_token_balance_outcome silent_env USDC_MINT start)
    as [_ Hs].
  split; [| split; [| split]].
  - destruct (Hheld eq_refl) as [_ Hread].
    destruct Hread as (b & Hrun & _ & _ & Hsome);
      [vm_compute; reflexivity |].
    rewrite Hrun, (Hsome 7); reflexivity.
  - destruct (Hfailed eq_refl) as [_ Hread].
    destruct Hread as (b & Hrun & [_ Hnone] & _);
      [vm_compute; reflexivity |].
    rewrite Hrun. rewrite Hnone; [reflexivity |]. eexists. reflexivity.
  - destruct (Hbad eq_refl) as [Hkey _].
    apply (Hkey (Exn ValueError "Invalid Base58 string")).
    vm_compute. reflexivity.
  - rewrite Hs; [reflexivity | reflexivity |].
    intros j _. eexists. reflexivity.
Defined.

(** X9. [get_token_price_sol] never raises and makes exactly one request
    to the price index. It yields [None] when the request fails, the
    status is not 2xx, the body is not JSON or the index has no entry for
    the mint, and the number under [data[mint].price] when there is
    one. *)
Theorem get_token_price_sol_outcome lib E mint w :
  let reply := http_get_price E (clock w) in
  let w' := World (S (clock w)) (rpc w) (trace w ++ [EvPriceRequest mint]) in
  (exists price, get_token_price_sol lib E mint w = (Ok price, w')) /\
  ((exists e, reply = Raise e) \/
   (exists r, reply = Ok r /\
              (status_code r < 200 \/ 300 <= status_code r \/ body r = None))
   -> get_token_price_sol lib E mint w = (Ok None, w')) /\
  (forall r data prices,
     reply = Ok r -> 200 <= status_code r < 300 ->
     body r = Some (JObj data) ->
     assoc "data" data = Some (JObj prices) ->
     (assoc mint prices = None ->
      get_token_price_sol lib E mint w = (Ok None, w')) /\
     (forall entry q,
        assoc mint prices = Some (JObj entry) ->
        assoc "price" entry = Some (JNum q) ->
        get_token_price_sol lib E mint w = (Ok (Some q), w'))).
Proof.
  intros reply w'. subst reply w'.
  unfold get_token_price_sol, try_except, bind, call, lift, ret.
  split; [| split].
  - destruct (http_get_price E (clock w)) as [r | e];
      [| eexists; reflexivity].
    destruct (raise_for_status r) as [[] | e]; [| eexists; reflexivity].
    destruct (response_json r) as [data | e]; [| eexists; reflexivity].
    destruct (py_get data "data" (JObj [])) as [inner | e];
      [| eexists; reflexivity].
    destruct (py_get inner mint JNull) as [price_data | e];
      [| eexists; reflexivity].
    destruct (truthy price_data); [| eexists; reflexivity].
    destruct (py_get price_data "price" (JNum 0)) as [price | e];
      [| eexists; reflexivity].
    destruct (py_float lib price) as [p | e]; eexists; reflexivity.
  - intros [[e He] | (r & Hr & Hbad)].
    + rewrite He. reflexivity.
    + rewrite Hr. unfold raise_for_status, response_json.
      destruct Hbad as [Hlow | [Hhigh | Hbody]].
      * replace (200 <=? status_code r) with false
          by (symmetry; apply Z.leb_gt; lia). reflexivity.
      * replace (status_code r <? 300) with false
          by (symmetry; apply Z.ltb_ge; lia).
        rewrite andb_false_r. reflexivity.
      * rewrite Hbody. destruct (_ && _)%bool; reflexivity.
  - intros r data prices Hr Hs Hb Hd. rewrite Hr.
    destruct (good_status r Hs) as [_ Hok].
    rewrite Hok. unfold response_json. rewrite Hb.
    cbn [py_get]. rewrite Hd. cbn [py_get].
    split.
    + intro Hm. rewrite Hm. reflexivity.
    + intros entry q Hm Hp. rewrite Hm.
      assert (Ht : truthy (JObj entry) = true)
        by (destruct entry; [discriminate Hp | reflexivity]).
      rewrite Ht. cbn [py_get]. rewrite Hp. reflexivity.
Qed.

Lemma get_token_price_sol_outcome_witness :
  get_token_price_sol plain_lib (priced_env "MintAAAAAAAA" (3 # 2))
                      "MintAAAAAAAA" start =
  (Ok (Some (3 # 2)), World 1 false [EvPriceRequest "MintAAAAAAAA"]) /\
  get_token_price_sol plain_lib silent_env "MintAAAAAAAA" start =
  (Ok None, World 1 false [EvPriceRequest "MintAAAAAAAA"]).
Proof.
  destruct (get_token_price_sol_outcome plain_lib
              (priced_env "MintAAAAAAAA" (3 # 2)) "MintAAAAAAAA" start)
    as (_ & _ & Hfound).
  destruct (get_token_price_sol_outcome plain_lib silent_env
              "MintAAAAAAAA" start) as (_ & Hnone & _).
  split.
  - destruct (Hfound
                (Response 200
                   (Some (JObj [("data",
                            JObj [("MintAAAAAAAA",
                                   JObj [("price", JNum (3 # 2))])])]))
                   "")
                [("data", JObj [("MintAAAAAAAA",
                                 JObj [("price", JNum (3 # 2))])])]
                [("MintAAAAAAAA", JObj [("price", JNum (3 # 2))])])
      as [_ Hq];
      [reflexivity
      | split; [intro Hx; discriminate Hx | reflexivity]
      | reflexivity | reflexivity |].
    apply (Hq [("price", JNum (3 # 2))] (3 # 2)); reflexivity.
  - apply Hnone. left. eexists. reflexivity.
Defined.

(** * Further properties of the swap executor *)

Lemma adds_call_one {A} p e (answer : nat -> A) : adds p 1 (call e answer).
Proof.
  intro w. exists [e]. split; [reflexivity |].
  unfold count. simpl. destruct (p e); simpl; lia.
Qed.

Lemma execute_swap_sends lib E quote :
  adds is_send 1 (execute_swap lib E quote).
Proof.
  unfold execute_swap.
  apply (adds_try is_send _ _ 1 0); [| intro; quiet].
  unfold execute_swap_body.
  apply (adds_bind is_send _ _ 0 1);
    [apply ensure_rpc_quiet; reflexivity | intro].
  apply (adds_bind is_send _ _ 0 1); [quiet | intro r].
  apply (adds_bind is_send _ _ 0 1); [quiet | intro response].
  destruct (negb _); [apply adds_weaken with (n := 0%nat); [lia | quiet] |].
  apply (adds_bind is_send _ _ 0 1); [quiet | intro swap_result].
  apply (adds_bind is_send _ _ 0 1); [quiet | intro swap_tx].
  destruct (negb _); [apply adds_weaken with (n := 0%nat); [lia | quiet] |].
  apply (adds_bind is_send _ _ 0 1); [quiet | intro signed_txn].
  apply (adds_bind is_send _ _ 1 0); [apply adds_call_one | intro sent].
  apply adds_bind0; [quiet | intro tx_signature].
  unfold confirm_and_report. quiet.
Qed.

(** X10. No call of [execute_swap], [buy_token] or [sell_token] sends
    more than one transaction, whatever the outside answers. *)
Theorem never_sends_twice lib E quote contract_address amount_sol percentage
    slippage_bps :
  adds is_send 1 (execute_swap lib E quote) /\
  adds is_send 1 (buy_token lib E contract_address amount_sol slippage_bps) /\
  adds is_send 1 (sell_token lib E contract_address percentage slippage_bps).
Proof.
  assert (Q0 : forall A (m : M A), adds is_send 0 m -> adds is_send 1 m)
    by (intros A m; apply adds_weaken; lia).
  split; [apply execute_swap_sends | split].
  - unfold buy_token.
    apply (adds_bind is_send _ _ 0 1);
      [apply get_balance_quiet; reflexivity | intro balance].
    destruct (Qltb _ _); [apply Q0; quiet |].
    apply (adds_bind is_send _ _ 0 1);
      [apply get_quote_quiet; reflexivity | intros [q |]];
      [| apply Q0; quiet].
    destruct (truthy q); [| apply Q0; quiet].
    apply (adds_bind is_send _ _ 0 1); [quiet | intro].
    apply execute_swap_sends.
  - unfold sell_token.
    apply (adds_bind is_send _ _ 0 1);
      [apply ensure_rpc_quiet; reflexivity | intro].
    apply (adds_bind is_send _ _ 0 1);
      [apply get_token_balance_quiet; reflexivity | intros [t |]];
      [| apply Q0; quiet].
    destruct (t <=? 0); [apply Q0; quiet |].
    destruct (_ <=? 0); [apply Q0; quiet |].
    apply (adds_bind is_send _ _ 0 1);
      [apply get_quote_quiet; reflexivity | intros [q |]];
      [| apply Q0; quiet].
    destruct (truthy q); [| apply Q0; quiet].
    apply (adds_bind is_send _ _ 0 1); [quiet | intro].
    apply execute_swap_sends.
Qed.

Lemma characters_slice_to n s : (characters (slice_to n s) <= n)%nat.
Proof.
  revert n. induction s as [| c s IH]; intro n; simpl; [lia |].
  destruct (is_continuation c) eqn:Hc; simpl; [rewrite Hc; apply IH |].
  destruct n as [| n]; simpl; [lia |].
  rewrite Hc. specialize (IH n). lia.
Qed.

Lemma slice_to_prefix n s : prefix (slice_to n s) s = true.
Proof.
  revert n. induction s as [| c s IH]; intro n; simpl; [reflexivity |].
  destruct (is_continuation c); simpl.
  - destruct (ascii_dec c c) as [_ | Hc]; [apply IH | contradiction].
  - destruct n as [| n]; simpl; [reflexivity |].
    destruct (ascii_dec c c) as [_ | Hc]; [apply IH | contradiction].
Qed.

Lemma slice_to_short n s : (characters s <= n)%nat -> slice_to n s = s.
Proof.
  revert n. induction s as [| c s IH]; intro n; simpl; [reflexivity |].
  destruct (is_continuation c); simpl; intro H.
  - rewrite IH by exact H. reflexivity.
  - destruct n as [| n]; [lia |]. rewrite IH by lia. reflexivity.
Qed.

(** X11. When the aggregator does not hand out a transaction,
    [execute_swap] reports a failure and nothing is signed or sent: for a
    status other than 200 the error quotes the response text cut after
    its first 100 characters (the whole of a shorter text), and for a 200
    response without a truthy [swapTransaction] it is the fixed "No swap
    transaction" error. *)
Theorem swap_not_built lib E quote w w1 response :
  ensure_rpc E w = (Ok tt, w1) ->
  http_post_swap E (clock w1) = Ok response ->
  let w2 := World (S (clock w1)) (rpc w1) (trace w1 ++ [EvSwapRequest quote])
  in
  (status_code response <> 200 ->
   exists quoted,
     execute_swap lib E quote w =
     (Ok (failed ("Jupiter swap API error: " ++ quoted)), w2) /\
     quoted = slice_to 100 (text response) /\
     prefix quoted (text response) = true /\
     (characters quoted <= 100)%nat /\
     ((characters (text response) <= 100)%nat -> quoted = text response)) /\
  (forall l,
     status_code response = 200 -> body response = Some (JObj l) ->
     truthy (or_default (assoc "swapTransaction" l) JNull) = false ->
     execute_swap lib E quote w =
     (Ok (failed "No swap transaction returned from Jupiter"), w2)).
Proof.
  intros Hrpc Hpost w2. subst w2.
  split.
  - intro Hs. apply Z.eqb_neq in Hs.
    exists (slice_to 100 (text response)).
    split; [| split; [reflexivity | split; [apply slice_to_prefix |
              split; [apply characters_slice_to | apply slice_to_short]]]].
    unfold execute_swap, try_except, execute_swap_body.
    unfold bind at 1. rewrite Hrpc.
    unfold bind at 1. unfold call at 1. cbn [clock].
    unfold bind at 1. unfold lift at 1. rewrite Hpost.
    rewrite Hs. reflexivity.
  - intros l Hs Hb Ht.
    unfold execute_swap, try_except, execute_swap_body.
    unfold bind at 1. rewrite Hrpc.
    unfold bind at 1. unfold call at 1. cbn [clock].
    unfold bind at 1. unfold lift at 1. rewrite Hpost.
    rewrite Hs. cbn [Z.eqb Pos.eqb negb].
    unfold response_json. rewrite Hb.
    unfold bind at 1. unfold lift at 1.
    unfold bind at 1. unfold lift at 1. cbn [py_get].
    unfold or_default in Ht. rewrite Ht. reflexivity.
Qed.

Lemma swap_not_built_witness :
  execute_swap plain_lib refusing_env (JObj [("outAmount", JStr "1250000")])
               connected =
  (Ok (failed "Jupiter swap API error: Internal Server Error"),
   World 1 true [EvSwapRequest (JObj [("outAmount", JStr "1250000")])]).
Proof.
  destruct (swap_not_built plain_lib refusing_env
              (JObj [("outAmount", JStr "1250000")]) connected connected
              (Response 500 None "Internal Server Error")) as [H _];
    [reflexivity | reflexivity |].
  destruct H as (quoted & Hrun & -> & _); [discriminate |]. exact Hrun.
Defined.

(** X12. Only a timeout of the confirmation is forgiven. When the
    confirmation call raises anything else after the transaction was
    sent, [execute_swap] reports [success = false] with that error,
    although the transaction has been submitted. *)
Theorem confirmation_error_is_failure lib E quote w w1 response swap_result
    swap_tx signed_txn tx_signature e :
  ensure_rpc E w = (Ok tt, w1) ->
  http_post_swap E (clock w1) = Ok response ->
  status_code response = 200 ->
  body response = Some swap_result ->
  py_get swap_result "swapTransaction" JNull = Ok swap_tx ->
  truthy swap_tx = true ->
  sign_swap_transaction E swap_tx = Ok signed_txn ->
  rpc_send_raw_transaction E (S (clock w1)) = Ok tx_signature ->
  rpc_confirm_transaction E (S (S (clock w1))) = Raise e ->
  is_timeout e = false ->
  execute_swap lib E quote w =
  (Ok (failed (exn_text e)),
   World (S (S (S (clock w1)))) (rpc w1)
         (trace w1 ++ [EvSwapRequest quote; EvSendTransaction signed_txn;
                       EvConfirmTransaction tx_signature])).
Proof.
  intros Hrpc Hpost Hstatus Hbody Hget Htx Hsign Hsend Hconfirm Htime.
  unfold execute_swap, try_except, execute_swap_body.
  unfold bind at 1. rewrite Hrpc.
  unfold bind at 1. unfold call at 1. cbn [clock].
  unfold bind at 1. unfold lift at 1. rewrite Hpost.
  rewrite Hstatus. cbn [Z.eqb Pos.eqb negb].
  unfold response_json. rewrite Hbody.
  unfold bind at 1. unfold lift at 1.
  unfold bind at 1. unfold lift at 1. rewrite Hget, Htx. cbn [negb].
  unfold bind at 1. unfold lift at 1. rewrite Hsign.
  unfold bind at 1. unfold call at 1. cbn [clock].
  unfold bind at 1. unfold lift at 1. rewrite Hsend.
  unfold confirm_and_report, bind, try_except, call, lift, throw.
  cbn [clock rpc trace].
  rewrite Hconfirm, Htime. unfold ret.
  rewrite <- !app_assoc. reflexivity.
Qed.

Lemma confirmation_error_is_failure_witness :
  execute_swap plain_lib dropped_env (JObj [("outAmount", JStr "1250000")])
               connected =
  (Ok (failed "All connection attempts failed"),
   World 3 true
     [EvSwapRequest (JObj [("outAmount", JStr "1250000")]);
      EvSendTransaction "signed"; EvConfirmTransaction "5SigAAAA"]).
Proof.
  apply (confirmation_error_is_failure plain_lib dropped_env
           (JObj [("outAmount", JStr "1250000")]) connected connected
           (ok_response (JObj [("swapTransaction", JStr "AQID")]))
           (JObj [("swapTransaction", JStr "AQID")]) (JStr "AQID")
           "signed" "5SigAAAA"
           (Exn ConnectionError "All connection attempts failed"));
    reflexivity.
Defined.

(** A body that returns a success has gone all the way: connected,
    built, signed, sent and waited for the confirmation. *)
Lemma body_success lib E quote w r w' :
  execute_swap_body lib E quote w = (Ok r, w') ->
  success r = true ->
  exists w1 signed_txn tx_signature n,
    ensure_rpc E w = (Ok tt, w1) /\
    rpc_send_raw_transaction E (S (clock w1)) = Ok tx_signature /\
    out_amount lib quote = Ok n /\
    r = mkTradeResult true (Some tx_signature) None (Some n) (Some n) /\
    w' = World (S (S (S (clock w1)))) (rpc w1)
               (trace w1 ++ [EvSwapRequest quote;
                             EvSendTransaction signed_txn;
                             EvConfirmTransaction tx_signature]).
Proof.
  unfold execute_swap_body.
  unfold bind at 1.
  destruct (ensure_rpc E w) as [[[] | e1] w1] eqn:He; [| discriminate].
  unfold bind at 1. unfold call at 1. cbn [clock].
  unfold bind at 1. unfold lift at 1.
  destruct (http_post_swap E (clock w1)) as [response | e2];
    [| discriminate].
  destruct (negb (status_code response =? 200));
    [unfold ret; intros H Hs; inversion H; subst; discriminate Hs |].
  unfold bind at 1. unfold lift at 1.
  destruct (response_json response) as [swap_result | e3]; [| discriminate].
  unfold bind at 1. unfold lift at 1.
  destruct (py_get swap_result "swapTransaction" JNull) as [swap_tx | e4];
    [| discriminate].
  destruct (negb (truthy swap_tx));
    [unfold ret; intros H Hs; inversion H; subst; discriminate Hs |].
  unfold bind at 1. unfold lift at 1.
  destruct (sign_swap_transaction E swap_tx) as [signed_txn | e5];
    [| discriminate].
  unfold bind at 1. unfold call at 1. cbn [clock].
  unfold bind at 1. unfold lift at 1.
  destruct (rpc_send_raw_transaction E (S (clock w1)))
    as [tx_signature | e6] eqn:Hsend; [| discriminate].
  unfold confirm_and_report, try_except, bind, call, lift, throw, ret.
  cbn [clock rpc trace].
  destruct (out_amount lib quote) as [n | e7] eqn:Hout.
  - intros H _.
    exists w1, signed_txn, tx_signature, n.
    split; [reflexivity |]. split; [exact Hsend |].
    split; [first [exact Hout | reflexivity] |].
    destruct (rpc_confirm_transaction E (S (S (clock w1)))) as [[] | e8];
      [| destruct (is_timeout e8); [| discriminate H]];
      inversion H; subst; rewrite <- !app_assoc; split; reflexivity.
  - intros H _.
    destruct (rpc_confirm_transaction E (S (S (clock w1)))) as [[] | e8];
      [| destruct (is_timeout e8)]; discriminate H.
Qed.

(** X13. A result with [success = true] is never fabricated: its
    signature is the one that the send of the transaction returned, it
    has no error and the same amount as expected output and as tokens
    received; and in that call, once connected, exactly the swap request,
    one send and the wait for the confirmation of that signature took
    place. *)
Theorem success_means_sent lib E quote w r w' :
  execute_swap lib E quote w = (Ok r, w') ->
  success r = true ->
  exists w1 signed_txn tx_signature,
    ensure_rpc E w = (Ok tt, w1) /\
    rpc_send_raw_transaction E (S (clock w1)) = Ok tx_signature /\
    signature r = Some tx_signature /\ error r = None /\
    expected_output r = tokens_received r /\
    expected_output r <> None /\
    trace w' = (trace w1 ++ [EvSwapRequest quote;
                             EvSendTransaction signed_txn;
                             EvConfirmTransaction tx_signature])%list /\
    count is_send (added w w') = 1%nat.
Proof.
  unfold execute_swap, try_except.
  destruct (execute_swap_body lib E quote w) as [[r0 | e] w0] eqn:Hb.
  - intros H Hs. inversion H; subst r0 w0. clear H.
    destruct (body_success lib E quote w r w' Hb Hs)
      as (w1 & signed_txn & tx_signature & n & He & Hsend & _ & -> & ->).
    exists w1, signed_txn, tx_signature.
    destruct (ensure_rpc_quiet E is_send (fun _ => eq_refl) w)
      as (d & Hd & Hc).
    rewrite He in Hd. simpl in Hd.
    split; [exact He |]. split; [exact Hsend |].
    unfold added. cbn [trace]. rewrite Hd, <- app_assoc.
    rewrite skipn_app, skipn_all, Nat.sub_diag. cbn [skipn app].
    repeat split; try discriminate.
    rewrite count_app. unfold count at 2. simpl. lia.
  - unfold ret. intros H Hs. inversion H; subst. discriminate Hs.
Qed.

Lemma success_means_sent_witness :
  let run := execute_swap plain_lib unconfirmed_env
               (JObj [("outAmount", JStr "1250000")]) connected in
  rpc_send_raw_transaction unconfirmed_env 1 = Ok "5SigAAAA" /\
  exists r, fst run = Ok r /\ signature r = Some "5SigAAAA".
Proof.
  intro run.
  assert (Hrun : run = (Ok (mkTradeResult true (Some "5SigAAAA") None
                                          (Some 1250000) (Some 1250000)),
                        snd run)) by reflexivity.
  destruct (success_means_sent plain_lib unconfirmed_env
              (JObj [("outAmount", JStr "1250000")]) connected _ _ Hrun
              eq_refl)
    as (w1 & signed_txn & tx_signature & Hrpc & Hsend & Hsig & _).
  inversion Hrpc; subst w1. simpl in Hsig. inversion Hsig; subst tx_signature.
  split; [exact Hsend |].
  eexists. split; [rewrite Hrun; reflexivity | reflexivity].
Defined.

(** * Further properties of selling *)

Lemma execute_swap_quiet lib E quote p :
  (forall ep, p (EvConnectRpc ep) = false) ->
  p (EvSwapRequest quote) = false ->
  (forall t, p (EvSendTransaction t) = false) ->
  (forall s, p (EvConfirmTransaction s) = false) ->
  adds p 0 (execute_swap lib E quote).
Proof.
  intros Hc Hq Hs Hf. unfold execute_swap.
  apply adds_try0; [| intro; quiet]. unfold execute_swap_body.
  apply adds_bind0; [apply ensure_rpc_quiet, Hc | intro].
  apply adds_bind0; [apply adds_call, Hq | intro r].
  apply adds_bind0; [quiet | intro response].
  destruct (negb _); [quiet |].
  apply adds_bind0; [quiet | intro swap_result].
  apply adds_bind0; [quiet | intro swap_tx].
  destruct (negb _); [quiet |].
  apply adds_bind0; [quiet | intro signed_txn].
  apply adds_bind0; [apply adds_call, Hs | intro sent].
  apply adds_bind0; [quiet | intro tx_signature].
  unfold confirm_and_report.
  apply adds_bind0; [| intro; quiet].
  apply adds_try0; [| intro e; destruct (is_timeout e); quiet].
  apply adds_bind0; [apply adds_call, Hf | intro; quiet].
Qed.

(** X14. What [sell_token] asks a quote for: once the token balance [t]
    has been read, every quote request of the call is for
    [floor(t * percentage / 100)] units of the token against SOL at the
    given slippage, a positive amount; for a percentage from 0 to 100 that
    amount does not exceed the balance, and for 100 it is the balance. *)
Theorem sell_amount_requested lib E contract_address percentage slippage_bps
    w t w1 :
  (ensure_rpc E ;;; get_token_balance E contract_address) w
  = (Ok (Some t), w1) ->
  let sell_amount := t * percentage / 100 in
  (exists d,
     trace (snd (sell_token lib E contract_address percentage slippage_bps w))
     = (trace w1 ++ d)%list /\
     forall e, In e d -> is_quote_request e = true ->
       e = EvQuoteRequest contract_address SOL_MINT sell_amount slippage_bps
       /\ 0 < sell_amount) /\
  (0 <= t -> 0 <= percentage <= 100 -> sell_amount <= t) /\
  (percentage = 100 -> sell_amount = t).
Proof.
  intros Hb sell_amount. split; [| split].
  - unfold sell_token. unfold bind in Hb. unfold bind at 1. unfold bind at 1.
    destruct (ensure_rpc E w) as [[[] | e0] w0]; [| discriminate Hb].
    destruct (get_token_balance E contract_address w0) as [[b | e1] w2];
      [| discriminate Hb].
    inversion Hb; subst b w2. clear Hb.
    destruct (t <=? 0);
      [exists []; rewrite app_nil_r; split; [reflexivity | contradiction] |].
    fold sell_amount.
    destruct (sell_amount <=? 0) eqn:Hpos;
      [exists []; rewrite app_nil_r; split; [reflexivity | contradiction] |].
    apply Z.leb_gt in Hpos.
    unfold bind at 1. unfold get_quote.
    destruct (attempts_bounded lib E contract_address SOL_MINT sell_amount
                slippage_bps 3 (Z.to_nat 3) 0 w1)
      as (d & q & Hrun & _ & _ & Hall); [simpl; lia |].
    rewrite Hrun.
    assert (Hd : forall e, In e d -> is_quote_request e = true ->
              e = EvQuoteRequest contract_address SOL_MINT sell_amount
                                 slippage_bps /\ 0 < sell_amount).
    { intros e Hin Hq. rewrite Forall_forall in Hall.
      destruct (Hall e Hin) as [-> | ->]; [auto | discriminate Hq]. }
    destruct q as [q |]; [| exists d; auto].
    destruct (truthy q); [| exists d; auto].
    unfold bind at 1. unfold lift at 1.
    destruct (out_amount lib q) as [n | e2]; [| exists d; auto].
    destruct (execute_swap_quiet lib E q is_quote_request
                (fun _ => eq_refl) eq_refl (fun _ => eq_refl)
                (fun _ => eq_refl)
                (World (clock w1 + count is_quote_request d) (rpc w1)
                       (trace w1 ++ d))) as (d2 & Hd2 & Hc2).
    exists (d ++ d2)%list. rewrite Hd2. cbn [trace].
    split; [rewrite app_assoc; reflexivity |].
    intros e Hin Hq. apply in_app_or in Hin. destruct Hin as [Hin | Hin].
    + apply Hd; assumption.
    + assert (H0 : count is_quote_request d2 = 0%nat) by lia.
      rewrite (count_none _ _ _ H0 Hin) in Hq. discriminate Hq.
  - intros Ht Hp. unfold sell_amount.
    apply Z.div_le_upper_bound; [lia | nia].
  - intros ->. unfold sell_amount. apply Z.div_mul. discriminate.
Qed.

Lemma sell_amount_requested_witness :
  7 * 50 / 100 <= 7 /\
  exists d,
    trace (snd (sell_token plain_lib poor_env USDC_MINT 50 100 start))
    = ([EvConnectRpc "https://api.mainnet-beta.solana.com";
        EvGetTokenBalance USDC_MINT] ++ d)%list.
Proof.
  destruct (sell_amount_requested plain_lib poor_env USDC_MINT 50 100
              start 7
              (World 2 true
                 [EvConnectRpc "https://api.mainnet-beta.solana.com";
                  EvGetTokenBalance USDC_MINT]))
    as ((d & Hd & _) & Hle & _); [vm_compute; reflexivity |].
  split.
  - apply Hle; [discriminate | split; discriminate].
  - exists d. exact Hd.
Defined.

(** * Further properties of the position monitor *)

(** X15. A position is passed over without any effect, and without an
    error, when it has no contract address (missing, null or empty), no
    entry price (missing, null or zero), or when [auto_sell_enabled] is
    present and not true (false or null); a missing [auto_sell_enabled]
    counts as enabled. *)
Theorem monitor_skips lib E pos w :
  (pos_contract_address pos = None \/ pos_contract_address pos = Some ""
   \/ pos_entry_price pos = None
   \/ (exists entry, pos_entry_price pos = Some entry /\ entry == 0)
   \/ pos_auto_sell_enabled pos = Null
   \/ pos_auto_sell_enabled pos = Present false) ->
  monitor_position lib E pos w = (Ok tt, w).
Proof.
  unfold monitor_position.
  intros [H | [H | [H | [(entry & H & H0) | [H | H]]]]]; rewrite H.
  - reflexivity.
  - destruct (pos_entry_price pos); reflexivity.
  - destruct (pos_contract_address pos); reflexivity.
  - destruct (pos_contract_address pos) as [c |]; [| reflexivity].
    unfold Qnonzero. apply Qeq_bool_iff in H0. rewrite H0.
    rewrite orb_true_r. reflexivity.
  - destruct (pos_contract_address pos) as [c |]; [| reflexivity].
    destruct (pos_entry_price pos) as [entry |]; [| reflexivity].
    destruct (_ || _)%bool; reflexivity.
  - destruct (pos_contract_address pos) as [c |]; [| reflexivity].
    destruct (pos_entry_price pos) as [entry |]; [| reflexivity].
    destruct (_ || _)%bool; reflexivity.
Qed.

Lemma monitor_skips_witness :
  monitor_position plain_lib (priced_env "MintAAAAAAAA" 2)
    (mkPosition "trade-1" (Some "MintAAAAAAAA") (Some 1%Q) (Some "bought")
                (Present "memecoin-alpha") (Some 2%Q) Null (Present true)
                Missing None Missing Missing Missing) start
  = (Ok tt, start).
Proof.
  apply monitor_skips. right. right. right. right. left. reflexivity.
Defined.

Section MonitorRuns.

Variable lib : pylib.
Variable E : env.

Lemma blind_false p e :
  blind_to_monitor p ->
  match e with
  | EvConnectRpc _ | EvGetTokenBalance _ | EvQuoteRequest _ _ _ _
  | EvPriceRequest _ | EvSleep _ | EvUpdatePositionPrice _ _ _
  | EvTriggerAutoSell _ _ _ | EvGetOpenPositions | EvLogError _ => True
  | _ => False
  end ->
  p e = false.
Proof.
  intros Hp He. destruct (p e) eqn:Hpe; [| reflexivity].
  apply Hp in Hpe. destruct e; contradiction.
Qed.

Lemma monitor_position_blind p pos :
  blind_to_monitor p -> adds p 0 (monitor_position lib E pos).
Proof.
  intro Hp. unfold monitor_position.
  destruct (pos_contract_address pos) as [contract |]; [| quiet].
  destruct (pos_entry_price pos) as [entry |]; [| quiet].
  destruct (_ || _)%bool; [quiet |].
  destruct (negb _); [quiet |].
  apply adds_bind0; [quiet | intro config].
  apply adds_bind0;
    [apply get_token_price_sol_quiet, blind_false; simpl; auto
    | intro price].
  apply adds_bind0.
  - destruct price; [quiet |]. unfold fallback_price.
    apply adds_bind0;
      [apply get_token_balance_quiet; intros;
       apply blind_false; simpl; auto |].
    intros [token_balance |]; [| quiet].
    destruct (0 <? token_balance); [| quiet].
    apply adds_bind0;
      [apply get_quote_quiet; apply blind_false; simpl; auto | intro].
    quiet.
  - intros [current |]; [| quiet]. unfold evaluate.
    apply adds_bind0; [quiet | intro d].
    apply adds_bind0; [quiet | intro now].
    apply adds_bind0; [apply adds_tell, blind_false; simpl; auto |].
    intros _. destruct (acted _); [| quiet].
    apply adds_tell, blind_false; simpl; auto.
Qed.

Lemma for_each_blind p positions :
  blind_to_monitor p -> adds p 0 (for_each lib E positions).
Proof.
  intro Hp. induction positions as [| pos rest IH]; simpl; [quiet |].
  apply adds_bind0; [apply monitor_position_blind, Hp | intro; exact IH].
Qed.

Lemma monitor_cycle_blind p api :
  blind_to_monitor p -> adds p 0 (monitor_cycle lib E api).
Proof.
  intro Hp. unfold monitor_cycle.
  apply adds_try0.
  - apply adds_bind0;
      [apply adds_call, blind_false; simpl; auto | intro positions].
    apply adds_bind0; [apply for_each_blind, Hp | intro].
    apply adds_emit, blind_false; simpl; auto.
  - intro e. apply adds_bind0;
      [apply adds_emit, blind_false; simpl; auto | intro].
    apply adds_emit, blind_false; simpl; auto.
Qed.

End MonitorRuns.

(** X16. The monitor only asks for sells. A whole cycle, whatever the
    positions and whatever the outside answers, builds no swap, sends and
    confirms no transaction and does not read the SOL balance. *)
Theorem monitor_never_executes lib E api w :
  exists d,
    trace (snd (monitor_cycle lib E api w)) = (trace w ++ d)%list /\
    forall e, In e d -> is_execution e = false.
Proof.
  destruct (monitor_cycle_blind lib E is_execution api) with (w := w)
    as (d & Hd & Hc).
  - intros e He. destruct e; try discriminate He; exact I.
  - exists d. split; [exact Hd |].
    intros e Hin. apply (count_none is_execution d e); [lia | exact Hin].
Qed.

Section PositionSteps.

Variable lib : pylib.
Variable E : env.

Local Abbreviation other := (fun e => negb (is_position_step e)).

Lemma monitor_position_steps pos : adds other 0 (monitor_position lib E pos).
Proof.
  unfold monitor_position.
  destruct (pos_contract_address pos) as [contract |]; [| quiet].
  destruct (pos_entry_price pos) as [entry |]; [| quiet].
  destruct (_ || _)%bool; [quiet |].
  destruct (negb _); [quiet |].
  apply adds_bind0; [quiet | intro config].
  apply adds_bind0;
    [apply get_token_price_sol_quiet; reflexivity | intro price].
  apply adds_bind0.
  - destruct price; [quiet |]. unfold fallback_price.
    apply adds_bind0;
      [apply get_token_balance_quiet; intros; reflexivity |].
    intros [token_balance |]; [| quiet].
    destruct (0 <? token_balance); [| quiet].
    apply adds_bind0; [apply get_quote_quiet; reflexivity | intro].
    quiet.
  - intros [current |]; [| quiet]. unfold evaluate.
    apply adds_bind0; [quiet | intro d].
    apply adds_bind0; [quiet | intro now].
    apply adds_bind0; [apply adds_tell; reflexivity |].
    intros _. destruct (acted _); [| quiet].
    apply adds_tell; reflexivity.
Qed.

Lemma for_each_steps positions : adds other 0 (for_each lib E positions).
Proof.
  induction positions as [| pos rest IH]; simpl; [quiet |].
  apply adds_bind0; [apply monitor_position_steps | intro; exact IH].
Qed.

End PositionSteps.

Lemma count_none_all (p : event -> bool) d :
  (count (fun e => negb (p e)) d <= 0)%nat -> Forall (fun e => p e = true) d.
Proof.
  intro H. apply Forall_forall. intros e Hin.
  assert (H0 : count (fun e => negb (p e)) d = 0%nat) by lia.
  pose proof (count_none _ d e H0 Hin) as Hp.
  apply negb_false_iff in Hp. exact Hp.
Qed.

(** X17. A cycle of the monitor never raises. It asks for the open
    positions once, first, and evaluates the positions of the answer, in
    their order, from there; what the evaluations do is to connect, read
    a balance, ask for a price or a quote, pause a second between two
    quote attempts, and report to the backend: none of them asks for the
    positions again or logs an error. The cycle ends with the sleep of
    5 seconds, or, when the evaluation of a position raised, with the
    log of that error and a sleep of 30 seconds. *)
Theorem monitor_cycle_ends lib E api w :
  let asked :=
    World (S (clock w)) (rpc w) (trace w ++ [EvGetOpenPositions]) in
  let evaluated := for_each lib E (api (clock w)) asked in
  let w1 := snd evaluated in
  exists d,
    trace w1 = (trace w ++ EvGetOpenPositions :: d)%list /\
    Forall (fun e => is_position_step e = true) d /\
    monitor_cycle lib E api w =
    (Ok tt,
     World (clock w1) (rpc w1)
       (trace w1 ++ match fst evaluated with
                    | Ok _ => [EvSleep 5]
                    | Raise e => [EvLogError e; EvSleep 30]
                    end)).
Proof.
  intros asked evaluated w1.
  destruct (for_each_steps lib E (api (clock w)) asked) as (d & Hd & Hc).
  exists d. fold evaluated in Hd. fold w1 in Hd.
  split; [rewrite Hd; unfold asked; cbn [trace];
          rewrite <- app_assoc; reflexivity |].
  split; [apply count_none_all, Hc |].
  unfold monitor_cycle, try_except.
  unfold bind at 1. unfold call. cbv beta iota.
  fold asked. unfold bind at 1. fold evaluated. subst w1.
  destruct evaluated as [[[] | e] w2]; cbn [fst snd].
  - reflexivity.
  - unfold bind, emit, sleep, emit. cbn [clock rpc trace].
    rewrite <- app_assoc. reflexivity.
Qed.

Lemma monitor_cycle_ends_witness :
  monitor_cycle plain_lib (priced_env USDC_MINT 3)
                (fun _ => [guarded_position]) start =
  (Ok tt,
   World 4 false
     [EvGetOpenPositions; EvPriceRequest USDC_MINT;
      EvUpdatePositionPrice "trade-7" 3 (Some 4%Q);
      EvTriggerAutoSell "trade-7" 100
        (Some "Trailing stop: dropped 25.0% from high");
      EvSleep 5]).
Proof.
  destruct (monitor_cycle_ends plain_lib (priced_env USDC_MINT 3)
              (fun _ => [guarded_position]) start) as (d & _ & _ & Hrun).
  rewrite Hrun. vm_compute. reflexivity.
Defined.

Lemma monitor_never_executes_witness :
  is_execution (EvPriceRequest "MintAAAAAAAA") = false.
Proof.
  destruct (monitor_never_executes plain_lib (priced_env "MintAAAAAAAA" 2)
              (fun _ => [sound_position]) start) as (d & Hd & Hall).
  apply Hall. change (trace start ++ d)%list with d in Hd.
  rewrite <- Hd. vm_compute. right. left. reflexivity.
Defined.

(** What the five checks can decide: a sell of 50% exactly for
    take-profit 1, of 100% otherwise, always with a reason. *)
Lemma final_decision lib E pos config pnl current highest now d :
  price_triggers lib pos config pnl current highest = Ok d ->
  let d' := time_trigger E pos now d in
  acted d' = true ->
  (exists why, reason d' = Some why) /\
  (sell_percentage d' = 50 \/ sell_percentage d' = 100) /\
  (sell_percentage d' = 50 <-> action_needed d' = Some take_profit_1).
Proof.
  intro Hd.
  assert (Hcases :
    d = no_action \/
    (exists why, d = fired take_profit_1 50 why) \/
    (exists a why, d = fired a 100 why /\ a <> take_profit_1)).
  { revert Hd. unfold price_triggers, le_or_raise, ge_or_raise.
    repeat match goal with
           | |- context [match ?x with _ => _ end] => destruct x
           | |- context [if ?b then _ else _] => destruct b
           end;
      intro H; inversion H; subst; clear H;
      first [ left; reflexivity
            | right; left; eexists; reflexivity
            | right; right; do 2 eexists;
              (split; [reflexivity | discriminate]) ]. }
  assert (Hfired : forall a pct why,
    (pct = 50 <-> a = take_profit_1) -> (pct = 50 \/ pct = 100) ->
    let f := fired a pct why in
    (exists why, reason f = Some why) /\
    (sell_percentage f = 50 \/ sell_percentage f = 100) /\
    (sell_percentage f = 50 <-> action_needed f = Some take_profit_1)).
  { intros a pct why Hiff Hor. simpl. split; [eauto |]. split; [exact Hor |].
    rewrite Hiff. split; [intros ->; reflexivity | intro H; inversion H; auto]. }
  destruct Hcases as [-> | [(why & ->) | (a & why & -> & Ha)]].
  - unfold time_trigger. simpl.
    destruct (nonempty _); [| discriminate].
    destruct (pos_time_based_sell_at pos) as [stamp |]; [| discriminate].
    destruct (fromisoformat E _) as [| | t]; try discriminate.
    destruct (t <=? now); [| discriminate].
    intros _. apply Hfired; [| auto].
    split; [discriminate | discriminate].
  - intros d' _. subst d'. rewrite time_trigger_kept by reflexivity.
    apply Hfired; [| auto]. split; reflexivity.
  - intros d' _. subst d'. rewrite time_trigger_kept by reflexivity.
    apply Hfired; [| auto]. split; [discriminate | intro; contradiction].
Qed.

(** X18. The shape of what the monitor does for one position: first the
    acquisition of the price, which reports nothing to the backend; then
    nothing more, or the price update with the new highest price, or that
    update followed by a single auto-sell request for the same trade,
    with a reason and a percentage of 50 or 100. A sell is never requested
    without the price update before it. *)
Theorem monitor_position_shape lib E pos w :
  exists before tail,
    trace (snd (monitor_position lib E pos w))
    = (trace w ++ before ++ tail)%list /\
    count is_backend before = 0%nat /\
    closing_reports pos tail.
Proof.
  assert (Hnone : forall (w1 : world) before,
    trace w1 = (trace w ++ before)%list -> count is_backend before = 0%nat ->
    exists before tail,
      trace w1 = (trace w ++ before ++ tail)%list /\
      count is_backend before = 0%nat /\ closing_reports pos tail).
  { intros w1 before Ht Hc. exists before, []. rewrite app_nil_r.
    split; [exact Ht |]. split; [exact Hc | left; reflexivity]. }
  assert (Hw : trace w = (trace w ++ [])%list)
    by (rewrite app_nil_r; reflexivity).
  unfold monitor_position.
  destruct (pos_contract_address pos) as [contract |];
    [| apply (Hnone w []); auto].
  destruct (pos_entry_price pos) as [entry |];
    [| apply (Hnone w []); auto].
  destruct (_ || _)%bool; [apply (Hnone w []); auto |].
  destruct (negb _); [apply (Hnone w []); auto |].
  unfold bind at 1. unfold lift at 1.
  destruct (get_channel_config _) as [config | e0];
    [| apply (Hnone w []); auto].
  unfold bind at 1.
  destruct (get_token_price_sol_quiet lib E is_backend contract eq_refl w)
    as (d1 & Hd1 & Hc1).
  destruct (get_token_price_sol lib E contract w) as [[price | e1] w1];
    cbn [snd] in Hd1; [| apply (Hnone w1 d1); [exact Hd1 | lia]].
  unfold bind at 1.
  assert (Hprice : exists d2,
    trace (snd (match price with
                | Some p => ret (Some p)
                | None => fallback_price lib E contract
                end w1)) = (trace w ++ d2)%list /\
    count is_backend d2 = 0%nat).
  { destruct price as [p |].
    - exists d1. split; [exact Hd1 | lia].
    - destruct (fallback_price_quiet lib E is_backend contract) with (w := w1)
        as (d2 & Hd2 & Hc2).
      + intros e He. destruct e; try discriminate He; exact I.
      + exists (d1 ++ d2)%list. rewrite Hd2, Hd1, app_assoc, count_app.
        split; [reflexivity | lia]. }
  destruct Hprice as (d2 & Hd2 & Hc2).
  destruct (match price with
            | Some p => ret (Some p)
            | None => fallback_price lib E contract
            end w1) as [[current | e2] w2]; cbn [snd] in Hd2;
    [| apply (Hnone w2 d2); assumption].
  destruct current as [current |]; [| apply (Hnone w2 d2); assumption].
  destruct (price_triggers lib pos config (pnl_pct current entry) current
              (new_highest (pos_highest_price pos) current)) as [d | e3]
    eqn:Htrig.
  - destruct (evaluate_run lib E pos contract entry current config d w2 Htrig)
      as [_ Hrun].
    exists d2. eexists. rewrite Hrun, Hd2, <- app_assoc.
    split; [reflexivity |]. split; [exact Hc2 |].
    right. exists current. unfold requests.
    destruct (acted (time_trigger E pos (now_utc E (clock w2)) d)) eqn:Hact;
      [| left; reflexivity].
    right.
    destruct (final_decision lib E pos config _ _ _ (now_utc E (clock w2)) d
                Htrig Hact) as ((why & Hwhy) & Hpct & _).
    rewrite Hwhy. eexists. eexists. split; [reflexivity | exact Hpct].
  - rewrite (evaluate_raise lib E pos contract entry current config e3 w2 Htrig).
    apply (Hnone w2 d2); assumption.
Qed.

(** X19. Whatever the five checks decide comes with a reason, and the
    percentage to sell is 50 exactly when the action is take-profit 1 and
    100 for stop-loss, trailing stop, take-profit 2 and the time-based
    exit. *)
Theorem half_sell_only_for_take_profit_1 lib E pos config pnl current highest
    now d :
  price_triggers lib pos config pnl current highest = Ok d ->
  acted (time_trigger E pos now d) = true ->
  (exists why, reason (time_trigger E pos now d) = Some why) /\
  (sell_percentage (time_trigger E pos now d) = 50 <->
   action_needed (time_trigger E pos now d) = Some take_profit_1) /\
  (sell_percentage (time_trigger E pos now d) = 100 <->
   action_needed (time_trigger E pos now d) <> Some take_profit_1).
Proof.
  intros Hd Hact.
  destruct (final_decision lib E pos config pnl current highest now d Hd Hact)
    as (Hwhy & Hpct & Hiff).
  split; [exact Hwhy |]. split; [exact Hiff |].
  split.
  - intros H100 Htp. apply Hiff in Htp. rewrite H100 in Htp. discriminate Htp.
  - intro Hne. destruct Hpct as [H50 | H100]; [| exact H100].
    exfalso. apply Hne, Hiff, H50.
Qed.

Lemma half_sell_only_for_take_profit_1_witness :
  sell_percentage
    (time_trigger late_env timed_position 1704067260 no_action) = 100.
Proof.
  destruct (half_sell_only_for_take_profit_1 plain_lib late_env
              timed_position chat_config (20%Q) (6 # 5) (6 # 5) 1704067260
              no_action) as (_ & _ & H100); [reflexivity | reflexivity |].
  apply H100. discriminate.
Defined.

(** * Binary64 arithmetic *)

(** ** Rounding to the nearest integer *)

Lemma round_half_even_bounds n d :
  0 < d -> n / d <= round_half_even n d <= n / d + 1.
Proof.
  intro Hd. unfold round_half_even.
  destruct (2 * (n mod d) ?= d); [destruct (Z.even (n / d)) | |]; lia.
Qed.

Lemma round_half_even_mono a1 b1 a2 b2 :
  0 < b1 -> 0 < b2 -> a1 * b2 <= a2 * b1 ->
  round_half_even a1 b1 <= round_half_even a2 b2.
Proof.
  intros H1 H2 Hle.
  pose proof (Z.div_mod a1 b1 ltac:(lia)) as E1.
  pose proof (Z.div_mod a2 b2 ltac:(lia)) as E2.
  pose proof (Z.mod_pos_bound a1 b1 H1) as R1.
  pose proof (Z.mod_pos_bound a2 b2 H2) as R2.
  unfold round_half_even.
  set (q1 := a1 / b1) in *. set (r1 := a1 mod b1) in *.
  set (q2 := a2 / b2) in *. set (r2 := a2 mod b2) in *.
  assert (Hb : 0 < b1 * b2) by nia.
  assert (Hq : q1 <= q2).
  { destruct (Z_le_gt_dec q1 q2) as [Hok | Hgt]; [exact Hok | exfalso].
    assert (H3 : b1 * b2 * (q2 + 1) <= b1 * b2 * q1)
      by (apply Z.mul_le_mono_nonneg_l; lia).
    assert (H4 : r2 * b1 < b1 * b2) by nia.
    assert (H5 : 0 <= r1 * b2) by nia.
    nia. }
  destruct (Z.eq_dec q1 q2) as [Heq | Hne].
  - rewrite <- Heq.
    assert (Hr : r1 * b2 <= r2 * b1) by (subst q2; nia).
    destruct (Z.compare_spec (2 * r1) b1) as [C1 | C1 | C1];
      destruct (Z.compare_spec (2 * r2) b2) as [C2 | C2 | C2];
      try destruct (Z.even q1); try lia; nia.
  - destruct (2 * r1 ?= b1); destruct (2 * r2 ?= b2);
      try destruct (Z.even q1); try destruct (Z.even q2); lia.
Qed.

Lemma round_half_even_scale a b c :
  0 < b -> 0 < c -> round_half_even (a * c) (b * c) = round_half_even a b.
Proof.
  intros Hb Hc. unfold round_half_even.
  rewrite Z.div_mul_cancel_r by lia.
  rewrite Z.mul_mod_distr_r by lia.
  assert (Hcmp : (2 * (a mod b * c) ?= b * c) = (2 * (a mod b) ?= b)).
  { destruct (Z.compare_spec (2 * (a mod b)) b) as [C | C | C].
    - apply Z.compare_eq_iff. nia.
    - apply Z.compare_lt_iff. nia.
    - apply Z.compare_gt_iff. nia. }
  rewrite Hcmp. reflexivity.
Qed.

(** ** Rounding to binary64 *)

Lemma exponent_nonneg n d : 0 <= exponent_of n d.
Proof. unfold exponent_of. lia. Qed.

Lemma shiftl_nat_pow k : Zpos (Pos.shiftl_nat 1 k) = 2 ^ Z.of_nat k.
Proof.
  induction k as [| k IH].
  - reflexivity.
  - rewrite Nat2Z.inj_succ, Z.pow_succ_r by lia.
    change (Pos.shiftl_nat 1 (S k)) with (xO (Pos.shiftl_nat 1 k)).
    change (Z.pos (Pos.shiftl_nat 1 k)~0)
      with (2 * Z.pos (Pos.shiftl_nat 1 k)).
    rewrite IH. reflexivity.
Qed.

Lemma strip_value v k : strip v k == Zpos v # Pos.shiftl_nat 1 k.
Proof.
  revert v. induction k as [| k IH]; intro v; [destruct v; reflexivity |].
  destruct v as [v | v |]; try reflexivity.
  cbn [strip]. rewrite IH. unfold Qeq. cbn [Qnum Qden].
  rewrite !shiftl_nat_pow, Nat2Z.inj_succ, Z.pow_succ_r by lia.
  change (Z.pos v~0) with (2 * Z.pos v). ring.
Qed.

Lemma over_value m k : 0 <= m -> over m k == m # Pos.shiftl_nat 1 k.
Proof.
  intro Hm. destruct m as [| v | v]; [reflexivity | apply strip_value | lia].
Qed.

Lemma fl_pos_units n d :
  0 < n -> 0 < d -> fl_pos n d == fl_units n d # Z.to_pos grid.
Proof.
  intros Hn Hd. unfold fl_pos, fl_units.
  rewrite (Z.shiftl_mul_pow2 n 1074) by lia. fold grid.
  fold (exponent_of n d). set (k := exponent_of n d).
  pose proof (exponent_nonneg n d) as Hk. fold k in Hk.
  assert (Hgrid : 0 < grid) by (unfold grid; apply Z.pow_pos_nonneg; lia).
  assert (Hpk : 0 < 2 ^ k) by (apply Z.pow_pos_nonneg; lia).
  destruct (k <=? 1074) eqn:Hcase.
  - apply Z.leb_le in Hcase.
    assert (Hsplit : grid = 2 ^ (1074 - k) * 2 ^ k).
    { unfold grid. rewrite <- Z.pow_add_r by lia. f_equal. lia. }
    rewrite Z.shiftl_mul_pow2 by lia.
    assert (Hm : round_half_even (n * grid) (d * 2 ^ k)
                 = round_half_even (n * 2 ^ (1074 - k)) d).
    { rewrite Hsplit, Z.mul_assoc. apply round_half_even_scale; lia. }
    rewrite Hm. set (m := round_half_even (n * 2 ^ (1074 - k)) d).
    assert (Hm0 : 0 <= m).
    { pose proof (round_half_even_bounds (n * 2 ^ (1074 - k)) d Hd) as Hb.
      fold m in Hb.
      assert (0 <= n * 2 ^ (1074 - k) / d)
        by (apply Z.div_pos; [apply Z.mul_nonneg_nonneg; [lia |] | lia];
            apply Z.pow_nonneg; lia).
      lia. }
    rewrite (over_value m _ Hm0). unfold Qeq. cbn [Qnum Qden].
    rewrite shiftl_nat_pow, Z2Nat.id by lia.
    rewrite Z2Pos.id by exact Hgrid. rewrite Hsplit. ring.
  - apply Z.leb_gt in Hcase.
    assert (Hsplit : 2 ^ k = 2 ^ (k - 1074) * grid).
    { unfold grid. rewrite <- Z.pow_add_r by lia. f_equal. lia. }
    rewrite !Z.shiftl_mul_pow2 by lia.
    assert (Hm : round_half_even (n * grid) (d * 2 ^ k)
                 = round_half_even n (d * 2 ^ (k - 1074))).
    { rewrite Hsplit, Z.mul_assoc. apply round_half_even_scale; [| lia].
      apply Z.mul_pos_pos; [lia | apply Z.pow_pos_nonneg; lia]. }
    rewrite Hm. unfold Qeq, inject_Z. cbn [Qnum Qden].
    rewrite Z2Pos.id by exact Hgrid. rewrite Hsplit. ring.
Qed.

Lemma grid_pos : 0 < grid.
Proof. unfold grid. apply Z.pow_pos_nonneg; lia. Qed.

Lemma fl_units_nonneg n d : 0 < n -> 0 < d -> 0 <= fl_units n d.
Proof.
  intros Hn Hd. unfold fl_units.
  pose proof (exponent_nonneg n d) as Hk.
  pose proof grid_pos as Hg.
  set (k := exponent_of n d) in *.
  assert (Hp : 0 < 2 ^ k) by (apply Z.pow_pos_nonneg; lia).
  assert (Hb : 0 < d * 2 ^ k) by (apply Z.mul_pos_pos; lia).
  pose proof (round_half_even_bounds (n * grid) (d * 2 ^ k) Hb) as Hr.
  assert (0 <= n * grid / (d * 2 ^ k))
    by (apply Z.div_pos; [apply Z.mul_nonneg_nonneg; lia | lia]).
  apply Z.mul_nonneg_nonneg; lia.
Qed.

(** Below the exponent's range from above, at least the range from
    below: the rounded significand has 53 bits. *)
Lemma significand_below n d :
  0 < n -> 0 < d ->
  round_half_even (n * grid) (d * 2 ^ exponent_of n d) <= 2 ^ 53.
Proof.
  intros Hn Hd.
  pose proof (exponent_nonneg n d) as Hk.
  pose proof grid_pos as Hg.
  assert (Hlog : Z.log2 (n * grid / d) - 52 <= exponent_of n d)
    by (unfold exponent_of; lia).
  set (k := exponent_of n d) in *.
  set (F := n * grid / d) in *.
  assert (HF0 : 0 <= F)
    by (apply Z.div_pos; [apply Z.mul_nonneg_nonneg; lia | lia]).
  assert (HF : F < 2 ^ (k + 53)).
  { destruct (Z.eq_dec F 0) as [-> | Hne].
    - apply Z.pow_pos_nonneg; lia.
    - pose proof (Z.log2_spec F ltac:(lia)) as [_ Hup].
      eapply Z.lt_le_trans; [exact Hup |].
      apply Z.pow_le_mono_r; lia. }
  assert (Hp : 0 < 2 ^ k) by (apply Z.pow_pos_nonneg; lia).
  assert (Hb : 0 < d * 2 ^ k) by (apply Z.mul_pos_pos; lia).
  pose proof (round_half_even_bounds (n * grid) (d * 2 ^ k) Hb) as [_ Hr].
  assert (Hlt : n * grid / (d * 2 ^ k) < 2 ^ 53).
  { apply Z.div_lt_upper_bound; [exact Hb |].
    assert (Hn1 : n * grid < d * (F + 1)).
    { pose proof (Z.div_mod (n * grid) d ltac:(lia)) as E.
      pose proof (Z.mod_pos_bound (n * grid) d Hd) as R. fold F in E. nia. }
    assert (Hsum : 2 ^ (k + 53) = 2 ^ k * 2 ^ 53)
      by (apply Z.pow_add_r; lia).
    assert (F + 1 <= 2 ^ k * 2 ^ 53) by lia.
    assert (d * (F + 1) <= d * (2 ^ k * 2 ^ 53))
      by (apply Z.mul_le_mono_nonneg_l; lia).
    lia. }
  lia.
Qed.

Lemma significand_above n d :
  0 < n -> 0 < d -> 0 < exponent_of n d ->
  2 ^ 52 <= round_half_even (n * grid) (d * 2 ^ exponent_of n d).
Proof.
  intros Hn Hd Hk.
  pose proof grid_pos as Hg.
  assert (Hlog : exponent_of n d = Z.log2 (n * grid / d) - 52)
    by (unfold exponent_of in *; lia).
  set (k := exponent_of n d) in *.
  set (F := n * grid / d) in *.
  assert (HFpos : 0 < F).
  { destruct (Z_lt_le_dec 0 F) as [H | H]; [exact H |].
    rewrite (Z.log2_nonpos F H) in Hlog. lia. }
  pose proof (Z.log2_spec F HFpos) as [Hlow _].
  replace (Z.log2 F) with (k + 52) in Hlow by lia.
  rewrite Z.pow_add_r in Hlow by lia.
  assert (Hp : 0 < 2 ^ k) by (apply Z.pow_pos_nonneg; lia).
  assert (Hb : 0 < d * 2 ^ k) by (apply Z.mul_pos_pos; lia).
  pose proof (round_half_even_bounds (n * grid) (d * 2 ^ k) Hb) as [Hr _].
  assert (Hge : 2 ^ 52 <= n * grid / (d * 2 ^ k)).
  { apply Z.div_le_lower_bound; [exact Hb |].
    assert (Hn1 : d * F <= n * grid).
    { pose proof (Z.div_mod (n * grid) d ltac:(lia)) as E.
      pose proof (Z.mod_pos_bound (n * grid) d Hd) as R. fold F in E. nia. }
    assert (d * (2 ^ k * 2 ^ 52) <= d * F)
      by (apply Z.mul_le_mono_nonneg_l; lia).
    lia. }
  lia.
Qed.

Lemma exponent_mono n1 d1 n2 d2 :
  0 < n1 -> 0 < d1 -> 0 < n2 -> 0 < d2 -> n1 * d2 <= n2 * d1 ->
  exponent_of n1 d1 <= exponent_of n2 d2.
Proof.
  intros Hn1 Hd1 Hn2 Hd2 Hle. unfold exponent_of.
  pose proof grid_pos as Hg.
  assert (HF : n1 * grid / d1 <= n2 * grid / d2).
  { apply Z.div_le_lower_bound; [exact Hd2 |].
    pose proof (Z.div_mod (n1 * grid) d1 ltac:(lia)) as E.
    pose proof (Z.mod_pos_bound (n1 * grid) d1 Hd1) as R.
    set (F := n1 * grid / d1) in *.
    assert (H1 : d1 * F <= n1 * grid) by lia.
    assert (H2 : d2 * (d1 * F) <= d2 * (n1 * grid))
      by (apply Z.mul_le_mono_nonneg_l; lia).
    assert (H3 : n1 * d2 * grid <= n2 * d1 * grid)
      by (apply Z.mul_le_mono_nonneg_r; lia).
    assert (H4 : d1 * (d2 * F) <= d1 * (n2 * grid)) by lia.
    apply Z.mul_le_mono_pos_l in H4; [exact H4 | exact Hd1]. }
  pose proof (Z.log2_le_mono _ _ HF). lia.
Qed.

Lemma fl_units_mono n1 d1 n2 d2 :
  0 < n1 -> 0 < d1 -> 0 < n2 -> 0 < d2 -> n1 * d2 <= n2 * d1 ->
  fl_units n1 d1 <= fl_units n2 d2.
Proof.
  intros Hn1 Hd1 Hn2 Hd2 Hle.
  pose proof (exponent_mono n1 d1 n2 d2 Hn1 Hd1 Hn2 Hd2 Hle) as Hk.
  pose proof (exponent_nonneg n1 d1) as Hk1.
  pose proof grid_pos as Hg.
  destruct (Z.eq_dec (exponent_of n1 d1) (exponent_of n2 d2)) as [Heq | Hne].
  - unfold fl_units. rewrite <- Heq. set (k := exponent_of n1 d1) in *.
    assert (Hp : 0 < 2 ^ k) by (apply Z.pow_pos_nonneg; lia).
    apply Z.mul_le_mono_nonneg_r; [lia |].
    apply round_half_even_mono; try (apply Z.mul_pos_pos; lia).
    assert (H3 : n1 * d2 * (grid * 2 ^ k) <= n2 * d1 * (grid * 2 ^ k))
      by (apply Z.mul_le_mono_nonneg_r; [apply Z.mul_nonneg_nonneg |]; lia).
    lia.
  - assert (Hlt : exponent_of n1 d1 < exponent_of n2 d2) by lia.
    pose proof (significand_below n1 d1 Hn1 Hd1) as Hb.
    pose proof (significand_above n2 d2 Hn2 Hd2 ltac:(lia)) as Ha.
    unfold fl_units.
    set (k1 := exponent_of n1 d1) in *. set (k2 := exponent_of n2 d2) in *.
    set (m1 := round_half_even _ (d1 * 2 ^ k1)) in *.
    set (m2 := round_half_even _ (d2 * 2 ^ k2)) in *.
    assert (Hp1 : 0 < 2 ^ k1) by (apply Z.pow_pos_nonneg; lia).
    assert (Hp2 : 0 < 2 ^ k2) by (apply Z.pow_pos_nonneg; lia).
    assert (H1 : m1 * 2 ^ k1 <= 2 ^ 53 * 2 ^ k1)
      by (apply Z.mul_le_mono_nonneg_r; lia).
    assert (H2 : 2 ^ 52 * 2 ^ k2 <= m2 * 2 ^ k2)
      by (apply Z.mul_le_mono_nonneg_r; lia).
    assert (H3 : 2 ^ 53 * 2 ^ k1 <= 2 ^ 52 * 2 ^ k2).
    { rewrite <- !Z.pow_add_r by lia. apply Z.pow_le_mono_r; lia. }
    lia.
Qed.

Lemma fl_pos_mono n1 d1 n2 d2 :
  0 < n1 -> 0 < d1 -> 0 < n2 -> 0 < d2 -> n1 * d2 <= n2 * d1 ->
  (fl_pos n1 d1 <= fl_pos n2 d2)%Q.
Proof.
  intros Hn1 Hd1 Hn2 Hd2 Hle.
  rewrite (fl_pos_units n1 d1 Hn1 Hd1), (fl_pos_units n2 d2 Hn2 Hd2).
  unfold Qle. cbn [Qnum Qden].
  apply Z.mul_le_mono_nonneg_r; [lia |].
  apply fl_units_mono; assumption.
Qed.

Lemma fl_pos_nonneg n d : 0 < n -> 0 < d -> (0 <= fl_pos n d)%Q.
Proof.
  intros Hn Hd. rewrite (fl_pos_units n d Hn Hd).
  unfold Qle. cbn [Qnum Qden]. pose proof (fl_units_nonneg n d Hn Hd). lia.
Qed.

(** Rounding keeps the order. *)
Lemma fl_monotone x y : (x <= y)%Q -> (fl x <= fl y)%Q.
Proof.
  destruct x as [nx dx], y as [ny dy]. unfold Qle, fl. cbn [Qnum Qden].
  intro H.
  destruct nx as [| nx | nx], ny as [| ny | ny]; try lia.
  - apply fl_pos_nonneg; lia.
  - apply fl_pos_mono; lia.
  - apply (Qopp_le_compat 0). apply fl_pos_nonneg; lia.
  - apply Qle_trans with 0%Q;
      [apply (Qopp_le_compat 0) |]; apply fl_pos_nonneg; lia.
  - apply Qopp_le_compat. apply fl_pos_mono; lia.
Qed.

(** Rounding depends on the value only. *)
Lemma fl_value x y : x == y -> fl x == fl y.
Proof.
  intro H. apply Qle_antisym; apply fl_monotone; rewrite H; apply Qle_refl.
Qed.

Lemma fl_opp x : fl (- x) = (- fl x)%Q.
Proof.
  destruct x as [[| n | n] d]; unfold fl; cbn [Qnum Qden Qopp Z.opp];
    try reflexivity.
  destruct (fl_pos (Z.pos n) (Z.pos d)) as [a b]. unfold Qopp.
  cbn [Qnum Qden]. rewrite Z.opp_involutive. reflexivity.
Qed.

(** ** The two percentages *)

Lemma fl_nonneg x : (0 <= x)%Q -> (0 <= fl x)%Q.
Proof. intro H. apply (fl_monotone 0 x H). Qed.

Lemma fl_nonpos x : (x <= 0)%Q -> (fl x <= 0)%Q.
Proof. intro H. apply (fl_monotone x 0 H). Qed.

Lemma Qdiv_le_compat x y e : (0 < e)%Q -> (x <= y)%Q -> (x / e <= y / e)%Q.
Proof.
  intros He H. unfold Qdiv. apply Qmult_le_compat_r; [exact H |].
  apply Qlt_le_weak, Qinv_lt_0_compat, He.
Qed.

Lemma pnl_pct_sign current entry :
  (0 < entry)%Q ->
  ((entry <= current)%Q -> (0 <= pnl_pct current entry)%Q) /\
  ((current <= entry)%Q -> (pnl_pct current entry <= 0)%Q).
Proof.
  intro He. unfold pnl_pct.
  replace (Qltb 0 entry) with true by (symmetry; apply Qltb_lt, He).
  unfold fmul, fdiv, fsub. split; intro H.
  - apply fl_nonneg. apply Qmult_le_0_compat; [| discriminate].
    apply fl_nonneg.
    apply Qle_shift_div_l; [exact He |]. rewrite Qmult_0_l.
    apply fl_nonneg. apply (proj1 (Qle_minus_iff entry current)), H.
  - apply fl_nonpos.
    assert (Hx : (fl (current - entry) <= 0)%Q).
    { apply fl_nonpos.
      apply (Qplus_le_l _ _ entry). ring_simplify. exact H. }
    assert (Hy : (fl (fl (current - entry) / entry) <= 0)%Q).
    { apply fl_nonpos. apply Qle_shift_div_r; [exact He |].
      rewrite Qmult_0_l. exact Hx. }
    apply (Qmult_le_compat_r _ _ 100) in Hy; [| discriminate].
    rewrite Qmult_0_l in Hy. exact Hy.
Qed.

Lemma pnl_pct_floor current entry :
  (0 < entry)%Q -> is_float entry -> (0 <= current)%Q ->
  (-100 <= pnl_pct current entry)%Q.
Proof.
  intros He Hf Hc. unfold is_float in Hf. unfold pnl_pct.
  replace (Qltb 0 entry) with true by (symmetry; apply Qltb_lt, He).
  unfold fmul, fdiv, fsub.
  assert (H1 : (- entry <= fl (current - entry))%Q).
  { rewrite <- Hf at 1. rewrite <- fl_opp. apply fl_monotone.
    apply (Qplus_le_l _ _ entry). ring_simplify. exact Hc. }
  assert (H2 : (-1 <= fl (fl (current - entry) / entry))%Q).
  { change (-1)%Q with (fl (-1)). apply fl_monotone.
    apply Qle_shift_div_l; [exact He |].
    eapply Qle_trans; [| exact H1]. apply Qle_lteq. right. ring. }
  change (-100)%Q with (fl (-100)). apply fl_monotone.
  apply (Qmult_le_compat_r _ _ 100) in H2; [exact H2 | discriminate].
Qed.

Lemma drop_from_high_range highest current :
  (0 < current)%Q -> (current <= highest)%Q -> is_float highest ->
  (0 <= drop_from_high highest current)%Q /\
  (drop_from_high highest current <= 100)%Q.
Proof.
  intros Hc Hh Hf. unfold is_float in Hf.
  assert (Hpos : (0 < highest)%Q) by (eapply Qlt_le_trans; eassumption).
  unfold drop_from_high.
  replace (Qltb 0 highest) with true by (symmetry; apply Qltb_lt, Hpos).
  unfold fmul, fdiv, fsub. split.
  - apply fl_nonneg. apply Qmult_le_0_compat; [| discriminate].
    apply fl_nonneg.
    apply Qle_shift_div_l; [exact Hpos |]. rewrite Qmult_0_l.
    apply fl_nonneg. apply (proj1 (Qle_minus_iff current highest)), Hh.
  - assert (H1 : (fl (highest - current) <= highest)%Q).
    { rewrite <- Hf at 2. apply fl_monotone.
      apply (Qplus_le_l _ _ (current - highest)). ring_simplify.
      apply Qlt_le_weak, Hc. }
    assert (H2 : (fl (fl (highest - current) / highest) <= 1)%Q).
    { change 1%Q with (fl 1). apply fl_monotone.
      apply Qle_shift_div_r; [exact Hpos |].
      rewrite Qmult_1_l. exact H1. }
    change 100%Q with (fl 100). apply fl_monotone.
    apply (Qmult_le_compat_r _ _ 100) in H2; [exact H2 | discriminate].
Qed.

(** X20. The two percentages of an evaluation, as binary64 computes
    them. With a positive entry price the PnL is not negative when the
    current price is not below the entry price and not positive when it
    is not above it, so that a positive PnL means a price above the entry
    price and a negative one a price below it; for an entry price that
    is a float and a price that is not negative it is never below -100;
    with an entry price that is not positive it is 0. The drop from the
    new highest price, for a positive current price, lies from 0 to 100,
    both included. *)
Theorem percentages_in_range :
  (forall current entry,
     (0 < entry)%Q ->
     ((entry <= current)%Q -> (0 <= pnl_pct current entry)%Q) /\
     ((current <= entry)%Q -> (pnl_pct current entry <= 0)%Q) /\
     ((0 < pnl_pct current entry)%Q -> (entry < current)%Q) /\
     ((pnl_pct current entry < 0)%Q -> (current < entry)%Q) /\
     (is_float entry -> (0 <= current)%Q ->
      (-100 <= pnl_pct current entry)%Q)) /\
  (forall current entry,
     (entry <= 0)%Q -> pnl_pct current entry = 0%Q) /\
  (forall stored current,
     (0 < current)%Q ->
     let highest := new_highest stored current in
     is_float highest ->
     (0 <= drop_from_high highest current)%Q /\
     (drop_from_high highest current <= 100)%Q).
Proof.
  split; [| split].
  - intros current entry He.
    destruct (pnl_pct_sign current entry He) as [Hup Hdown].
    split; [exact Hup |]. split; [exact Hdown |].
    split; [| split].
    + intro Hpos. apply Qnot_le_lt. intro Hle.
      exact (Qlt_not_le _ _ Hpos (Hdown Hle)).
    + intro Hneg. apply Qnot_le_lt. intro Hle.
      exact (Qlt_not_le _ _ Hneg (Hup Hle)).
    + apply pnl_pct_floor, He.
  - intros current entry He. unfold pnl_pct.
    assert (Hb : Qltb 0 entry = false) by (apply Qltb_ge, He).
    rewrite Hb. reflexivity.
  - intros stored current Hc highest Hf.
    apply drop_from_high_range; [exact Hc | | exact Hf].
    unfold highest, new_highest. destruct stored as [h |];
      [| apply Qle_refl].
    destruct (Qltb h current) eqn:Hlt; [apply Qle_refl |].
    apply Qltb_ge, Hlt.
Qed.

Lemma percentages_in_range_witness :
  (0 <= pnl_pct 2 1)%Q /\ (-100 <= pnl_pct 0 1)%Q /\
  (drop_from_high (new_highest (Some 4%Q) 3) 3 <= 100)%Q.
Proof.
  destruct percentages_in_range as (Hpnl & _ & Hdrop).
  destruct (Hpnl 2%Q 1%Q) as (Hup & _); [reflexivity |].
  destruct (Hpnl 0%Q 1%Q) as (_ & _ & _ & _ & Hfloor); [reflexivity |].
  destruct (Hdrop (Some 4%Q) 3%Q) as [_ Hmost];
    [reflexivity | reflexivity |].
  split; [apply Hup; discriminate |].
  split; [apply Hfloor; [reflexivity | discriminate] | exact Hmost].
Defined.

(** At the edge the rounding decides. Bought at 1.2 and now at 0.9 the
    PnL comes out as -24.999999999999993, above a stop-loss threshold of
    -25 although the exact loss is 25%; bought at 0.4 and now at 0.3 it
    comes out as -25.000000000000007. And the drop from a high of 1.0 to
    a price of 1e-20 is 100 exactly. *)
Example percentages_at_the_edge :
  pnl_pct (fl (9 # 10)) (fl (12 # 10))
  = (-3518437208883199 # 140737488355328)%Q /\
  Qleb (pnl_pct (fl (9 # 10)) (fl (12 # 10))) (-25) = false /\
  pnl_pct (fl (3 # 10)) (fl (4 # 10))
  = (-3518437208883201 # 140737488355328)%Q /\
  Qleb (pnl_pct (fl (3 # 10)) (fl (4 # 10))) (-25) = true /\
  drop_from_high 1 (fl (1 # 100000000000000000000)) = 100%Q.
Proof. vm_compute. repeat split. Qed.

(** * The trade processor *)

Lemma pick_app {A B} (f : A -> option B) (l1 l2 : list A) :
  pick f (l1 ++ l2) = (pick f l1 ++ pick f l2)%list.
Proof.
  induction l1 as [| x l1 IH]; simpl; [reflexivity |].
  destruct (f x); simpl; rewrite IH; reflexivity.
Qed.

Lemma sent_app pw pw' d :
  reports pw' = (reports pw ++ d)%list -> sent pw pw' = d.
Proof.
  intro H. unfold sent. rewrite H, skipn_app, skipn_all, Nat.sub_diag.
  reflexivity.
Qed.

Section ProcessorRuns.

Variable lib : pylib.
Variable E : env.

(** What the processor does with one pending trade that names a
    contract: the buy, then the report of its outcome. *)
Lemma process_buy_run t contract pw :
  trade_contract_address t = Some contract ->
  let run := buy_token lib E contract
               (or_default (trade_allocation_sol t) (fl (1 # 10))) 100
               (base pw) in
  let pw1 := PWorld (snd run) (reports pw) in
  process_buy lib E t pw =
  (Ok tt,
   match fst run with
   | Ok r =>
       if success r then
         told (told pw1 (RTradeBought (trade_id t) (signature r)
                                      (expected_output r)))
              (RLog "success" ("TX: " ++ shown (signature r)))
       else
         told (told pw1 (RTradeFailed (trade_id t) (error r)))
              (RLog "error" ("Trade ID: " ++ trade_id t))
   | Raise e => told pw1 (RTradeFailed (trade_id t) (Some (exn_text e)))
   end).
Proof.
  intros Hc run pw1. subst pw1 run. unfold process_buy. rewrite Hc.
  unfold ptry, pbind, in_base, send, backend, told.
  destruct (buy_token lib E contract _ 100 (base pw)) as [[r | e] w1];
    cbn [fst snd base reports]; [| reflexivity].
  destruct (success r); reflexivity.
Qed.

(** Reports about trades only: no pull and nothing about a sell. *)
Lemma trade_reports_only (d : list report) :
  Forall (fun r => is_pull r = false /\ sell_outcome r = None) d ->
  pick sell_outcome d = [] /\ ~ In RPendingSells d.
Proof.
  induction d as [| r d IH]; intro H; [split; [reflexivity | intros []] |].
  inversion H as [| ? ? [Hp Hs] Hrest]; subst.
  destruct (IH Hrest) as [Hpick Hin]. simpl. rewrite Hs.
  split; [exact Hpick |].
  intros [-> | Hd]; [discriminate Hp | exact (Hin Hd)].
Qed.

Lemma process_buy_reports t pw :
  has_contract t ->
  exists pw' d,
    process_buy lib E t pw = (Ok tt, pw') /\
    reports pw' = (reports pw ++ d)%list /\
    pick trade_outcome d = [trade_id t] /\
    Forall (fun r => is_pull r = false /\ sell_outcome r = None) d.
Proof.
  intro Hc. unfold has_contract in Hc.
  destruct (trade_contract_address t) as [contract |] eqn:Ht;
    [| contradiction].
  rewrite (process_buy_run t contract pw Ht).
  destruct (fst (buy_token lib E contract _ 100 (base pw))) as [r | e].
  - destruct (success r); eexists; eexists;
      (split; [reflexivity |]); unfold told; cbn [reports];
      rewrite <- app_assoc;
      (split; [reflexivity |]); (split; [reflexivity |]);
      repeat constructor.
  - eexists. eexists. split; [reflexivity |]. unfold told. cbn [reports].
    split; [reflexivity |]. split; [reflexivity | repeat constructor].
Qed.

Lemma process_buy_no_contract t pw :
  trade_contract_address t = None ->
  process_buy lib E t pw =
  (Raise (Exn TypeError "'NoneType' object is not subscriptable"), pw).
Proof. intro H. unfold process_buy. rewrite H. reflexivity. Qed.

Lemma each_buy_reports trades : forall pw,
  Forall has_contract trades ->
  exists pw' d,
    each (process_buy lib E) trades pw = (Ok tt, pw') /\
    reports pw' = (reports pw ++ d)%list /\
    pick trade_outcome d = map trade_id trades /\
    Forall (fun r => is_pull r = false /\ sell_outcome r = None) d.
Proof.
  induction trades as [| t rest IH]; intros pw Hall.
  - exists pw, []. rewrite app_nil_r.
    split; [reflexivity |]. split; [reflexivity |].
    split; [reflexivity | constructor].
  - inversion Hall as [| ? ? Ht Hrest]; subst.
    destruct (process_buy_reports t pw Ht)
      as (pw1 & d1 & Hrun & Hd1 & Hp1 & Hq1).
    destruct (IH pw1 Hrest) as (pw2 & d2 & Hrun2 & Hd2 & Hp2 & Hq2).
    exists pw2, (d1 ++ d2)%list. cbn [each]. unfold pbind. rewrite Hrun.
    split; [exact Hrun2 |].
    split; [rewrite Hd2, Hd1, app_assoc; reflexivity |].
    split; [rewrite pick_app, Hp1, Hp2; reflexivity |].
    apply Forall_app. split; assumption.
Qed.

Lemma each_buy_stops good bad rest : forall pw,
  Forall has_contract good ->
  trade_contract_address bad = None ->
  exists pw' d,
    each (process_buy lib E) (good ++ bad :: rest) pw =
    (Raise (Exn TypeError "'NoneType' object is not subscriptable"), pw') /\
    reports pw' = (reports pw ++ d)%list /\
    pick trade_outcome d = map trade_id good /\
    Forall (fun r => is_pull r = false /\ sell_outcome r = None) d.
Proof.
  induction good as [| t good IH]; intros pw Hall Hbad.
  - exists pw, []. cbn [app each]. unfold pbind.
    rewrite (process_buy_no_contract bad pw Hbad), app_nil_r.
    split; [reflexivity |]. split; [reflexivity |].
    split; [reflexivity | constructor].
  - inversion Hall as [| ? ? Ht Hrest]; subst.
    destruct (process_buy_reports t pw Ht)
      as (pw1 & d1 & Hrun & Hd1 & Hp1 & Hq1).
    destruct (IH pw1 Hrest Hbad) as (pw2 & d2 & Hrun2 & Hd2 & Hp2 & Hq2).
    exists pw2, (d1 ++ d2)%list. cbn [app each]. unfold pbind. rewrite Hrun.
    split; [exact Hrun2 |].
    split; [rewrite Hd2, Hd1, app_assoc; reflexivity |].
    split; [rewrite pick_app, Hp1, Hp2; reflexivity |].
    apply Forall_app. split; assumption.
Qed.

(** What the processor does with one pending sell that names a
    contract. *)
Lemma process_sell_run s contract pw :
  sell_contract s = Some contract ->
  let percentage := or_default (sell_percent s) 100 in
  let run := sell_token lib E contract percentage
               (or_default (sell_slippage_bps s) 100) (base pw) in
  let pw1 := PWorld (snd run) (reports pw) in
  process_sell lib E s pw =
  (Ok tt,
   match fst run with
   | Ok r =>
       if success r then
         let pw3 :=
           told (told pw1
                   (RSellExecuted (sell_id s) (signature r)
                      (fdiv (inject_Z (or_default (expected_output r) 0%Z))
                            1000000000)))
                (RLog "success" ("TX: " ++ shown (signature r))) in
         if (nonempty (sell_trade_id s) && (percentage =? 50))%bool
         then told pw3 (RPartialTp1 (or_default (sell_trade_id s) ""))
         else pw3
       else
         told (told pw1 (RSellFailed (sell_id s) (error r)))
              (RLog "error" ("Sell ID: " ++ sell_id s))
   | Raise e => told pw1 (RSellFailed (sell_id s) (Some (exn_text e)))
   end).
Proof.
  intros Hc percentage run pw1. subst pw1 run percentage.
  unfold sell_contract in Hc. unfold process_sell.
  destruct (get_default (sell_trades s) None) as [[c |] |];
    try discriminate Hc.
  destruct (String.eqb c "") eqn:Hempty; [discriminate Hc |].
  inversion Hc; subst contract. clear Hc.
  unfold nonempty at 1. rewrite Hempty. cbn [negb or_default].
  unfold ptry, pbind, in_base, send, backend, told, pret.
  destruct (sell_token lib E c _ _ (base pw)) as [[r | e] w1];
    cbn [fst snd base reports]; [| reflexivity].
  destruct (success r); [| reflexivity].
  destruct (_ && _)%bool; reflexivity.
Qed.

Lemma process_sell_missing s pw :
  has_trade_info s -> sell_contract s = None ->
  process_sell lib E s pw =
  (Ok tt, told pw (RSellFailed (sell_id s) (Some "Missing contract address"))).
Proof.
  unfold has_trade_info, sell_contract, process_sell.
  intros Hinfo Hnone.
  destruct (sell_trades s) as [| | [c |]]; cbn [get_default] in *;
    [reflexivity | contradiction | | reflexivity].
  unfold nonempty. destruct (String.eqb c ""); [reflexivity | discriminate].
Qed.

Lemma process_sell_reports s pw :
  has_trade_info s ->
  exists pw' d,
    process_sell lib E s pw = (Ok tt, pw') /\
    reports pw' = (reports pw ++ d)%list /\
    pick sell_outcome d = [sell_id s] /\
    Forall (fun r => is_pull r = false /\ trade_outcome r = None) d.
Proof.
  intro Hinfo.
  destruct (sell_contract s) as [contract |] eqn:Hc.
  - rewrite (process_sell_run s contract pw Hc).
    destruct (fst (sell_token lib E contract _ _ (base pw))) as [r | e].
    + destruct (success r).
      * destruct (_ && _)%bool; eexists; eexists;
          (split; [reflexivity |]); unfold told; cbn [reports];
          rewrite <- !app_assoc;
          (split; [reflexivity |]); (split; [reflexivity |]);
          repeat constructor.
      * eexists; eexists;
          (split; [reflexivity |]); unfold told; cbn [reports];
          rewrite <- !app_assoc;
          (split; [reflexivity |]); (split; [reflexivity |]);
          repeat constructor.
    + eexists. eexists. split; [reflexivity |]. unfold told. cbn [reports].
      split; [reflexivity |]. split; [reflexivity | repeat constructor].
  - rewrite (process_sell_missing s pw Hinfo Hc).
    eexists. eexists. split; [reflexivity |]. unfold told. cbn [reports].
    split; [reflexivity |]. split; [reflexivity | repeat constructor].
Qed.

Lemma each_sell_reports sells : forall pw,
  Forall has_trade_info sells ->
  exists pw' d,
    each (process_sell lib E) sells pw = (Ok tt, pw') /\
    reports pw' = (reports pw ++ d)%list /\
    pick sell_outcome d = map sell_id sells /\
    Forall (fun r => is_pull r = false /\ trade_outcome r = None) d.
Proof.
  induction sells as [| s rest IH]; intros pw Hall.
  - exists pw, []. rewrite app_nil_r.
    split; [reflexivity |]. split; [reflexivity |].
    split; [reflexivity | constructor].
  - inversion Hall as [| ? ? Hs Hrest]; subst.
    destruct (process_sell_reports s pw Hs)
      as (pw1 & d1 & Hrun & Hd1 & Hp1 & Hq1).
    destruct (IH pw1 Hrest) as (pw2 & d2 & Hrun2 & Hd2 & Hp2 & Hq2).
    exists pw2, (d1 ++ d2)%list. cbn [each]. unfold pbind. rewrite Hrun.
    split; [exact Hrun2 |].
    split; [rewrite Hd2, Hd1, app_assoc; reflexivity |].
    split; [rewrite pick_app, Hp1, Hp2; reflexivity |].
    apply Forall_app. split; assumption.
Qed.

End ProcessorRuns.

(** X21. Every pending trade of a batch that names a contract address
    gets exactly one outcome report, bought or failed, in the order of the
    batch, whatever happens to the trades before it: a buy that returns a
    failure or raises is reported as failed and the loop goes on. *)
Theorem every_trade_reported lib E trades pw :
  Forall has_contract trades ->
  exists pw',
    each (process_buy lib E) trades pw = (Ok tt, pw') /\
    pick trade_outcome (sent pw pw') = map trade_id trades.
Proof.
  intro Hall.
  destruct (each_buy_reports lib E trades pw Hall)
    as (pw' & d & Hrun & Hd & Hp & _).
  exists pw'. split; [exact Hrun |].
  rewrite (sent_app pw pw' d Hd). exact Hp.
Qed.

Lemma every_trade_reported_witness :
  exists pw',
    each (process_buy plain_lib silent_env) three_trades pstart = (Ok tt, pw')
    /\ pick trade_outcome (sent pstart pw') = ["buy-1"; "buy-2"; "buy-3"].
Proof.
  apply (every_trade_reported plain_lib silent_env three_trades pstart).
  repeat constructor; discriminate.
Defined.

(** X22. The outcome reported for a trade follows the buy: bought, with
    the signature and the expected tokens, when [buy_token] returned a
    success; failed with the error of the result when it returned a
    failure; failed with the text of the exception when it raised. *)
Theorem buy_outcome_reported lib E t contract pw :
  trade_contract_address t = Some contract ->
  let result := fst (buy_token lib E contract
                       (or_default (trade_allocation_sol t) (fl (1 # 10))) 100
                       (base pw)) in
  let outcome := hd_error (sent pw (snd (process_buy lib E t pw))) in
  (forall r, result = Ok r -> success r = true ->
     outcome = Some (RTradeBought (trade_id t) (signature r)
                                  (expected_output r))) /\
  (forall r, result = Ok r -> success r = false ->
     outcome = Some (RTradeFailed (trade_id t) (error r))) /\
  (forall e, result = Raise e ->
     outcome = Some (RTradeFailed (trade_id t) (Some (exn_text e)))).
Proof.
  intros Hc result outcome. subst result outcome.
  rewrite (process_buy_run lib E t contract pw Hc). cbn [snd].
  split; [| split].
  - intros r -> Hs. rewrite Hs.
    erewrite sent_app;
      [| unfold told; cbn [reports]; rewrite <- app_assoc; reflexivity].
    reflexivity.
  - intros r -> Hs. rewrite Hs.
    erewrite sent_app;
      [| unfold told; cbn [reports]; rewrite <- app_assoc; reflexivity].
    reflexivity.
  - intros e ->.
    erewrite sent_app; [| unfold told; cbn [reports]; reflexivity].
    reflexivity.
Qed.

Lemma buy_outcome_reported_witness :
  hd_error
    (sent pstart
       (snd (process_buy plain_lib silent_env
               (mkTrade "buy-1" (Some "MintAAAAAAAA") (Some (1 # 2)))
               pstart)))
  = Some (RTradeFailed "buy-1"
            (Some "Failed to connect to any Solana RPC endpoint")).
Proof.
  destruct (buy_outcome_reported plain_lib silent_env
              (mkTrade "buy-1" (Some "MintAAAAAAAA") (Some (1 # 2)))
              "MintAAAAAAAA" pstart eq_refl) as (_ & _ & Hraise).
  apply (Hraise no_endpoint). reflexivity.
Defined.

(** X23. Every pending sell whose [trades] object is not null gets
    exactly one outcome report, executed or failed, in the order of the
    batch; a sell that fails or raises does not stop the sells after
    it. *)
Theorem every_sell_reported lib E sells pw :
  Forall has_trade_info sells ->
  exists pw',
    each (process_sell lib E) sells pw = (Ok tt, pw') /\
    pick sell_outcome (sent pw pw') = map sell_id sells.
Proof.
  intro Hall.
  destruct (each_sell_reports lib E sells pw Hall)
    as (pw' & d & Hrun & Hd & Hp & _).
  exists pw'. split; [exact Hrun |].
  rewrite (sent_app pw pw' d Hd). exact Hp.
Qed.

Lemma every_sell_reported_witness :
  exists pw',
    each (process_sell plain_lib silent_env) [orphan_sell; half_sell] pstart
    = (Ok tt, pw') /\
    pick sell_outcome (sent pstart pw') = ["sell-1"; "sell-2"].
Proof.
  apply (every_sell_reported plain_lib silent_env [orphan_sell; half_sell]
           pstart).
  repeat constructor; discriminate.
Defined.

(** X24. A pending sell that names no contract address (no [trades]
    object, or one whose [contract_address] is missing, null or empty) is
    reported as failed with "Missing contract address" and nothing else
    is done for it: no RPC call, no quote, no swap. *)
Theorem sell_without_contract lib E s pw :
  has_trade_info s -> sell_contract s = None ->
  process_sell lib E s pw =
  (Ok tt, told pw (RSellFailed (sell_id s) (Some "Missing contract address")))
  /\ trace (base (snd (process_sell lib E s pw))) = trace (base pw)
  /\ rpc (base (snd (process_sell lib E s pw))) = rpc (base pw).
Proof.
  intros Hinfo Hnone.
  rewrite (process_sell_missing lib E s pw Hinfo Hnone).
  repeat split.
Qed.

Lemma sell_without_contract_witness :
  process_sell plain_lib selling_env orphan_sell pstart =
  (Ok tt,
   PWorld (World 1 false [])
          [RSellFailed "sell-1" (Some "Missing contract address")]).
Proof.
  destruct (sell_without_contract plain_lib selling_env orphan_sell pstart)
    as [H _]; [discriminate | reflexivity |]. exact H.
Defined.

(** X25. The partial take-profit transition is reported exactly for a
    sell that succeeded, is linked to a trade by a non-empty [trade_id]
    and has [percentage] 50 (a missing percentage is 100); it is reported
    for that trade. *)
Theorem partial_tp1_reported lib E s pw id :
  has_trade_info s ->
  (In (RPartialTp1 id) (sent pw (snd (process_sell lib E s pw))) <->
   exists contract r,
     sell_contract s = Some contract /\
     fst (sell_token lib E contract (or_default (sell_percent s) 100)
            (or_default (sell_slippage_bps s) 100) (base pw)) = Ok r /\
     success r = true /\
     sell_trade_id s = Some id /\ id <> "" /\ sell_percent s = Some 50).
Proof.
  intro Hinfo.
  destruct (sell_contract s) as [contract |] eqn:Hc.
  - rewrite (process_sell_run lib E s contract pw Hc). cbv zeta. cbn [snd].
    remember (fst (sell_token lib E contract (or_default (sell_percent s) 100)
                     (or_default (sell_slippage_bps s) 100) (base pw)))
      as result eqn:Hresult.
    destruct result as [r | e].
    + destruct (success r) eqn:Hs.
      * destruct (nonempty (sell_trade_id s)
                  && (or_default (sell_percent s) 100 =? 50))%bool eqn:Hb.
        -- erewrite sent_app;
             [| unfold told; cbn [reports]; rewrite <- !app_assoc;
                reflexivity].
           apply andb_true_iff in Hb. destruct Hb as [Hid Hp].
           apply Z.eqb_eq in Hp. unfold nonempty in Hid.
           destruct (sell_trade_id s) as [tid |] eqn:Ht; [| discriminate].
           apply negb_true_iff, String.eqb_neq in Hid.
           assert (Hpct : sell_percent s = Some 50).
           { destruct (sell_percent s) as [p |]; simpl in Hp;
               [subst; reflexivity | discriminate]. }
           simpl. split.
           ++ intros [H | [H | [H | []]]]; try discriminate H.
              inversion H; subst id.
              exists contract, r. repeat split; auto.
           ++ intros (c & r0 & _ & _ & _ & Hid2 & _).
              inversion Hid2; subst. auto.
        -- erewrite sent_app;
             [| unfold told; cbn [reports]; rewrite <- !app_assoc;
                reflexivity].
           simpl. split.
           ++ intros [H | [H | []]]; discriminate H.
           ++ intros (c & r0 & _ & _ & _ & Hid & Hne & Hp). exfalso.
              rewrite Hid, Hp in Hb. unfold nonempty in Hb. simpl in Hb.
              apply String.eqb_neq in Hne. rewrite Hne in Hb.
              discriminate Hb.
      * erewrite sent_app;
          [| unfold told; cbn [reports]; rewrite <- !app_assoc;
             reflexivity].
        simpl. split.
        -- intros [H | [H | []]]; discriminate H.
        -- intros (c & r0 & Hc0 & Hr & Hs0 & _).
           inversion Hc0; subst c. rewrite <- Hresult in Hr.
           inversion Hr; subst r0. rewrite Hs in Hs0. discriminate Hs0.
    + erewrite sent_app; [| unfold told; cbn [reports]; reflexivity].
      simpl. split.
      * intros [H | []]; discriminate H.
      * intros (c & r0 & Hc0 & Hr & _).
        inversion Hc0; subst c. rewrite <- Hresult in Hr. discriminate Hr.
  - rewrite (process_sell_missing lib E s pw Hinfo Hc). cbn [snd].
    erewrite sent_app; [| unfold told; cbn [reports]; reflexivity].
    simpl. split.
    + intros [H | []]; discriminate H.
    + intros (c & r0 & Hc0 & _). discriminate Hc0.
Qed.

Lemma partial_tp1_reported_witness :
  In (RPartialTp1 "buy-1")
     (sent pstart (snd (process_sell plain_lib selling_env half_sell pstart))).
Proof.
  apply (partial_tp1_reported plain_lib selling_env half_sell pstart "buy-1");
    [discriminate |].
  exists USDC_MINT,
    (mkTradeResult true (Some "5SigAAAA") None (Some 2000000) (Some 2000000)).
  repeat split; try (vm_compute; reflexivity). discriminate.
Defined.

(** X26. A batch in which every trade names a contract address and
    every sell has its [trades] object is processed to the end: the cycle
    pulls the trades, reports one outcome for each, pulls the sells,
    reports one outcome for each, and sleeps 3 seconds. *)
Theorem cycle_completes lib E pending_trades pending_sells pw :
  Forall has_contract (pending_trades (clock (base pw))) ->
  (forall n, Forall has_trade_info (pending_sells n)) ->
  exists pw' n t,
    process_cycle lib E pending_trades pending_sells pw = (Ok tt, pw') /\
    pick trade_outcome (sent pw pw')
    = map trade_id (pending_trades (clock (base pw))) /\
    pick sell_outcome (sent pw pw') = map sell_id (pending_sells n) /\
    trace (base pw') = (t ++ [EvSleep 3])%list.
Proof.
  intros Htrades Hsells.
  unfold process_cycle, ptry. unfold pbind at 1. unfold backend at 1.
  destruct (each_buy_reports lib E (pending_trades (clock (base pw)))
              (told pw RPendingTrades) Htrades)
    as (pw1 & d1 & Hrun1 & Hd1 & Hp1 & Hq1).
  fold (told pw RPendingTrades). unfold pbind at 1. rewrite Hrun1.
  unfold pbind at 1. unfold backend at 1.
  destruct (each_sell_reports lib E (pending_sells (clock (base pw1)))
              (told pw1 RPendingSells) (Hsells _))
    as (pw2 & d2 & Hrun2 & Hd2 & Hp2 & Hq2).
  fold (told pw1 RPendingSells). unfold pbind at 1. rewrite Hrun2.
  unfold in_base, sleep, emit. cbn [fst snd].
  eexists. exists (clock (base pw1)), (trace (base pw2)).
  split; [reflexivity |].
  assert (Hsent : sent pw (PWorld
            (World (clock (base pw2)) (rpc (base pw2))
                   (trace (base pw2) ++ [EvSleep 3])) (reports pw2))
          = (RPendingTrades :: d1 ++ RPendingSells :: d2)%list).
  { apply sent_app. cbn [reports]. rewrite Hd2. unfold told at 1.
    cbn [reports]. rewrite Hd1. unfold told. cbn [reports].
    rewrite <- !app_assoc. reflexivity. }
  rewrite Hsent.
  destruct (trade_reports_only d1 Hq1) as [Hs1 _].
  assert (Ht2 : pick trade_outcome d2 = []).
  { clear - Hq2. induction d2 as [| r d IH]; [reflexivity |].
    inversion Hq2 as [| ? ? [_ Hr] Hrest]; subst. simpl. rewrite Hr.
    apply IH, Hrest. }
  split; [| split; [| reflexivity]].
  - simpl. rewrite pick_app. simpl. rewrite Hp1, Ht2, app_nil_r.
    reflexivity.
  - simpl. rewrite pick_app. simpl. rewrite Hs1, Hp2. reflexivity.
Qed.

Lemma cycle_completes_witness :
  exists pw',
    process_cycle plain_lib silent_env (fun _ => three_trades)
                  (fun _ => [orphan_sell]) pstart = (Ok tt, pw') /\
    pick sell_outcome (sent pstart pw') = ["sell-1"].
Proof.
  destruct (cycle_completes plain_lib silent_env (fun _ => three_trades)
              (fun _ => [orphan_sell]) pstart)
    as (pw' & n & t & Hrun & _ & Hs & _).
  - repeat constructor; discriminate.
  - intros _. repeat constructor. discriminate.
  - exists pw'. split; [exact Hrun | exact Hs].
Defined.

(** X27. A pending trade without a contract address stops the whole
    cycle: the log line before the per-trade [try] slices the address and
    raises. The trades before it have their outcome, the trades after it
    have none, the pending sells are not even pulled, and the cycle ends
    in the 10 second sleep of the outer handler. *)
Theorem trade_without_contract_stops_cycle lib E pending_trades pending_sells
    pw good bad rest :
  pending_trades (clock (base pw)) = (good ++ bad :: rest)%list ->
  Forall has_contract good ->
  trade_contract_address bad = None ->
  exists pw' t,
    process_cycle lib E pending_trades pending_sells pw = (Ok tt, pw') /\
    pick trade_outcome (sent pw pw') = map trade_id good /\
    pick sell_outcome (sent pw pw') = [] /\
    ~ In RPendingSells (sent pw pw') /\
    trace (base pw') = (t ++ [EvSleep 10])%list.
Proof.
  intros Hlist Hgood Hbad.
  unfold process_cycle, ptry. unfold pbind at 1. unfold backend at 1.
  rewrite Hlist.
  destruct (each_buy_stops lib E good bad rest (told pw RPendingTrades)
              Hgood Hbad) as (pw1 & d1 & Hrun1 & Hd1 & Hp1 & Hq1).
  fold (told pw RPendingTrades). unfold pbind at 1. rewrite Hrun1.
  unfold in_base, sleep, emit. cbn [fst snd].
  eexists. exists (trace (base pw1)). split; [reflexivity |].
  assert (Hsent : sent pw (PWorld
            (World (clock (base pw1)) (rpc (base pw1))
                   (trace (base pw1) ++ [EvSleep 10])) (reports pw1))
          = (RPendingTrades :: d1)%list).
  { apply sent_app. cbn [reports]. rewrite Hd1. unfold told. cbn [reports].
    rewrite <- app_assoc. reflexivity. }
  rewrite Hsent.
  destruct (trade_reports_only d1 Hq1) as [Hs1 Hin1].
  split; [simpl; exact Hp1 |]. split; [simpl; exact Hs1 |].
  split; [| reflexivity].
  intros [H | H]; [discriminate H | exact (Hin1 H)].
Qed.

Lemma trade_without_contract_stops_cycle_witness :
  exists pw',
    process_cycle plain_lib silent_env
      (fun _ => [mkTrade "buy-1" (Some "MintAAAAAAAA") None;
                 mkTrade "buy-2" None None;
                 mkTrade "buy-3" (Some "MintCCCCCCCC") None])
      (fun _ => [half_sell]) pstart = (Ok tt, pw') /\
    pick trade_outcome (sent pstart pw') = ["buy-1"].
Proof.
  destruct (trade_without_contract_stops_cycle plain_lib silent_env
              (fun _ => [mkTrade "buy-1" (Some "MintAAAAAAAA") None;
                         mkTrade "buy-2" None None;
                         mkTrade "buy-3" (Some "MintCCCCCCCC") None])
              (fun _ => [half_sell]) pstart
              [mkTrade "buy-1" (Some "MintAAAAAAAA") None]
              (mkTrade "buy-2" None None)
              [mkTrade "buy-3" (Some "MintCCCCCCCC") None])
    as (pw' & t & Hrun & Hp & _).
  - reflexivity.
  - repeat constructor. discriminate.
  - reflexivity.
  - exists pw'. split; [exact Hrun | exact Hp].
Defined.

Section ProcessorGrowth.

Variable lib : pylib.
Variable E : env.

Lemma process_buy_grows t pw :
  exists d, reports (snd (process_buy lib E t pw)) = (reports pw ++ d)%list.
Proof.
  destruct (trade_contract_address t) as [contract |] eqn:Hc.
  - destruct (process_buy_reports lib E t pw) as (pw' & d & Hrun & Hd & _);
      [unfold has_contract; rewrite Hc; discriminate |].
    exists d. rewrite Hrun. exact Hd.
  - rewrite (process_buy_no_contract lib E t pw Hc).
    exists []. rewrite app_nil_r. reflexivity.
Qed.

Lemma process_sell_grows s pw :
  exists d, reports (snd (process_sell lib E s pw)) = (reports pw ++ d)%list.
Proof.
  destruct (sell_trades s) as [| | c] eqn:Hc.
  - destruct (process_sell_reports lib E s pw) as (pw' & d & Hrun & Hd & _);
      [unfold has_trade_info; rewrite Hc; discriminate |].
    exists d. rewrite Hrun. exact Hd.
  - unfold process_sell. rewrite Hc. exists []. rewrite app_nil_r.
    reflexivity.
  - destruct (process_sell_reports lib E s pw) as (pw' & d & Hrun & Hd & _);
      [unfold has_trade_info; rewrite Hc; discriminate |].
    exists d. rewrite Hrun. exact Hd.
Qed.

Lemma each_grows {A} (body : A -> P unit) items :
  (forall x pw, exists d, reports (snd (body x pw)) = (reports pw ++ d)%list) ->
  forall pw,
    exists d, reports (snd (each body items pw)) = (reports pw ++ d)%list.
Proof.
  intro Hbody. induction items as [| x rest IH]; intro pw.
  - exists []. rewrite app_nil_r. reflexivity.
  - cbn [each]. unfold pbind. destruct (Hbody x pw) as (d1 & Hd1).
    destruct (body x pw) as [[[] | e] pw1]; cbn [snd] in *.
    + destruct (IH pw1) as (d2 & Hd2). exists (d1 ++ d2)%list.
      rewrite Hd2, Hd1, app_assoc. reflexivity.
    + exists d1. exact Hd1.
Qed.

End ProcessorGrowth.

(** X28. A cycle of the processor never raises: it starts by pulling the
    pending trades and ends either with the sleep of 3 seconds, having
    pulled the pending sells as well, or, when something outside the
    per-item handlers raised, with the sleep of 10 seconds. *)
Theorem process_cycle_ends lib E pending_trades pending_sells pw :
  exists pw' rest t,
    process_cycle lib E pending_trades pending_sells pw = (Ok tt, pw') /\
    reports pw' = (reports pw ++ RPendingTrades :: rest)%list /\
    ((trace (base pw') = (t ++ [EvSleep 3])%list /\ In RPendingSells rest) \/
     trace (base pw') = (t ++ [EvSleep 10])%list).
Proof.
  unfold process_cycle, ptry. unfold pbind at 1. unfold backend at 1.
  fold (told pw RPendingTrades). unfold pbind at 1.
  destruct (each_grows (process_buy lib E)
              (pending_trades (clock (base pw)))
              (process_buy_grows lib E) (told pw RPendingTrades))
    as (d1 & Hd1).
  destruct (each (process_buy lib E) _ (told pw RPendingTrades))
    as [[[] | e1] pw1]; cbn [snd] in Hd1.
  - unfold pbind at 1. unfold backend at 1.
    fold (told pw1 RPendingSells). unfold pbind at 1.
    destruct (each_grows (process_sell lib E)
                (pending_sells (clock (base pw1)))
                (process_sell_grows lib E) (told pw1 RPendingSells))
      as (d2 & Hd2).
    destruct (each (process_sell lib E) _ (told pw1 RPendingSells))
      as [[[] | e2] pw2]; cbn [snd] in Hd2;
      unfold in_base, sleep, emit; cbn [fst snd];
      eexists; exists (d1 ++ RPendingSells :: d2)%list, (trace (base pw2));
      (split; [reflexivity |]);
      (split;
       [cbn [reports]; rewrite Hd2; unfold told at 1; cbn [reports];
        rewrite Hd1; unfold told; cbn [reports];
        rewrite <- !app_assoc; reflexivity |]).
    + left. split; [reflexivity |].
      apply in_or_app. right. left. reflexivity.
    + right. reflexivity.
  - unfold in_base, sleep, emit. cbn [fst snd].
    eexists. exists d1, (trace (base pw1)). split; [reflexivity |].
    split; [| right; reflexivity].
    cbn [reports]. rewrite Hd1. unfold told. cbn [reports].
    rewrite <- app_assoc. reflexivity.
Qed.
